(** * Verification of the portfolio metrics engine

    A shallow embedding of [portfolio_metrics_engine.py]
    ([PortfolioMetricsEngine]) and the properties of its position
    reconciliation, followed by the part of [binance_batch_extractor.py]
    ([BinanceBatchExtractor]) that writes the files the engine reads.

    - Python [str] values are [string]s, the bytes of their UTF-8
      encoding; the helpers of [str] that the engine calls ([strip],
      [split], [replace], [join]) are defined on them with the behaviour
      they have on ASCII text, and [float] likewise.  [str.strip] drops
      the ASCII white space, the separators 0x1C-0x1F among it; [float]
      drops the space, TAB, LF, VT, FF and CR only.
    - Python [float] values are IEEE 754 binary64 numbers: the standard
      library's [spec_float] with 53 bits of precision and [emax = 1024],
      and its [SFadd], [SFsub], [SFmul] and [SFdiv] (round to nearest, ties
      to even).  [float(s)] and the format [.8f] are the correctly rounded
      conversions between decimal text and binary64.
    - Exceptions are values of [result]: [Raise e] aborts the run.
    - The files the engine reads and writes are fields of [files]; whether
      a write succeeds is an input of the run ([io_env]).  A file that
      exists is one that [open] opens and that decodes: the [OSError] of
      a file that cannot be read is not part of the model.  [csv.reader]
      raises on a field above its limit of 131072 characters.
    - [strftime] writes the year as the C library of Linux does, without
      padding: on four digits from the year 1000 on.
    - The extractor is embedded from the list of trades [get_trades]
      returns on: the requests are inputs of [run], and so are the answers
      of the user.  Its files are the fields of [store], each as its
      content, which a reader splits into lines at LF, CR and CR LF; an
      exception that leaves a call is [None], or [false] beside the files
      left behind. *)

From Stdlib Require Import ZArith NArith QArith Qabs String Ascii DecimalString
  DecimalN DecimalPos DecimalFacts SpecFloat Lia.
From stdpp Require Import gmap strings list sorting.

Local Open Scope Z_scope.

(** ** Exceptions *)

Inductive exn : Set :=
  | ValueError
  | IndexError
  | ZeroDivisionError
  | CsvError.    (* [_csv.Error] *)

Inductive result (A : Type) : Type :=
  | Ok (a : A)
  | Raise (e : exn).
Arguments Ok {A} a.
Arguments Raise {A} e.

Definition bind {A B : Type} (m : result A) (k : A -> result B) : result B :=
  match m with
  | Ok a => k a
  | Raise e => Raise e
  end.

Notation "'let*' x ':=' m 'in' k" := (bind m (fun x => k))
  (at level 10, x pattern, m at level 100, k at level 200,
   format "'[v' 'let*'  x  ':='  m  'in' '/' k ']'").

(** ** Python [str] helpers *)

Module Str.

(** [str.isspace] on one ASCII character: TAB, LF, VT, FF, CR, the four
    separators 0x1C-0x1F and the space. *)
Definition isspace (c : ascii) : bool :=
  let n := N_of_ascii c in
  ((9 <=? n) && (n <=? 13) || (28 <=? n) && (n <=? 32))%N.

Fixpoint lstrip (s : string) : string :=
  match s with
  | EmptyString => EmptyString
  | String c r => if isspace c then lstrip r else s
  end.

Fixpoint rstrip (s : string) : string :=
  match s with
  | EmptyString => EmptyString
  | String c r =>
      match rstrip r with
      | EmptyString => if isspace c then EmptyString else String c EmptyString
      | r' => String c r'
      end
  end.

(** [s.strip()] *)
Definition strip (s : string) : string := rstrip (lstrip s).

(** [s.replace(a, b)] for one-character [a] and [b]. *)
Fixpoint replace (a b : ascii) (s : string) : string :=
  match s with
  | EmptyString => EmptyString
  | String c r => String (if Ascii.eqb c a then b else c) (replace a b r)
  end.

(** [s.split(sep)] for a one-character separator: never the empty list. *)
Fixpoint split (sep : ascii) (s : string) : list string :=
  match s with
  | EmptyString => [EmptyString]
  | String c r =>
      if Ascii.eqb c sep then EmptyString :: split sep r
      else match split sep r with
           | f :: fs => String c f :: fs
           | [] => [String c EmptyString]
           end
  end.

(** [sep.join(l)] *)
Fixpoint join (sep : string) (l : list string) : string :=
  match l with
  | [] => EmptyString
  | [x] => x
  | x :: r => x +:+ sep +:+ join sep r
  end.

(** The line break. *)
Definition newline : string := String "010" EmptyString.

(** The lines of a file read in text mode: a line ends behind LF, CR or
    CR LF, each of them read as LF; what stands behind the last of them
    is a line when it is not empty. *)
Fixpoint readlines (content : string) : list string :=
  match content with
  | EmptyString => []
  | String c r =>
      if Ascii.eqb c "010" then newline :: readlines r
      else if Ascii.eqb c "013" then
        newline ::
        match r with
        | String c' r' =>
            if Ascii.eqb c' "010" then readlines r' else readlines r
        | EmptyString => []
        end
      else
        match readlines r with
        | line :: rest => String c line :: rest
        | [] => [String c EmptyString]
        end
  end.

(** [len(s)] for a text in UTF-8: the bytes that start a character, the
    others being the continuation bytes [10xxxxxx]. *)
Definition is_continuation (c : ascii) : bool :=
  let n := N_of_ascii c in ((128 <=? n) && (n <? 192))%N.

Fixpoint len (s : string) : N :=
  match s with
  | EmptyString => 0
  | String c r => ((if is_continuation c then 0 else 1) + len r)%N
  end.

(** [s.lower()] on ASCII letters. *)
Definition lower_char (c : ascii) : ascii :=
  let n := N_of_ascii c in
  if ((65 <=? n) && (n <=? 90))%N then ascii_of_N (n + 32) else c.

Fixpoint lower (s : string) : string :=
  match s with
  | EmptyString => EmptyString
  | String c r => String (lower_char c) (lower r)
  end.

(** The order of [sorted] on [str]: lexicographic on the characters. *)
Fixpoint leb (s t : string) : bool :=
  match s, t with
  | EmptyString, _ => true
  | String _ _, EmptyString => false
  | String a s', String b t' =>
      if (N_of_ascii a <? N_of_ascii b)%N then true
      else if (N_of_ascii b <? N_of_ascii a)%N then false
      else leb s' t'
  end.

End Str.

(** ** Python [float]: IEEE 754 binary64 *)

Module Float.

Definition prec : Z := 53.
Definition emax : Z := 1024.

Definition float : Set := spec_float.

(** The literal [0.0]. *)
Definition zero : float := S754_zero false.

Definition add : float -> float -> float := SFadd prec emax.
Definition sub : float -> float -> float := SFsub prec emax.
Definition mul : float -> float -> float := SFmul prec emax.
Definition neg : float -> float := SFopp.

Definition is_zero (x : float) : bool :=
  match x with S754_zero _ => true | _ => false end.

(** [x / y]: Python raises [ZeroDivisionError] on a zero divisor. *)
Definition div (x y : float) : result float :=
  if is_zero y then Raise ZeroDivisionError else Ok (SFdiv prec emax x y).

(** The signed mantissa of [(-1)^s * m * 2^e] at the exponent [ez <= e]. *)
Definition aligned (s : bool) (m : positive) (e ez : Z) : Z :=
  cond_Zopp s (Zpos (fst (shl_align m e ez))).

(** Comparison of the values: [None] when an operand is NaN.  Two finite
    numbers are compared exactly, at their smaller exponent. *)
Definition compare (x y : float) : option comparison :=
  match x, y with
  | S754_finite s1 m1 e1, S754_finite s2 m2 e2 =>
      let ez := Z.min e1 e2 in
      Some (Z.compare (aligned s1 m1 e1 ez) (aligned s2 m2 e2 ez))
  | _, _ => SFcompare x y
  end.

(** [x > y] *)
Definition gt (x y : float) : bool :=
  match compare x y with Some Gt => true | _ => false end.

(** [x < y] *)
Definition lt (x y : float) : bool :=
  match compare x y with Some Lt => true | _ => false end.

(** [x == y] *)
Definition eq (x y : float) : bool :=
  match compare x y with Some Eq => true | _ => false end.

(** [x != y] *)
Definition ne (x y : float) : bool := negb (eq x y).

(** *** Rendering with [.8f] *)

(** [n / d] rounded to the nearest integer, ties to even ([0 <= n],
    [0 < d]). *)
Definition round_half_even (n d : Z) : Z :=
  let q := n / d in
  match Z.compare (2 * (n mod d)) d with
  | Lt => q
  | Gt => q + 1
  | Eq => if Z.even q then q else q + 1
  end.

(** [m * 2^e] in units of [10^-8], rounded. *)
Definition units8 (m : positive) (e : Z) : N :=
  Z.to_N match e with
         | Zneg k => round_half_even (Zpos m * 10 ^ 8) (2 ^ Zpos k)
         | _ => Zpos m * 2 ^ e * 10 ^ 8
         end.

Definition cons_digit (d : N) (u : Decimal.uint) : Decimal.uint :=
  match d with
  | 0 => Decimal.D0 u | 1 => Decimal.D1 u | 2 => Decimal.D2 u
  | 3 => Decimal.D3 u | 4 => Decimal.D4 u | 5 => Decimal.D5 u
  | 6 => Decimal.D6 u | 7 => Decimal.D7 u | 8 => Decimal.D8 u
  | _ => Decimal.D9 u
  end%N.

(** The [k] low decimal digits of [n], least significant first. *)
Fixpoint low_digits (k : nat) (n : N) : Decimal.uint :=
  match k with
  | O => Decimal.Nil
  | S k' => cons_digit (n mod 10)%N (low_digits k' (n / 10)%N)
  end.

Definition int_text (n : N) : string := NilZero.string_of_uint (N.to_uint n).

Definition frac_text (k : nat) (n : N) : string :=
  NilEmpty.string_of_uint (Decimal.rev (low_digits k n)).

(** [u] units of [10^-8] as [<integer part>.<8 digits>]. *)
Definition fixed8 (u : N) : string :=
  int_text (u / 10 ^ 8)%N +:+ "." +:+ frac_text 8 (u mod 10 ^ 8)%N.

Definition sign_text (s : bool) : string := if s then "-" else "".

(** [f"{x:.8f}"] *)
Definition format_8f (x : float) : string :=
  match x with
  | S754_nan => "nan"
  | S754_infinity s => sign_text s +:+ "inf"
  | S754_zero s => sign_text s +:+ fixed8 0
  | S754_finite s m e => sign_text s +:+ fixed8 (units8 m e)
  end.

(** *** Reading with [float(s)] *)

Inductive literal : Set :=
  | LitNan
  | LitInf (negative : bool)
  | LitDec (negative : bool) (digits : N) (exp10 : Z).

(** The binary64 nearest to [(-1)^negative * digits * 10^exp10]. *)
Definition of_decimal (negative : bool) (digits : N) (exp10 : Z) : float :=
  match digits with
  | N0 => S754_zero negative
  | Npos p =>
      match exp10 with
      | Zneg k =>
          SFdiv prec emax (S754_finite negative p 0)
                          (S754_finite false (10 ^ k)%positive 0)
      | _ =>
          binary_normalize prec emax
            (cond_Zopp negative (Zpos p * 10 ^ exp10)) 0 false
      end
  end.

Definition of_literal (l : literal) : float :=
  match l with
  | LitNan => S754_nan
  | LitInf s => S754_infinity s
  | LitDec s d e => of_decimal s d e
  end.

Definition is_digit (c : ascii) : bool :=
  let n := N_of_ascii c in ((48 <=? n) && (n <=? 57))%N.

(** The longest prefix of digits and underscores, and what follows it. *)
Fixpoint span_digitpart (s : string) : string * string :=
  match s with
  | String c r =>
      if is_digit c || Ascii.eqb c "_" then
        let (p, q) := span_digitpart r in (String c p, q)
      else (EmptyString, s)
  | EmptyString => (EmptyString, EmptyString)
  end.

(** A [digitpart] is digits with single underscores between them; its
    digits, or [None] when [s] is not one.  [after_digit] tells whether
    the character before [s] is a digit. *)
Fixpoint digitpart (after_digit : bool) (s : string) : option string :=
  match s with
  | EmptyString => if after_digit then Some EmptyString else None
  | String c r =>
      if is_digit c then String c <$> digitpart true r
      else if Ascii.eqb c "_" && after_digit then digitpart false r
      else None
  end.

(** The digits of an optional [digitpart]. *)
Definition digits_of (s : string) : option Decimal.uint :=
  match s with
  | EmptyString => Some Decimal.Nil
  | _ => digitpart false s ≫= NilEmpty.uint_of_string
  end.

(** A leading sign. *)
Definition take_sign (s : string) : bool * string :=
  match s with
  | String "-" r => (true, r)
  | String "+" r => (false, r)
  | _ => (false, s)
  end.

(** [[e|E] [sign] digitpart] at the end of the text, or nothing. *)
Definition exponent (s : string) : option Z :=
  match s with
  | EmptyString => Some 0
  | String c r =>
      if Ascii.eqb (Str.lower_char c) "e" then
        let (s, r) := take_sign r in
        match r with
        | EmptyString => None
        | _ =>
            u ← digits_of r;
            Some (cond_Zopp s (Z.of_N (N.of_uint u)))
        end
      else None
  end.

(** [[digitpart] . digitpart | digitpart [.]] followed by an optional
    exponent. *)
Definition number (negative : bool) (s : string) : option literal :=
  let (ip, r1) := span_digitpart s in
  let (dot, r2) :=
    match r1 with
    | String "." r => (true, r)
    | _ => (false, r1)
    end in
  let (fp, r3) := if dot then span_digitpart r2 else (EmptyString, r2) in
  match ip, fp with
  | EmptyString, EmptyString => None
  | _, _ =>
      iu ← digits_of ip;
      fu ← digits_of fp;
      e ← exponent r3;
      Some (LitDec negative
              (N.of_uint (Decimal.app iu fu))
              (e - Z.of_nat (Decimal.nb_digits fu)))
  end.

(** The grammar of [float(s)] after the surrounding whitespace is
    dropped. *)
Definition lex (s : string) : option literal :=
  let (negative, r) := take_sign s in
  let l := Str.lower r in
  if String.eqb l "inf" || String.eqb l "infinity" then Some (LitInf negative)
  else if String.eqb l "nan" then Some LitNan
  else number negative r.

(** The white space [float] drops at both ends of the text: the space,
    TAB, LF, VT, FF and CR, and not the separators 0x1C-0x1F that
    [str.strip] drops too. *)
Definition is_space (c : ascii) : bool :=
  let n := N_of_ascii c in
  ((9 <=? n) && (n <=? 13) || (n =? 32))%N.

Fixpoint skip_left (s : string) : string :=
  match s with
  | EmptyString => EmptyString
  | String c r => if is_space c then skip_left r else s
  end.

Fixpoint skip_right (s : string) : string :=
  match s with
  | EmptyString => EmptyString
  | String c r =>
      match skip_right r with
      | EmptyString => if is_space c then EmptyString else String c EmptyString
      | r' => String c r'
      end
  end.

Definition trim (s : string) : string := skip_right (skip_left s).

(** [float(s)] *)
Definition of_string (s : string) : result float :=
  match lex (trim s) with
  | Some l => Ok (of_literal l)
  | None => Raise ValueError
  end.

End Float.

(** ** Python [datetime] with the format ['%Y-%m-%d %H:%M:%S'] *)

Module Datetime.

Local Open Scope nat_scope.

Record datetime : Set := mk {
  year : nat; month : nat; day : nat;
  hour : nat; minute : nat; second : nat
}.

(** [datetime.min] *)
Definition min : datetime := mk 1 1 1 0 0 0.

Definition key (d : datetime) : list nat :=
  [year d; month d; day d; hour d; minute d; second d].

Fixpoint lex_leb (a b : list nat) : bool :=
  match a, b with
  | x :: a', y :: b' =>
      if (x <? y)%nat then true
      else if (y <? x)%nat then false
      else lex_leb a' b'
  | [], _ => true
  | _ :: _, [] => false
  end.

(** [a <= b] *)
Definition leb (a b : datetime) : bool := lex_leb (key a) (key b).

Definition is_leap (y : nat) : bool :=
  ((y mod 4 =? 0) && negb (y mod 100 =? 0) || (y mod 400 =? 0))%nat.

Definition days_in_month (y m : nat) : nat :=
  match m with
  | 2 => if is_leap y then 29 else 28
  | 4 | 6 | 9 | 11 => 30
  | _ => 31
  end%nat.

(** The checks of the [datetime] constructor. *)
Definition valid (d : datetime) : bool :=
  ((1 <=? year d) && (N.of_nat (year d) <=? 9999)%N &&
   (1 <=? month d) && (month d <=? 12) &&
   (1 <=? day d) && (day d <=? days_in_month (year d) (month d)) &&
   (hour d <=? 23) && (minute d <=? 59) && (second d <=? 59))%nat.

(** A pattern yields the ways it can match a prefix of the text, in the
    order the regular expression of [strptime] tries them. *)
Definition pattern (A : Type) : Type := string -> list (A * string).

Definition digit : pattern nat := fun s =>
  match s with
  | String c r =>
      if Float.is_digit c then [(N.to_nat (N_of_ascii c) - 48, r)%nat] else []
  | EmptyString => []
  end.

(** Two digits [a b] accepted by [ok]. *)
Definition two (ok : nat -> nat -> bool) : pattern nat := fun s =>
  '(a, r) ← digit s;
  '(b, r') ← digit r;
  if ok a b then [(10 * a + b, r')%nat] else [].

(** One digit accepted by [ok]. *)
Definition one (ok : nat -> bool) : pattern nat := fun s =>
  '(a, r) ← digit s;
  if ok a then [(a, r)] else [].

Definition char (c : ascii) : pattern unit := fun s =>
  match s with
  | String c' r => if Ascii.eqb c c' then [((), r)] else []
  | EmptyString => []
  end.

(** [\s+]: the longest run first. *)
Fixpoint spaces (s : string) : list (unit * string) :=
  match s with
  | String c r => if Str.isspace c then spaces r ++ [((), r)] else []
  | EmptyString => []
  end.

Definition then_ {A B} (p : pattern A) (k : A -> pattern B) : pattern B :=
  fun s => '(a, r) ← p s; k a r.

Definition alt {A} (p q : pattern A) : pattern A := fun s => p s ++ q s.

(** [%Y]: [\d\d\d\d] *)
Definition pY : pattern nat :=
  then_ (two (fun _ _ => true)) (fun hi =>
  then_ (two (fun _ _ => true)) (fun lo s => [(100 * hi + lo, s)%nat])).

(** [%m]: [1[0-2]|0[1-9]|[1-9]] *)
Definition pm : pattern nat :=
  alt (two (fun a b => (a =? 1) && (b <=? 2)))
 (alt (two (fun a b => (a =? 0) && (1 <=? b)))
      (one (fun a => 1 <=? a)))%nat.

(** [%d]: [3[0-1]|[1-2]\d|0[1-9]|[1-9]| [1-9]] *)
Definition pd : pattern nat :=
  alt (two (fun a b => (a =? 3) && (b <=? 1)))
 (alt (two (fun a _ => (1 <=? a) && (a <=? 2)))
 (alt (two (fun a b => (a =? 0) && (1 <=? b)))
 (alt (one (fun a => 1 <=? a))
      (then_ (char " ") (fun _ => one (fun a => 1 <=? a))))))%nat.

(** [%H]: [2[0-3]|[0-1]\d|\d] *)
Definition pH : pattern nat :=
  alt (two (fun a b => (a =? 2) && (b <=? 3)))
 (alt (two (fun a _ => a <=? 1))
      (one (fun _ => true)))%nat.

(** [%M]: [[0-5]\d|\d] *)
Definition pM : pattern nat :=
  alt (two (fun a _ => a <=? 5)) (one (fun _ => true))%nat.

(** [%S]: [6[0-1]|[0-5]\d|\d] *)
Definition pS : pattern nat :=
  alt (two (fun a b => (a =? 6) && (b <=? 1)))
 (alt (two (fun a _ => a <=? 5))
      (one (fun _ => true)))%nat.

Definition pattern_Ymd_HMS : pattern datetime :=
  then_ pY (fun y => then_ (char "-") (fun _ =>
  then_ pm (fun m => then_ (char "-") (fun _ =>
  then_ pd (fun d => then_ spaces (fun _ =>
  then_ pH (fun h => then_ (char ":") (fun _ =>
  then_ pM (fun mi => then_ (char ":") (fun _ =>
  then_ pS (fun sec s => [(mk y m d h mi sec, s)]))))))))))).

(** [datetime.strptime(s, '%Y-%m-%d %H:%M:%S')]: the first match of the
    pattern has to use the whole text and to be a date that exists. *)
Definition strptime (s : string) : result datetime :=
  match pattern_Ymd_HMS s with
  | (d, EmptyString) :: _ => if valid d then Ok d else Raise ValueError
  | _ => Raise ValueError
  end.

Definition pad (width : nat) (n : nat) : string :=
  Float.frac_text width (N.of_nat n).

(** [d.strftime('%Y-%m-%d %H:%M:%S')] as the C library of Linux writes
    it: the year without padding, on fewer than four digits before the
    year 1000, every other field on two digits. *)
Definition strftime (d : datetime) : string :=
  Float.int_text (N.of_nat (year d)) +:+ "-" +:+ pad 2 (month d) +:+ "-"
  +:+ pad 2 (day d)
  +:+ " " +:+ pad 2 (hour d) +:+ ":" +:+ pad 2 (minute d)
  +:+ ":" +:+ pad 2 (second d).

End Datetime.

(** ** [PortfolioMetricsEngine] *)

Module Engine.

Import Float.
Local Open Scope nat_scope.

(** What [logging] receives at the level [INFO] and above. *)
Inductive event : Set :=
  | Warning_malformed_line (line : string)
  | Info_processing (trades : nat)
  | Warning_sell_exceeds (symbol : string) (tx_qty current_qty : float)
  | Info_portfolio_updated
  | Error_write_csv
  | Info_change_log_saved.

(** One element of the list [_read_trade_data] returns. *)
Record trade : Set := mk_trade {
  symbol : string;
  price : float;
  qty : float;
  time : string;
  is_buyer : bool
}.

(** A row of the sheet, as [csv] has it. *)
Abbreviation sheet_row := (list string).

(** The four files under [data/]; [None] when the file does not exist.  A
    file that exists is one the engine can open and decode.
    [trade_data.txt] is held as its lines, [portfolio_metrics.csv] as the
    rows [csv.writer] is given, which are the rows [csv.reader] yields
    when no field is larger than its limit. *)
Record files : Set := mk_files {
  raw_data_file : option (list string);
  portfolio_csv : option (list sheet_row);
  last_sync_file : option string;
  modified_log_file : option string
}.

(** [_format_decimal] *)
Definition _format_decimal (value : float) : string :=
  Str.replace "." "," (format_8f value).

(** [_safe_float] *)
Definition _safe_float (value_str : string) : result float :=
  let value := Str.strip value_str in
  match value with
  | EmptyString => Ok zero
  | _ => of_string (Str.replace "," "." value)
  end.

(** *** [_read_trade_data] *)

(** The body of the loop for one line: the trade to append, or the
    warning when [ValueError] is caught, or nothing when the line has
    fewer than five fields. *)
Definition read_line (line : string) : option trade * list event :=
  let malformed := (None, [Warning_malformed_line (Str.strip line)]) in
  match Str.split "," (Str.strip line) with
  | [symbol; price; qty; time_trade; is_buyer_str] =>
      match of_string price with
      | Ok p =>
          match of_string qty with
          | Ok q =>
              (Some (mk_trade symbol p q time_trade
                       (String.eqb is_buyer_str "True")), [])
          | Raise _ => malformed
          end
      | Raise _ => malformed
      end
  | _ :: _ :: _ :: _ :: _ :: _ :: _ => malformed
  | _ => (None, [])
  end.

Fixpoint read_lines (lines : list string) : list trade * list event :=
  match lines with
  | [] => ([], [])
  | line :: rest =>
      let (t, w) := read_line line in
      let (ts, ws) := read_lines rest in
      (from_option (fun x => [x]) [] t ++ ts, w ++ ws)
  end.

(** The keys [trades.sort] computes before it sorts. *)
Fixpoint sort_keys (trades : list trade)
  : result (list (Datetime.datetime * trade)) :=
  match trades with
  | [] => Ok []
  | t :: rest =>
      let* k := Datetime.strptime (time t) in
      let* ks := sort_keys rest in
      Ok ((k, t) :: ks)
  end.

(** Insertion behind the elements that are not later: the sort is
    stable. *)
Fixpoint insert_sorted (x : Datetime.datetime * trade)
    (l : list (Datetime.datetime * trade)) :=
  match l with
  | [] => [x]
  | y :: l' =>
      if Datetime.leb (fst y) (fst x) then y :: insert_sorted x l'
      else x :: l
  end.

Definition sort_by_time (l : list (Datetime.datetime * trade)) :=
  foldl (fun acc x => insert_sorted x acc) [] l.

Definition _read_trade_data (fs : files) : result (list trade * list event) :=
  let (trades, warnings) :=
    match raw_data_file fs with
    | Some lines => read_lines (tail lines)
    | None => ([], [])
    end in
  let* keyed := sort_keys trades in
  Ok (snd <$> sort_by_time keyed, warnings).

(** *** [update_portfolio] *)

Definition header : sheet_row :=
  ["symbol"; "average_price"; "quantity"; "last_trade_time"; "break_even";
   "realized_pnl"].

(** The state of the loop over the trades.  [portfolio_map] holds, for a
    symbol, the index in [sheet_rows] of the row object it is bound to:
    an update of that row is an update of [sheet_rows]. *)
Record state : Type := mk_state {
  sheet_rows : list sheet_row;
  portfolio_map : gmap string nat;
  modified_symbols : gset string
}.

(** [row[i]] *)
Definition get_item (r : sheet_row) (i : nat) : result string :=
  match r !! i with
  | Some v => Ok v
  | None => Raise IndexError
  end.

(** [row[i] = v] *)
Definition set_item (r : sheet_row) (i : nat) (v : string)
  : result sheet_row :=
  if i <? length r then Ok (<[i := v]> r) else Raise IndexError.

(** [{row[0]: row for row in sheet_rows[1:]}], the rows of [rows]
    standing at the indices [i], [i + 1], ... of [sheet_rows]. *)
Fixpoint build_map (i : nat) (rows : list sheet_row) (m : gmap string nat)
  : result (gmap string nat) :=
  match rows with
  | [] => Ok m
  | r :: rest =>
      let* s := get_item r 0 in
      build_map (S i) rest (<[s := i]> m)
  end.

(** How the body of the loop ends for one trade. *)
Inductive outcome : Set :=
  | Filtered    (* [continue] of the incremental filter *)
  | Rejected    (* [continue] of the sell above the held quantity *)
  | Updated     (* the row of the symbol is rewritten *)
  | Created.    (* a row is appended *)

(** The cutoff read from [last_sync_time.txt]. *)
Definition read_cutoff (fs : files) : result Datetime.datetime :=
  match last_sync_file fs with
  | Some content =>
      match Str.strip content with
      | EmptyString => Ok Datetime.min
      | date_str => Datetime.strptime date_str
      end
  | None => Ok Datetime.min
  end.

(** The break-even of the branch of a symbol already in the map. *)
Definition break_even_existing (final_avg_price final_qty new_realized_pnl : float)
  : result float :=
  if gt final_qty zero then
    div (sub (mul final_avg_price final_qty) new_realized_pnl) final_qty
  else Ok zero.

(** The break-even of the branch of a new symbol. *)
Definition break_even_new (final_avg_price final_qty new_realized_pnl : float)
  : result float :=
  if ne final_qty zero then
    div (sub (mul final_avg_price final_qty) new_realized_pnl) final_qty
  else Ok zero.

(** The body of [for trade in raw_trades] behind the incremental filter:
    how it ends, what it logs and the state it leaves. *)
Definition apply_trade (st : state) (t : trade)
    (tx_date : Datetime.datetime) : result (outcome * list event * state) :=
  let symbol := symbol t in
  let tx_qty := qty t in
  let tx_price := price t in
  let is_buyer := is_buyer t in
  match portfolio_map st !! symbol with
  | Some i =>
      let row := default [] (sheet_rows st !! i) in
      let* f1 := get_item row 1 in
      let* current_avg_price := _safe_float f1 in
      let* f2 := get_item row 2 in
      let* current_qty := _safe_float f2 in
      let* f5 := get_item row 5 in
      let* current_realized_pnl := _safe_float f5 in
      let* r :=
        if is_buyer then
          let total_cost := mul current_avg_price current_qty in
          let new_cost := mul tx_price tx_qty in
          let final_qty := add current_qty tx_qty in
          let* final_avg_price :=
            if gt final_qty zero
            then div (add total_cost new_cost) final_qty
            else Ok zero in
          Ok (Some (final_avg_price, final_qty, current_realized_pnl))
        else if gt tx_qty current_qty then Ok None
        else
          let pnl_from_sale := mul (sub tx_price current_avg_price) tx_qty in
          let new_realized_pnl := add current_realized_pnl pnl_from_sale in
          let final_qty := sub current_qty tx_qty in
          Ok (Some (current_avg_price, final_qty, new_realized_pnl)) in
      match r with
      | None =>
          Ok (Rejected, [Warning_sell_exceeds symbol tx_qty current_qty], st)
      | Some (final_avg_price, final_qty, new_realized_pnl) =>
          let* final_break_even :=
            break_even_existing final_avg_price final_qty new_realized_pnl in
          let* row := set_item row 1 (_format_decimal final_avg_price) in
          let* row := set_item row 2 (_format_decimal final_qty) in
          let* row := set_item row 3 (Datetime.strftime tx_date) in
          let* row := set_item row 4 (_format_decimal final_break_even) in
          let* row := set_item row 5 (_format_decimal new_realized_pnl) in
          Ok (Updated, [],
              mk_state (<[i := row]> (sheet_rows st)) (portfolio_map st)
                ({[symbol]} ∪ modified_symbols st))
      end
  | None =>
      let final_avg_price := tx_price in
      let final_qty := if is_buyer then tx_qty else neg tx_qty in
      let new_realized_pnl := zero in
      let* final_break_even :=
        break_even_new final_avg_price final_qty new_realized_pnl in
      let new_row :=
        [symbol;
         _format_decimal final_avg_price;
         _format_decimal final_qty;
         Datetime.strftime tx_date;
         _format_decimal final_break_even;
         _format_decimal new_realized_pnl] in
      Ok (Created, [],
          mk_state (sheet_rows st ++ [new_row])
            (<[symbol := length (sheet_rows st)]> (portfolio_map st))
            ({[symbol]} ∪ modified_symbols st))
  end.

(** The body of [for trade in raw_trades]. *)
Definition process_trade (cutoff_date : Datetime.datetime) (st : state)
    (t : trade) : result (outcome * list event * state) :=
  let* tx_date := Datetime.strptime (time t) in
  if Datetime.leb tx_date cutoff_date then Ok (Filtered, [], st)
  else apply_trade st t tx_date.

(** The loop: the outcome of every trade, what is logged and the state
    after the last trade. *)
Fixpoint process_trades (cutoff_date : Datetime.datetime) (st : state)
    (trades : list trade) : result (list outcome * list event * state) :=
  match trades with
  | [] => Ok ([], [], st)
  | t :: rest =>
      let* (o, ev, st') := process_trade cutoff_date st t in
      let* (os, evs, st'') := process_trades cutoff_date st' rest in
      Ok (o :: os, ev ++ evs, st'')
  end.

(** Whether a write fails is decided outside the engine: [None] when the
    write succeeds, [Some c] when [IOError] is raised and the file is
    left as [c]. *)
Record io_env : Set := mk_io {
  portfolio_write_error : option (option (list sheet_row));
  modified_write_error : option (option string)
}.

(** [csv.field_size_limit()] *)
Definition field_size_limit : N := 131072.

(** No field of the rows has more characters than the limit. *)
Definition within_field_limit (rows : list sheet_row) : bool :=
  forallb (forallb (fun field => (Str.len field <=? field_size_limit)%N)) rows.

(** [list(csv.reader(file))]: [_csv.Error] on a field larger than the
    limit. *)
Definition read_csv (rows : list sheet_row) : result (list sheet_row) :=
  if within_field_limit rows then Ok rows else Raise CsvError.

(** The state the loop starts from. *)
Definition load (fs : files) : result state :=
  let* sheet_rows :=
    match portfolio_csv fs with
    | Some rows => read_csv rows
    | None => Ok []
    end in
  let sheet_rows :=
    match sheet_rows with
    | [] => [header]
    | _ => sheet_rows
    end in
  let* portfolio_map := build_map 1 (tail sheet_rows) ∅ in
  Ok (mk_state sheet_rows portfolio_map ∅).

(** [', '.join(sorted(modified_symbols))] *)
Definition modified_report (modified : gset string) : string :=
  Str.join ", " (merge_sort (fun a b => Is_true (Str.leb a b)) (elements modified)).

(** The two writes at the end of [update_portfolio]: the files they leave
    and what they log. *)
Definition persist (io : io_env) (fs : files) (st : state)
  : files * list event :=
  let (csv, ev1) :=
    match portfolio_write_error io with
    | None => (Some (sheet_rows st), [Info_portfolio_updated])
    | Some remains => (remains, [Error_write_csv])
    end in
  let (report, ev2) :=
    match modified_write_error io with
    | None =>
        (Some (modified_report (modified_symbols st)), [Info_change_log_saved])
    | Some remains => (remains, [])
    end in
  (mk_files (raw_data_file fs) csv (last_sync_file fs) report, ev1 ++ ev2).

(** [update_portfolio] up to the writes: the outcomes of the trades, the
    log and the state the loop ends in. *)
Definition reconcile (fs : files)
  : result (list outcome * list event * state) :=
  let* cutoff_date := read_cutoff fs in
  let* (raw_trades, warnings) := _read_trade_data fs in
  let* st := load fs in
  let* (os, ev, st) := process_trades cutoff_date st raw_trades in
  Ok (os, warnings ++ [Info_processing (length raw_trades)] ++ ev, st).

(** [update_portfolio]: [Ok] when the call returns, with the files and
    the log it leaves; [Raise e] when the exception [e] leaves it. *)
Definition update_portfolio (io : io_env) (fs : files)
  : result (files * list event) :=
  let* (_, ev, st) := reconcile fs in
  let (fs', ev') := persist io fs st in
  Ok (fs', ev ++ ev').

End Engine.

(** ** [BinanceBatchExtractor] *)

Module Extractor.

Import Float.

(** One element of the list [get_trades] returns, with the fields that
    [save_data] reads and the types Binance's [myTrades] gives them: the
    decimal numerals of the price and of the quantity as texts, the time
    in milliseconds since 1970 as an [int], the side as a [bool]. *)
Record trade : Set := mk_trade {
  symbol : string;
  price : string;
  qty : string;
  time : Z;
  isBuyer : bool
}.

(** *** [convert_timezone] *)

(** [time_in_ms / 1000] on an [int]: the quotient, correctly rounded;
    [None] for the [OverflowError] of a quotient no [float] holds. *)
Definition div_1000 (time_in_ms : Z) : option float :=
  let q :=
    match time_in_ms with
    | Z0 => zero
    | Zpos p =>
        SFdiv prec emax (S754_finite false p 0) (S754_finite false 1000 0)
    | Zneg p =>
        SFdiv prec emax (S754_finite true p 0) (S754_finite false 1000 0)
    end in
  match q with
  | S754_infinity _ => None
  | _ => Some q
  end.

(** The integral part of [x], toward zero: what [modf] stores. *)
Definition trunc (x : float) : Z :=
  match x with
  | S754_finite s m (Zneg k) => cond_Zopp s (Zpos m / 2 ^ Zpos k)
  | S754_finite s m e => cond_Zopp s (Zpos m * 2 ^ e)
  | _ => 0
  end.

(** The binary64 nearest to an integer. *)
Definition of_int (n : Z) : float := binary_normalize prec emax n 0 false.

(** The integer nearest to [x], ties to even: [pytime_round] with
    [ROUND_HALF_EVEN]. *)
Definition round_to_int (x : float) : Z :=
  match x with
  | S754_finite s m (Zneg k) =>
      cond_Zopp s (round_half_even (Zpos m) (2 ^ Zpos k))
  | S754_finite s m e => cond_Zopp s (Zpos m * 2 ^ e)
  | _ => 0
  end.

(** The seconds and the microseconds of a timestamp, as
    [datetime.fromtimestamp] splits it. *)
Definition to_timeval (x : float) : Z * Z :=
  let intpart := trunc x in
  let floatpart := sub x (of_int intpart) in
  let us := round_to_int (mul floatpart (of_int 1000000)) in
  if 1000000 <=? us then (intpart + 1, us - 1000000)
  else if us <? 0 then (intpart - 1, us + 1000000)
  else (intpart, us).

(** The ordinal of 9999-12-31, the first day being 0001-01-01. *)
Definition _MAXORDINAL : Z := 3652059.

(** The ordinal of 1970-01-01. *)
Definition epoch : Z := 719163.

(** The days of the year before the first day of [month]. *)
Definition _DAYS_BEFORE_MONTH (month : Z) : Z :=
  match month with
  | 1 => 0 | 2 => 31 | 3 => 59 | 4 => 90 | 5 => 120 | 6 => 151
  | 7 => 181 | 8 => 212 | 9 => 243 | 10 => 273 | 11 => 304 | _ => 334
  end.

Definition _DAYS_IN_MONTH (month : Z) : Z :=
  match month with
  | 2 => 28
  | 4 | 6 | 9 | 11 => 30
  | _ => 31
  end.

(** [_ord2ymd]: the year, the month and the day of an ordinal. *)
Definition _ord2ymd (n : Z) : Z * Z * Z :=
  let n := n - 1 in
  let n400 := n / 146097 in
  let n := n mod 146097 in
  let year := n400 * 400 + 1 in
  let n100 := n / 36524 in
  let n := n mod 36524 in
  let n4 := n / 1461 in
  let n := n mod 1461 in
  let n1 := n / 365 in
  let n := n mod 365 in
  let year := year + n100 * 100 + n4 * 4 + n1 in
  if (n1 =? 4) || (n100 =? 4) then (year - 1, 12, 31)
  else
    let leapyear := (n1 =? 3) && (negb (n4 =? 24) || (n100 =? 3)) in
    let month := Z.shiftr (n + 50) 5 in
    let preceding :=
      _DAYS_BEFORE_MONTH month + (if (2 <? month) && leapyear then 1 else 0) in
    let (month, preceding) :=
      if n <? preceding then
        (month - 1,
         preceding - (_DAYS_IN_MONTH (month - 1) +
                      (if (month - 1 =? 2) && leapyear then 1 else 0)))
      else (month, preceding) in
    (year, month, n - preceding + 1).

(** [datetime.fromtimestamp(x, tz=timezone.utc)]: the ordinal of the day
    and the second of the day; [None] when the call raises, the year being
    out of 1..9999. *)
Definition utc_fromtimestamp (x : float) : option (Z * Z) :=
  let (sec, _) := to_timeval x in
  let ordinal := sec / 86400 + epoch in
  if (1 <=? ordinal) && (ordinal <=? _MAXORDINAL)
  then Some (ordinal, sec mod 86400) else None.

(** [t.astimezone(timezone(timedelta(hours=-3)))]: three hours earlier;
    [None] for the [OverflowError] of a date before the year 1. *)
Definition astimezone (t : Z * Z) : option (Z * Z) :=
  let (ordinal, second) := t in
  let total := ordinal * 86400 + second - 3 * 3600 in
  let days := total / 86400 in
  if (0 <? days) && (days <=? _MAXORDINAL)
  then Some (days, total mod 86400) else None.

(** The fields of the [datetime] of a day and a second of the day. *)
Definition to_datetime (t : Z * Z) : Datetime.datetime :=
  let (ordinal, second) := t in
  let '(y, m, d) := _ord2ymd ordinal in
  Datetime.mk (Z.to_nat y) (Z.to_nat m) (Z.to_nat d)
    (Z.to_nat (second / 3600)) (Z.to_nat (second mod 3600 / 60))
    (Z.to_nat (second mod 60)).

(** [convert_timezone]: the text of the local time; [None] when an
    exception leaves the call ([OverflowError] or [ValueError] of a time
    out of the years 1 to 9999). *)
Definition convert_timezone (time_in_ms : Z) : option string :=
  x ← div_1000 time_in_ms;
  utc_time ← utc_fromtimestamp x;
  local_time ← astimezone utc_time;
  Some (Datetime.strftime (to_datetime local_time)).

(** *** [save_data] *)

(** The files of the extractor under [data/]: [trade_data.txt], its cache
    [trade_data.txt.tmp] and [last_sync_time.txt], each as its content;
    [None] when the file does not exist. *)
Record store : Set := mk_store {
  data_file : option string;
  temp_file : option string;
  last_sync_file : option string
}.

(** [f"{trade['isBuyer']}"] *)
Definition bool_text (b : bool) : string := if b then "True" else "False".

(** The line of a trade: [symbol,price,qty,time,isBuyer]. *)
Definition tx_str (t : trade) (trade_time_str : string) : string :=
  symbol t +:+ "," +:+ price t +:+ "," +:+ qty t +:+ ","
  +:+ trade_time_str +:+ "," +:+ bool_text (isBuyer t).

(** The loop of [save_data]: the lines it appends to the two files, in
    their order, and whether it comes to its end; [false] when an exception
    leaves it, behind the lines written so far. *)
Fixpoint save_loop (cutoff_date : Datetime.datetime) (trades : list trade)
    (registered_txs : gset string) : list string * bool :=
  match trades with
  | [] => ([], true)
  | t :: rest =>
      match convert_timezone (time t) with
      | None => ([], false)
      | Some trade_time_str =>
          match Datetime.strptime trade_time_str with
          | Raise _ => ([], false)
          | Ok trade_dt =>
              if Datetime.leb trade_dt cutoff_date
              then save_loop cutoff_date rest registered_txs
              else
                let line := tx_str t trade_time_str in
                if decide (line ∈ registered_txs)
                then save_loop cutoff_date rest registered_txs
                else
                  let (lines, done) :=
                    save_loop cutoff_date rest ({[line]} ∪ registered_txs) in
                  (line :: lines, done)
          end
      end
  end.

(** The lines of the cache, stripped. *)
Definition registered (st : store) : gset string :=
  list_to_set (Str.strip <$> Str.readlines (default EmptyString (temp_file st))).

(** What the writes of the loop add to a file: every line followed by a
    line break. *)
Fixpoint written (lines : list string) : string :=
  match lines with
  | [] => EmptyString
  | line :: rest => line +:+ Str.newline +:+ written rest
  end.

(** [save_data]: the files it leaves, and whether it returns. *)
Definition save_data (trades : list trade) (cutoff_date : Datetime.datetime)
    (st : store) : store * bool :=
  let (lines, done) := save_loop cutoff_date trades (registered st) in
  (mk_store
     (Some (default EmptyString (data_file st) +:+ written lines))
     (Some (default EmptyString (temp_file st) +:+ written lines))
     (last_sync_file st),
   done).

(** *** [run] *)

(** [get_user_start_time]: the answers the user types, one for every
    prompt; the first one [strptime] takes is the cutoff.  [None] when the
    answers run out ([EOFError]). *)
Fixpoint get_user_start_time (answers : list string)
  : option Datetime.datetime :=
  match answers with
  | [] => None
  | user_input :: rest =>
      match Datetime.strptime user_input with
      | Ok d => Some d
      | Raise _ => get_user_start_time rest
      end
  end.

Definition header_line : string := "symbol,price,qty,time,isBuyer".

(** The loop over the symbols: [responses] holds what [get_trades]
    returns for each of them, in their order. *)
Fixpoint save_all (cutoff_date : Datetime.datetime)
    (responses : list (list trade)) (st : store) : store * bool :=
  match responses with
  | [] => (st, true)
  | [] :: rest => save_all cutoff_date rest st
  | trades :: rest =>
      let (st', done) := save_data trades cutoff_date st in
      if done then save_all cutoff_date rest st' else (st', false)
  end.

(** [run] up to the call of the analytics script: the files it leaves and
    whether the loop came to its end; [None] when no answer is a cutoff. *)
Definition run (answers : list string) (responses : list (list trade))
    (st : store) : option (store * bool) :=
  cutoff_date ← get_user_start_time answers;
  let data :=
    match data_file st with
    | None => Some (header_line +:+ Str.newline)
    | Some content => Some content
    end in
  Some (save_all cutoff_date responses
          (mk_store data (temp_file st)
             (Some (Datetime.strftime cutoff_date)))).

End Extractor.

(** * Vocabulary of the properties *)

Import Float Engine.

(** The symbol is bound to the row [r], which stands at the index [i] of
    the sheet. *)
Definition bound_to (st : state) (symbol : string) (i : nat) (r : sheet_row) : Prop :=
  portfolio_map st !! symbol = Some i /\ sheet_rows st !! i = Some r.

(** The three fields the engine reads from the row of a position. *)
Definition holds (r : sheet_row) (average_price quantity realized_pnl : float) : Prop :=
  exists f1 f2 f5,
    r !! 1%nat = Some f1 /\ _safe_float f1 = Ok average_price /\
    r !! 2%nat = Some f2 /\ _safe_float f2 = Ok quantity /\
    r !! 5%nat = Some f5 /\ _safe_float f5 = Ok realized_pnl.

(** The trade is stamped [tx_date], later than the cutoff. *)
Definition passes (cutoff_date : Datetime.datetime) (t : trade)
    (tx_date : Datetime.datetime) : Prop :=
  Datetime.strptime (time t) = Ok tx_date /\
  Datetime.leb tx_date cutoff_date = false.

(** The trade changed the ledger. *)
Definition accepted (o : outcome) : bool :=
  match o with
  | Updated | Created => true
  | Filtered | Rejected => false
  end.


(** The trades stand in the order of their timestamps. *)
Definition chronological (trades : list trade) : Prop :=
  exists dates,
    Forall2 (fun t d => Datetime.strptime (time t) = Ok d) trades dates /\
    Sorted (fun a b => Is_true (Datetime.leb a b)) dates.

(** The transition of section 4.2 of the specification on the values in
    memory: the average price, the quantity and the realized profit after
    a buy and after an accepted sell. *)
Definition after_buy (avg q pnl tx_price tx_qty : float) : float * float * float :=
  let new_quantity := add q tx_qty in
  let total_cost := add (mul avg q) (mul tx_price tx_qty) in
  (if gt new_quantity zero then SFdiv prec emax total_cost new_quantity else zero,
   new_quantity, pnl).

Definition after_sell (avg q pnl tx_price tx_qty : float) : float * float * float :=
  (avg, sub q tx_qty, add pnl (mul (sub tx_price avg) tx_qty)).

(** [(avg * q - pnl) / q] *)
Definition break_even_formula (avg q pnl : float) : float :=
  SFdiv prec emax (sub (mul avg q) pnl) q.

(** The row of a position once a trade stamped [d] has left it with the
    values [v], the break-even being [be]. *)
Definition rewritten (r : sheet_row) (v : float * float * float)
    (d : Datetime.datetime) (be : float) : sheet_row :=
  let '(avg, q, pnl) := v in
  <[5%nat := _format_decimal pnl]>
    (<[4%nat := _format_decimal be]>
       (<[3%nat := Datetime.strftime d]>
          (<[2%nat := _format_decimal q]>
             (<[1%nat := _format_decimal avg]> r)))).

(** The row appended for the first trade of a symbol. *)
Definition opening_row (t : trade) (d : Datetime.datetime) : sheet_row :=
  let q := if is_buyer t then qty t else neg (qty t) in
  [symbol t;
   _format_decimal (price t);
   _format_decimal q;
   Datetime.strftime d;
   _format_decimal
     (if ne q zero then break_even_formula (price t) q zero else zero);
   _format_decimal zero].

(** What an accepted trade stamped [d] does to the ledger.  The row of a
    position that exists, which reads [avg], [q] and [pnl], is rewritten
    with the values after the buy or after the sell, a sell being of no
    more than [q]; a symbol without a position gets its opening row at
    the end of the sheet and is bound to it.  Either way the symbol is
    recorded as modified, and nothing else changes. *)
Inductive effect (t : trade) (d : Datetime.datetime) (st : state) : state -> Prop :=
  | effect_update i r avg q pnl avg' q' pnl' :
      bound_to st (symbol t) i r ->
      holds r avg q pnl ->
      (is_buyer t = false -> gt (qty t) q = false) ->
      (if is_buyer t then after_buy avg q pnl (price t) (qty t)
       else after_sell avg q pnl (price t) (qty t)) = (avg', q', pnl') ->
      effect t d st
        (mk_state
           (<[i := rewritten r (avg', q', pnl') d
                     (if gt q' zero then break_even_formula avg' q' pnl'
                      else zero)]> (sheet_rows st))
           (portfolio_map st) ({[symbol t]} ∪ modified_symbols st))
  | effect_open :
      portfolio_map st !! symbol t = None ->
      effect t d st
        (mk_state (sheet_rows st ++ [opening_row t d])
           (<[symbol t := length (sheet_rows st)]> (portfolio_map st))
           ({[symbol t]} ∪ modified_symbols st)).


(** The binary64 a decimal numeral denotes ([nan] when it is not one). *)
Definition flt (numeral : string) : float :=
  match of_string numeral with
  | Ok x => x
  | Raise _ => S754_nan
  end.

(** A sheet that holds the header only, as [update_portfolio] starts it
    when there is no ledger file. *)
Definition fresh_state : state := mk_state [header] ∅ ∅.

(** A sheet that holds one unit of XYZBTC bought at 10. *)
Definition one_unit_row : sheet_row :=
  ["XYZBTC"; "10,00000000"; "1,00000000"; "2024-01-01 00:00:00";
   "10,00000000"; "0,00000000"].

Definition one_unit_state : state :=
  mk_state [header; one_unit_row] {["XYZBTC" := 1%nat]} ∅.

(** A sell of 5 units of XYZBTC at 10. *)
Definition sell_five : trade :=
  mk_trade "XYZBTC" (flt "10") (flt "5") "2024-01-02 00:00:00" false.

(** A buy of XYZBTC at 10 whose quantity field is [-5]. *)
Definition negative_buy : trade :=
  mk_trade "XYZBTC" (flt "10") (flt "-5") "2024-01-02 00:00:00" true.

(** A buy stamped with the earliest timestamp there is. *)
Definition earliest_buy : trade :=
  mk_trade "XYZBTC" (flt "10") (flt "1") "0001-01-01 00:00:00" true.

(** No file under [data/]. *)
Definition no_files : files := mk_files None None None None.

(** The sync cursor file is absent or empty. *)
Definition no_cursor (fs : files) : Prop :=
  last_sync_file fs = None \/
  exists content, last_sync_file fs = Some content /\
                  Str.strip content = EmptyString.

(** ** The claims that fail, as they are stated *)

(** C1 as stated: a sell for a symbol without a position is rejected and
    leaves the ledger as it is. *)
Definition sell_without_position_is_rejected
    (cutoff_date : Datetime.datetime) (st : state) (t : trade) : Prop :=
  forall tx_date,
    passes cutoff_date t tx_date ->
    is_buyer t = false ->
    portfolio_map st !! symbol t = None ->
    exists ev, process_trade cutoff_date st t = Ok (Rejected, ev, st).

(** C5 as stated, its last part: without a sync cursor every trade goes
    through the filter. *)
Definition default_cutoff_processes_every_trade
    (fs : files) (st : state) (t : trade) : Prop :=
  last_sync_file fs = None ->
  forall cutoff_date tx_date,
    read_cutoff fs = Ok cutoff_date ->
    Datetime.strptime (time t) = Ok tx_date ->
    process_trade cutoff_date st t = apply_trade st t tx_date.


(** C10 as stated, its conclusion: a quantity below zero arises only when
    a sell opens the position.  After a trade, the row of its symbol
    reads a quantity below zero only when the trade is a sell that
    created the row, or the row read a quantity below zero before. *)
Definition negative_only_from_opening_sell
    (cutoff_date : Datetime.datetime) (st : state) (t : trade) : Prop :=
  forall o ev st' i r avg q pnl,
    process_trade cutoff_date st t = Ok (o, ev, st') ->
    bound_to st' (symbol t) i r ->
    holds r avg q pnl ->
    lt q zero = true ->
    (o = Created /\ is_buyer t = false) \/
    (exists r0 avg0 q0 pnl0,
       bound_to st (symbol t) i r0 /\ holds r0 avg0 q0 pnl0 /\
       lt q0 zero = true).

(** C7 as stated, its first part: a ledger that cannot be written makes
    the run fail. *)
Definition ledger_write_failure_is_raised (io : io_env) (fs : files) : Prop :=
  portfolio_write_error io <> None ->
  exists e, update_portfolio io fs = Raise e.

(** The scenario of section 8 of the specification, followed by a sell of
    more than is held: the trade file, in the order the extractor may
    have written it. *)
Definition scenario_files : files :=
  mk_files
    (Some ["symbol,price,qty,time,isBuyer";
           "XYZBTC,30,1.0,2024-01-01 00:00:03,False";
           "XYZBTC,10,1.0,2024-01-01 00:00:01,True";
           "XYZBTC,10,5.0,2024-01-01 00:00:04,False";
           "XYZBTC,20,1.0,2024-01-01 00:00:02,True"])
    None None None.

Definition scenario_end : state :=
  mk_state
    [header;
     ["XYZBTC"; "15,00000000"; "1,00000000"; "2024-01-01 00:00:03";
      "0,00000000"; "15,00000000"]]
    {["XYZBTC" := 1%nat]} {["XYZBTC"]}.

(** What [_safe_float] reads in the text [_format_decimal] writes for [x]:
    for a finite [x], the binary64 nearest to the decimal number of that
    text, [x] rounded to 8 decimal places. *)
Definition reread (x : float) : float :=
  match x with
  | S754_finite s m e => of_decimal s (units8 m e) (-8)
  | _ => x
  end.

(** The text is made of digits. *)
Fixpoint all_digits (s : string) : bool :=
  match s with
  | EmptyString => true
  | String c r => is_digit c && all_digits r
  end.

(** The text has no white space. *)
Fixpoint no_space (s : string) : bool :=
  match s with
  | EmptyString => true
  | String c r => negb (Str.isspace c) && no_space r
  end.

(** [x] is a number: not an infinity, not NaN. *)
Definition is_finite (x : float) : bool :=
  match x with
  | S754_zero _ | S754_finite _ _ _ => true
  | S754_infinity _ | S754_nan => false
  end.

Definition negative (x : float) : bool :=
  match x with
  | S754_zero s | S754_infinity s | S754_finite s _ _ => s
  | S754_nan => false
  end.

(** The number of units of [10^-8] that [.8f] prints for [x]. *)
Definition units (x : float) : N :=
  match x with
  | S754_finite _ m e => units8 m e
  | _ => 0%N
  end.

(** [u] is [m * 2^e * 10^8] rounded to an integer: it is at most one half
    away from it. *)
Definition nearest_units (m : positive) (e : Z) (u : N) : Prop :=
  match e with
  | Zneg k => 2 * Z.abs (Zpos m * 10 ^ 8 - 2 ^ Zpos k * Z.of_N u) <= 2 ^ Zpos k
  | _ => Z.of_N u = Zpos m * 2 ^ e * 10 ^ 8
  end.

(** C2 as stated: on the fields of a row, the break-even is the formula
    when the quantity is not 0, and 0 when it is. *)
Definition break_even_invariant (r : sheet_row) : Prop :=
  forall avg q pnl f4 be,
    holds r avg q pnl ->
    r !! 4%nat = Some f4 -> _safe_float f4 = Ok be ->
    if ne q zero then eq be (break_even_formula avg q pnl) = true
    else eq be zero = true.

Definition break_even_invariant_after_processing
    (cutoff_date : Datetime.datetime) (st : state) (trades : list trade) : Prop :=
  forall os ev st',
    process_trades cutoff_date st trades = Ok (os, ev, st') ->
    forall symbol i r, bound_to st' symbol i r -> break_even_invariant r.

(** A buy and a sell of XYZBTC, from the numerals of a trade line. *)
Definition buy (price qty time : string) : trade :=
  mk_trade "XYZBTC" (flt price) (flt qty) time true.

Definition sell (price qty time : string) : trade :=
  mk_trade "XYZBTC" (flt price) (flt qty) time false.

(** 0.40000001 units bought at 10, then 0.4 sold at 10.00000001, and the
    state they leave. *)
Definition buy_then_sell : list trade :=
  [buy "10" "0.40000001" "2024-01-01 00:00:01";
   sell "10.00000001" "0.4" "2024-01-01 00:00:02"].

Definition buy_then_sell_row : sheet_row :=
  ["XYZBTC"; "10,00000000"; "0,00000001"; "2024-01-01 00:00:02";
   "9,59999997"; "0,00000000"].

Definition buy_then_sell_end : state :=
  mk_state [header; buy_then_sell_row] {["XYZBTC" := 1%nat]} {["XYZBTC"]}.

(** The exact value of a number (0 for the infinities and NaN). *)
Definition exact (x : float) : Q :=
  match x with
  | S754_finite s m e =>
      match e with
      | Zneg k => Qmake (cond_Zopp s (Zpos m)) (2 ^ k)%positive
      | _ => inject_Z (cond_Zopp s (Zpos m) * 2 ^ e)
      end
  | _ => 0%Q
  end.

(** The quantity-weighted mean of the prices of the trades. *)
Definition weighted_mean (trades : list trade) : Q :=
  (foldr (fun t acc => exact (price t) * exact (qty t) + acc) 0 trades /
   foldr (fun t acc => exact (qty t) + acc) 0 trades)%Q.

(** The trade is a buy of [sym] that passes the filter. *)
Definition buy_of (sym : string) (cutoff_date : Datetime.datetime)
    (t : trade) : Prop :=
  symbol t = sym /\ is_buyer t = true /\
  exists tx_date, passes cutoff_date t tx_date.

(** C3 as stated: after buys only on a symbol without a position, the
    stored average price is the weighted mean of the prices, to the 8
    decimals that are stored (here: at most [10^-8] away from it). *)
Definition average_is_weighted_mean
    (cutoff_date : Datetime.datetime) (st : state) (sym : string)
    (trades : list trade) : Prop :=
  portfolio_map st !! sym = None ->
  trades <> [] ->
  Forall (buy_of sym cutoff_date) trades ->
  forall os ev st',
    process_trades cutoff_date st trades = Ok (os, ev, st') ->
    exists i r f1 avg,
      bound_to st' sym i r /\
      r !! 1%nat = Some f1 /\ _safe_float f1 = Ok avg /\
      (Qabs (exact avg - weighted_mean trades) <= 1 # 100000000)%Q.

(** One unit bought at 1, then five times [10^-8] units bought at 1.6,
    and the state they leave. *)
Definition small_buys : list trade :=
  [buy "1" "1" "2024-01-01 00:00:01";
   buy "1.6" "0.00000001" "2024-01-01 00:00:02";
   buy "1.6" "0.00000001" "2024-01-01 00:00:03";
   buy "1.6" "0.00000001" "2024-01-01 00:00:04";
   buy "1.6" "0.00000001" "2024-01-01 00:00:05";
   buy "1.6" "0.00000001" "2024-01-01 00:00:06"].

Definition small_buys_row : sheet_row :=
  ["XYZBTC"; "1,00000005"; "1,00000005"; "2024-01-01 00:00:06";
   "1,00000005"; "0,00000000"].

Definition small_buys_end : state :=
  mk_state [header; small_buys_row] {["XYZBTC" := 1%nat]} {["XYZBTC"]}.

(** A buy on the stored values: the average price, the quantity and the
    realized profit are read back from their 8 decimals, then the buy of
    section 4.2 is applied. *)
Definition buy_on_stored (v : float * float * float) (t : trade)
  : float * float * float :=
  let '(avg, q, pnl) := v in
  after_buy (reread avg) (reread q) (reread pnl) (price t) (qty t).

(** The values after a first buy [t] and the buys [rest]. *)
Definition after_buys (t : trade) (rest : list trade) : float * float * float :=
  foldl buy_on_stored (price t, qty t, zero) rest.

(** The fields 1, 2 and 5 of the row are the texts of the values of
    [v]. *)
Definition stores (r : sheet_row) (v : float * float * float) : Prop :=
  let '(avg, q, pnl) := v in
  r !! 1%nat = Some (_format_decimal avg) /\
  r !! 2%nat = Some (_format_decimal q) /\
  r !! 5%nat = Some (_format_decimal pnl).

(** The sign bit of [x] is [s], or [x] is NaN. *)
Definition signed (s : bool) (x : float) : Prop :=
  match x with
  | S754_nan => True
  | S754_zero s' | S754_infinity s' | S754_finite s' _ _ => s' = s
  end.

(** The order of [trades.sort]: by the key, the timestamp. *)
Definition key_le (a b : Datetime.datetime * trade) : Prop :=
  Is_true (Datetime.leb (fst a) (fst b)).

(** ** Rounding a quotient *)

(** Where the remainder [r] of a division by [d] lies: nothing left, or
    below, at or above one half. *)
Definition loc_of (r d : Z) : location :=
  if r =? 0 then loc_Exact else loc_Inexact (Z.compare (2 * r) d).

(** [mrs] holds the quotient of [n] by [d], with the round and sticky
    bits of the remainder. *)
Definition represents (mrs : shr_record) (n d : Z) : Prop :=
  0 <= n /\ 0 < d /\ mrs = shr_record_of_loc (n / d) (loc_of (n mod d) d).

(** The number of units of [10^-8] in [M * 2^g], rounded. *)
Definition unitsZ (M g : Z) : Z :=
  match g with
  | Zneg k => round_half_even (M * 10 ^ 8) (2 ^ Zpos k)
  | _ => M * 2 ^ g * 10 ^ 8
  end.

(** ** Timestamps *)

(** The character of the digit [k]. *)
Definition digit_char (k : nat) : ascii := ascii_of_nat (48 + k).

(** The first way the pattern [p] matches a prefix of [s]: it yields [a]
    and leaves [r]. *)
Definition first_match {A} (p : Datetime.pattern A) (s : string) (a : A)
    (r : string) : Prop :=
  exists l, p s = (a, r) :: l.

(** The numbers below [n], the greatest first. *)
Definition below (n : N) : list N :=
  N.recursion [] (fun k acc => k :: acc) n.

(** ** The sheet and its map *)

(** The map of the state is the one [update_portfolio] builds from the
    rows behind the first one. *)
Definition indexed (st : state) : Prop :=
  sheet_rows st <> [] /\
  build_map 1 (tail (sheet_rows st)) ∅ = Ok (portfolio_map st).

(** The rows that were appended: one for every [Created]. *)
Fixpoint created (os : list outcome) : nat :=
  match os with
  | [] => 0
  | Created :: os' => S (created os')
  | _ :: os' => created os'
  end.

(** ** The trade file *)

(** The fields of a line of the trade file. *)
Definition fields (line : string) : list string :=
  Str.split "," (Str.strip line).

(** The line has fewer than five fields. *)
Definition short (line : string) : bool := (length (fields line) <? 5)%nat.

(** The two timestamps are the same instant. *)
Definition same_instant (a b : Datetime.datetime) : bool :=
  Datetime.leb a b && Datetime.leb b a.

(** The trade is stamped [d]. *)
Definition stamped (d : Datetime.datetime) (t : trade) : bool :=
  match Datetime.strptime (time t) with
  | Ok d' => same_instant d' d
  | Raise _ => false
  end.

(** ** The report *)

(** The order of [sorted] on the symbols. *)
Definition str_le (a b : string) : Prop := Is_true (Str.leb a b).

(** The trade at the place [k] of the run was accepted. *)
Definition accepted_at (trades : list trade) (os : list outcome) (k : nat)
    (t : trade) : Prop :=
  trades !! k = Some t /\ exists o, os !! k = Some o /\ accepted o = true.

(** ** Decimal separators *)

(** The number of characters of [s] that [p] takes. *)
Fixpoint count_chars (p : ascii -> bool) (s : string) : nat :=
  match s with
  | EmptyString => 0
  | String c r => (if p c then 1 else 0) + count_chars p r
  end.

Definition is_point (c : ascii) : bool := Ascii.eqb c ".".

(** A decimal separator: a point or a comma. *)
Definition is_separator (c : ascii) : bool :=
  Ascii.eqb c "." || Ascii.eqb c ",".

(** ** The lines the extractor writes *)

Definition is_comma (c : ascii) : bool := Ascii.eqb c ",".

(** The text holds no comma. *)
Definition no_comma (s : string) : Prop := count_chars is_comma s = 0%nat.

(** Every character of the text is one [p] takes. *)
Fixpoint all_chars (p : ascii -> bool) (s : string) : bool :=
  match s with
  | EmptyString => true
  | String c r => p c && all_chars p r
  end.

(** A printable ASCII character other than the space. *)
Definition is_graph (c : ascii) : bool :=
  let n := N_of_ascii c in ((33 <=? n) && (n <=? 126))%N.

(** The text is made of printable ASCII characters other than the space,
    as the symbols and the numerals of Binance are: it holds no white
    space and no line break, of ASCII or of Unicode. *)
Definition plain (s : string) : Prop := all_chars is_graph s = true.

Definition is_ascii (c : ascii) : bool := (N_of_ascii c <? 128)%N.

(** The text is ASCII: [str.strip] takes from it the white space that
    [Str.strip] takes. *)
Definition ascii_text (s : string) : Prop := all_chars is_ascii s = true.

(** A line break of a text file: LF or CR. *)
Definition is_break (c : ascii) : bool :=
  Ascii.eqb c "010" || Ascii.eqb c "013".

(** The text holds no line break. *)
Definition one_line (s : string) : Prop := count_chars is_break s = 0%nat.

(** The content of a file is empty or ends with a line feed: what is
    appended to it starts a line. *)
Fixpoint closed (content : string) : bool :=
  match content with
  | EmptyString => true
  | String c r =>
      match r with
      | EmptyString => Ascii.eqb c "010"
      | _ => closed r
      end
  end.

(** The lines of a text file that holds [lines], each followed by a line
    feed. *)
Definition with_line_feed (lines : list string) : list string :=
  (fun line => line +:+ Str.newline) <$> lines.

(** A trade [save_data] writes on a line of its own: a time since 1970,
    and a symbol, a price and a quantity that are plain texts. *)
Definition plain_trade (t : Extractor.trade) : Prop :=
  0 <= Extractor.time t /\
  plain (Extractor.symbol t) /\
  plain (Extractor.price t) /\
  plain (Extractor.qty t).

(** The trade passes the filter of [save_data] for the cutoff: its local
    time is the text [s], the timestamp [d], later than the cutoff. *)
Definition saved_as (cutoff_date : Datetime.datetime) (t : Extractor.trade)
    (s : string) (d : Datetime.datetime) : Prop :=
  Extractor.convert_timezone (Extractor.time t) = Some s /\
  Datetime.strptime s = Ok d /\
  Datetime.leb d cutoff_date = false.

(** The files of the engine when the extractor has left [st]. *)
Definition handed_over (st : Extractor.store) (fs : files) : files :=
  mk_files (Str.readlines <$> Extractor.data_file st) (portfolio_csv fs)
    (Extractor.last_sync_file st) (modified_log_file fs).

(** ** The calendar of [_ord2ymd] *)

(** For the day [n] of a year, counted from 0, [_ord2ymd] finds a month
    of the year and a day of that month. *)
Definition month_day_ok (leapyear : bool) (n : Z) : bool :=
  let month := Z.shiftr (n + 50) 5 in
  let preceding :=
    Extractor._DAYS_BEFORE_MONTH month +
    (if (2 <? month) && leapyear then 1 else 0) in
  let (month, preceding) :=
    if n <? preceding then
      (month - 1,
       preceding - (Extractor._DAYS_IN_MONTH (month - 1) +
                    (if (month - 1 =? 2) && leapyear then 1 else 0)))
    else (month, preceding) in
  (1 <=? month) && (month <=? 12) && (1 <=? n - preceding + 1) &&
  (n - preceding + 1 <=?
     Extractor._DAYS_IN_MONTH month +
     (if (month =? 2) && leapyear then 1 else 0)).

(** ** What the engine reads of a saved trade *)

(** A trade as Binance gives it: a time since 1970, a symbol, a price
    and a quantity that are plain texts, the symbol without a comma, the
    price and the quantity numerals that [float] reads. *)
Definition well_formed (t : Extractor.trade) : Prop :=
  plain_trade t /\
  no_comma (Extractor.symbol t) /\
  (exists p, of_string (Extractor.price t) = Ok p) /\
  (exists q, of_string (Extractor.qty t) = Ok q).

(** The engine reads [line], a line of the trade file with its line
    feed, as the trade [t] the extractor was given:
    [t'] has its symbol and its side, its price and its quantity as
    [float] reads them, and its local time. *)
Definition read_as (line : string) (t : Extractor.trade) (t' : trade)
  : Prop :=
  read_line line = (Some t', []) /\
  symbol t' = Extractor.symbol t /\
  of_string (Extractor.price t) = Ok (price t') /\
  of_string (Extractor.qty t) = Ok (qty t') /\
  Extractor.convert_timezone (Extractor.time t) = Some (time t') /\
  is_buyer t' = Extractor.isBuyer t.

(** ** Tactics *)

(** The 256 characters, one by one. *)
Ltac ascii_cases c :=
  destruct c as [[] [] [] [] [] [] [] []]; try discriminate; try reflexivity.

(** Closes the cases of a statement on numbers that the signs decide. *)
Ltac by_signs :=
  repeat match goal with b : bool |- _ => destruct b end;
  cbn; intros; (reflexivity || discriminate || exact I).

(** * Properties *)

(** ** The body of the loop *)

Lemma process_trade_passes cutoff_date st t tx_date :
  passes cutoff_date t tx_date ->
  process_trade cutoff_date st t = apply_trade st t tx_date.
Proof.
  intros [Hdate Hlate]. unfold process_trade. rewrite Hdate. cbn [bind].
  now rewrite Hlate.
Qed.

Lemma process_trade_filtered cutoff_date st t tx_date :
  Datetime.strptime (time t) = Ok tx_date ->
  Datetime.leb tx_date cutoff_date = true ->
  process_trade cutoff_date st t = Ok (Filtered, [], st).
Proof.
  intros Hdate Hle. unfold process_trade. rewrite Hdate. cbn [bind].
  now rewrite Hle.
Qed.

Lemma div_by_positive x y : gt y zero = true -> div x y = Ok (SFdiv prec emax x y).
Proof. unfold div. now destruct y. Qed.

Lemma div_by_nonzero x y : ne y zero = true -> div x y = Ok (SFdiv prec emax x y).
Proof. unfold div. now destruct y. Qed.

Lemma break_even_existing_value avg q pnl :
  break_even_existing avg q pnl =
    Ok (if gt q zero then break_even_formula avg q pnl else zero).
Proof.
  unfold break_even_existing, break_even_formula.
  destruct (gt q zero) eqn:Hq; [now apply div_by_positive | reflexivity].
Qed.

Lemma break_even_new_value avg q pnl :
  break_even_new avg q pnl =
    Ok (if ne q zero then break_even_formula avg q pnl else zero).
Proof.
  unfold break_even_new, break_even_formula.
  destruct (ne q zero) eqn:Hq; [now apply div_by_nonzero | reflexivity].
Qed.

Lemma set_item_in_range (r : sheet_row) i v :
  (i < length r)%nat -> set_item r i v = Ok (<[i := v]> r).
Proof.
  intros Hi. unfold set_item.
  now destruct (Nat.ltb_spec i (length r)); [|lia].
Qed.

(** The row of a position has its six fields. *)
Lemma holds_length r avg q pnl : holds r avg q pnl -> (5 < length r)%nat.
Proof.
  intros (f1 & f2 & f5 & _ & _ & _ & _ & H5 & _).
  now apply lookup_lt_Some in H5.
Qed.

(** What the loop body does for a symbol of the map, once the filter is
    passed. *)
Lemma apply_trade_existing st t tx_date i r avg q pnl :
  bound_to st (symbol t) i r ->
  holds r avg q pnl ->
  apply_trade st t tx_date =
    if negb (is_buyer t) && gt (qty t) q then
      Ok (Rejected, [Warning_sell_exceeds (symbol t) (qty t) q], st)
    else
      let v := if is_buyer t then after_buy avg q pnl (price t) (qty t)
               else after_sell avg q pnl (price t) (qty t) in
      let '(avg', q', pnl') := v in
      let be := if gt q' zero then break_even_formula avg' q' pnl' else zero in
      Ok (Updated, [],
          mk_state (<[i := rewritten r v tx_date be]> (sheet_rows st))
            (portfolio_map st) ({[symbol t]} ∪ modified_symbols st)).
Proof.
  intros [Hmap Hrow] Hholds. pose proof (holds_length _ _ _ _ Hholds) as Hlen.
  destruct Hholds as (f1 & f2 & f5 & H1 & P1 & H2 & P2 & H5 & P5).
  unfold apply_trade. cbv zeta. rewrite Hmap. cbv beta iota. rewrite Hrow.
  change (default [] (Some r)) with r. unfold get_item.
  rewrite H1, H2, H5. cbn [bind]. rewrite P1, P2, P5. cbn [bind].
  destruct (is_buyer t); cbn [negb andb].
  - unfold after_buy. cbv zeta.
    destruct (gt (add q (qty t)) zero) eqn:Hpos.
    + rewrite (div_by_positive _ _ Hpos). cbn [bind].
      rewrite break_even_existing_value. cbn [bind].
      repeat (rewrite set_item_in_range by (rewrite ?length_insert; lia);
              cbn [bind]).
      rewrite ?Hpos. reflexivity.
    + cbn [bind]. rewrite break_even_existing_value. cbn [bind].
      repeat (rewrite set_item_in_range by (rewrite ?length_insert; lia);
              cbn [bind]).
      rewrite ?Hpos. reflexivity.
  - destruct (gt (qty t) q); [reflexivity|].
    cbn [bind]. unfold after_sell. rewrite break_even_existing_value.
    cbn [bind].
    repeat (rewrite set_item_in_range by (rewrite ?length_insert; lia);
            cbn [bind]).
    reflexivity.
Qed.

(** What the loop body does for a symbol the map does not hold, once the
    filter is passed. *)
Lemma apply_trade_new st t tx_date :
  portfolio_map st !! symbol t = None ->
  apply_trade st t tx_date =
    Ok (Created, [],
        mk_state (sheet_rows st ++ [opening_row t tx_date])
          (<[symbol t := length (sheet_rows st)]> (portfolio_map st))
          ({[symbol t]} ∪ modified_symbols st)).
Proof.
  intros Hmap. unfold apply_trade. cbv zeta. rewrite Hmap. cbv beta iota.
  rewrite break_even_new_value. reflexivity.
Qed.

(** A trade on a symbol of the map returns only when the row of the symbol
    is there and holds three numbers. *)
Lemma apply_trade_reads_row st t tx_date i x :
  portfolio_map st !! symbol t = Some i ->
  apply_trade st t tx_date = Ok x ->
  exists r avg q pnl, sheet_rows st !! i = Some r /\ holds r avg q pnl.
Proof.
  intros Hmap. unfold apply_trade. cbv zeta. rewrite Hmap. cbv beta iota.
  destruct (sheet_rows st !! i) as [r|] eqn:Hrow;
    [change (default [] (Some r)) with r
    |change (default [] (@None sheet_row)) with (@nil string)].
  2: { change (get_item [] 1) with (@Raise string IndexError).
       cbn [bind]. discriminate. }
  unfold get_item.
  destruct (r !! 1%nat) as [f1|] eqn:H1; cbn [bind]; [|discriminate].
  destruct (_safe_float f1) as [avg|] eqn:P1; cbn [bind]; [|discriminate].
  destruct (r !! 2%nat) as [f2|] eqn:H2; cbn [bind]; [|discriminate].
  destruct (_safe_float f2) as [q|] eqn:P2; cbn [bind]; [|discriminate].
  destruct (r !! 5%nat) as [f5|] eqn:H5; cbn [bind]; [|discriminate].
  destruct (_safe_float f5) as [pnl|] eqn:P5; cbn [bind]; [|discriminate].
  intros _. exists r, avg, q, pnl. split; [reflexivity|].
  exists f1, f2, f5. now repeat split.
Qed.

(** A row reads one average price, one quantity and one realized
    profit. *)
Lemma holds_functional r avg q pnl avg' q' pnl' :
  holds r avg q pnl -> holds r avg' q' pnl' ->
  avg' = avg /\ q' = q /\ pnl' = pnl.
Proof.
  intros (f1 & f2 & f5 & H1 & P1 & H2 & P2 & H5 & P5)
         (g1 & g2 & g5 & G1 & Q1 & G2 & Q2 & G5 & Q5).
  rewrite H1 in G1. rewrite H2 in G2. rewrite H5 in G5.
  injection G1 as <-. injection G2 as <-. injection G5 as <-.
  rewrite P1 in Q1. rewrite P2 in Q2. rewrite P5 in Q5.
  injection Q1 as <-. injection Q2 as <-. injection Q5 as <-. auto.
Qed.

(** ** Sells above the held quantity *)

(** C4. A sell of more than the held quantity on an existing position is
    skipped: the state after the trade is the state before it, so every
    field of the position is what it was; a warning is logged, and the
    loop goes on with the trades that follow. *)
Theorem sell_above_held_is_skipped cutoff_date st t tx_date i r avg q pnl rest :
  passes cutoff_date t tx_date ->
  bound_to st (symbol t) i r ->
  holds r avg q pnl ->
  is_buyer t = false ->
  gt (qty t) q = true ->
  process_trade cutoff_date st t =
    Ok (Rejected, [Warning_sell_exceeds (symbol t) (qty t) q], st) /\
  process_trades cutoff_date st (t :: rest) =
    (let* (os, evs, st') := process_trades cutoff_date st rest in
     Ok (Rejected :: os, Warning_sell_exceeds (symbol t) (qty t) q :: evs, st')).
Proof.
  intros Hpass Hbound Hholds Hsell Hgt.
  assert (process_trade cutoff_date st t =
            Ok (Rejected, [Warning_sell_exceeds (symbol t) (qty t) q], st))
    as Hstep.
  { rewrite (process_trade_passes _ _ _ _ Hpass).
    rewrite (apply_trade_existing _ _ _ _ _ _ _ _ Hbound Hholds).
    now rewrite Hsell, Hgt. }
  split; [exact Hstep|].
  cbn [process_trades]. rewrite Hstep. reflexivity.
Qed.

Lemma sell_above_held_is_skipped_witness :
  process_trade Datetime.min one_unit_state sell_five =
    Ok (Rejected, [Warning_sell_exceeds "XYZBTC" (flt "5") (flt "1")],
        one_unit_state).
Proof.
  apply (sell_above_held_is_skipped Datetime.min one_unit_state sell_five
           (Datetime.mk 2024 1 2 0 0 0) 1 one_unit_row
           (flt "10") (flt "1") (flt "0") []).
  - split; reflexivity.
  - split; reflexivity.
  - exists "10,00000000", "1,00000000", "0,00000000". repeat split.
  - reflexivity.
  - reflexivity.
Defined.

(** ** Sells without a position *)

(** C1, counterexample: on a fresh sheet a sell of 5 units at 10 is not
    rejected; it appends a position. *)
Lemma sell_without_position_not_rejected :
  ~ sell_without_position_is_rejected Datetime.min fresh_state sell_five.
Proof.
  intros H.
  destruct (H (Datetime.mk 2024 1 2 0 0 0)) as (ev & Hst');
    [split; reflexivity | reflexivity | reflexivity |].
  rewrite (process_trade_passes _ _ _ (Datetime.mk 2024 1 2 0 0 0)) in Hst'
    by (split; reflexivity).
  rewrite apply_trade_new in Hst' by reflexivity.
  discriminate Hst'.
Qed.

(** C1, amended. A sell that passes the filter for a symbol without a
    position opens a short position: a row is appended with the price as
    average price, the negated quantity, the time of the trade, the
    break-even of the formula (0 when the quantity is 0) and a realized
    profit of 0; the symbol is bound to that row and recorded as modified,
    and nothing is logged. *)
Theorem sell_without_position_opens_short cutoff_date st t tx_date :
  passes cutoff_date t tx_date ->
  is_buyer t = false ->
  portfolio_map st !! symbol t = None ->
  let q := neg (qty t) in
  let r := [symbol t;
            _format_decimal (price t);
            _format_decimal q;
            Datetime.strftime tx_date;
            _format_decimal
              (if ne q zero then break_even_formula (price t) q zero else zero);
            _format_decimal zero] in
  exists st',
    process_trade cutoff_date st t = Ok (Created, [], st') /\
    sheet_rows st' = sheet_rows st ++ [r] /\
    bound_to st' (symbol t) (length (sheet_rows st)) r /\
    symbol t ∈ modified_symbols st'.
Proof.
  intros Hpass Hsell Hnew q r.
  rewrite (process_trade_passes _ _ _ _ Hpass), (apply_trade_new _ _ _ Hnew).
  eexists. split; [reflexivity|]. cbn.
  assert (opening_row t tx_date = r) as ->
    by (unfold opening_row; now rewrite Hsell).
  split; [reflexivity|]. split.
  - split; [apply lookup_insert_eq|]. cbn [sheet_rows].
    rewrite lookup_app_r by lia. now rewrite Nat.sub_diag.
  - set_solver.
Qed.

Lemma sell_without_position_opens_short_witness :
  exists st',
    process_trade Datetime.min fresh_state sell_five = Ok (Created, [], st') /\
    sheet_rows st' =
      [header;
       ["XYZBTC"; "10,00000000"; "-5,00000000"; "2024-01-02 00:00:00";
        "10,00000000"; "0,00000000"]].
Proof.
  destruct (sell_without_position_opens_short Datetime.min fresh_state
              sell_five (Datetime.mk 2024 1 2 0 0 0))
    as (st' & Hst' & Hrows & _).
  - split; reflexivity.
  - reflexivity.
  - reflexivity.
  - exists st'. split; [exact Hst' | exact Hrows].
Defined.

(** ** The incremental filter *)

Lemma strptime_valid s d : Datetime.strptime s = Ok d -> Datetime.valid d = true.
Proof.
  unfold Datetime.strptime.
  destruct (Datetime.pattern_Ymd_HMS s) as [|[d' [|c r]] l]; try discriminate.
  destruct (Datetime.valid d') eqn:Hv; [|discriminate].
  now intros [= <-].
Qed.

(** No date is earlier than [datetime.min], and the only one that is not
    later is [datetime.min]. *)
Lemma not_later_than_min d :
  Datetime.valid d = true -> Datetime.leb d Datetime.min = true ->
  d = Datetime.min.
Proof.
  destruct d as [y m dd h mi sec].
  unfold Datetime.valid, Datetime.leb, Datetime.key, Datetime.min.
  cbn [Datetime.year Datetime.month Datetime.day Datetime.hour
       Datetime.minute Datetime.second Datetime.lex_leb].
  intros Hv.
  repeat (apply andb_prop in Hv; destruct Hv as [Hv ?]).
  repeat match goal with
         | H : (_ <=? _)%nat = true |- _ => apply Nat.leb_le in H
         end.
  repeat match goal with
         | |- context [(?a <? ?b)%nat] => destruct (Nat.ltb_spec a b); try lia
         end;
    try discriminate.
  intros _. f_equal; lia.
Qed.

(** C5, counterexample: without a sync cursor file, a trade stamped
    0001-01-01 00:00:00 is filtered out. *)
Lemma default_cutoff_skips_earliest_trade :
  ~ default_cutoff_processes_every_trade no_files fresh_state earliest_buy.
Proof.
  intros H.
  specialize (H eq_refl Datetime.min Datetime.min eq_refl eq_refl).
  rewrite (process_trade_filtered _ _ _ Datetime.min) in H by reflexivity.
  rewrite apply_trade_new in H by reflexivity.
  discriminate H.
Qed.

(** C5, amended. The cutoff is an exclusive lower bound: a trade stamped
    at or before it leaves the state as it is, so it creates no position,
    and a trade stamped later goes through the filter; without a sync
    cursor file, or with an empty one, the cutoff is [datetime.min], and
    then every trade stamped later than [datetime.min] goes through the
    filter. *)
Theorem cutoff_is_exclusive_lower_bound fs cutoff_date st t tx_date :
  Datetime.strptime (time t) = Ok tx_date ->
  (Datetime.leb tx_date cutoff_date = true ->
   process_trade cutoff_date st t = Ok (Filtered, [], st)) /\
  (Datetime.leb tx_date cutoff_date = false ->
   process_trade cutoff_date st t = apply_trade st t tx_date) /\
  (no_cursor fs ->
   read_cutoff fs = Ok Datetime.min /\
   (tx_date <> Datetime.min ->
    process_trade Datetime.min st t = apply_trade st t tx_date)).
Proof.
  intros Hdate. split; [|split].
  - now apply process_trade_filtered.
  - intros Hlate. now apply process_trade_passes.
  - intros Hcursor. split.
    + unfold read_cutoff.
      destruct Hcursor as [-> | (content & -> & ->)]; reflexivity.
    + intros Hmin. apply process_trade_passes. split; [exact Hdate|].
      destruct (Datetime.leb tx_date Datetime.min) eqn:Hle; [|reflexivity].
      exfalso. apply Hmin, not_later_than_min; [|exact Hle].
      now apply strptime_valid with (time t).
Qed.

Lemma cutoff_is_exclusive_lower_bound_witness :
  process_trade (Datetime.mk 2024 1 2 0 0 0) fresh_state sell_five =
    Ok (Filtered, [], fresh_state) /\
  read_cutoff (mk_files None None (Some "  ") None) = Ok Datetime.min.
Proof.
  destruct (cutoff_is_exclusive_lower_bound
              (mk_files None None (Some "  ") None)
              (Datetime.mk 2024 1 2 0 0 0) fresh_state sell_five
              (Datetime.mk 2024 1 2 0 0 0) eq_refl)
    as (Hskip & _ & Hdefault).
  split; [apply Hskip; reflexivity|].
  apply Hdefault. right. exists "  ". split; reflexivity.
Defined.

(** ** The writes *)

(** C7, counterexample: the run returns although the ledger could not be
    written. *)
Lemma ledger_write_failure_not_raised :
  ~ ledger_write_failure_is_raised (mk_io (Some None) None) no_files.
Proof.
  intros H. destruct H as [e He]; [discriminate|].
  vm_compute in He. discriminate He.
Qed.

(** C7, amended. A run that reaches the writes returns whatever the
    writes do.  When the ledger cannot be written, an error is logged and
    no exception leaves [update_portfolio]; the report of the modified
    symbols is written all the same.  When the report cannot be written,
    nothing is logged. *)
Theorem write_failures_do_not_abort io fs os ev st :
  reconcile fs = Ok (os, ev, st) ->
  exists fs',
    update_portfolio io fs =
      Ok (fs',
          ev ++ match portfolio_write_error io with
                | None => [Info_portfolio_updated]
                | Some _ => [Error_write_csv]
                end
             ++ match modified_write_error io with
                | None => [Info_change_log_saved]
                | Some _ => []
                end) /\
    raw_data_file fs' = raw_data_file fs /\
    last_sync_file fs' = last_sync_file fs /\
    portfolio_csv fs' =
      match portfolio_write_error io with
      | None => Some (sheet_rows st)
      | Some remains => remains
      end /\
    modified_log_file fs' =
      match modified_write_error io with
      | None => Some (modified_report (modified_symbols st))
      | Some remains => remains
      end.
Proof.
  intros Hrun. unfold update_portfolio. rewrite Hrun. cbn [bind].
  unfold persist.
  destruct (portfolio_write_error io), (modified_write_error io);
    eexists; (split; [reflexivity|]); repeat split.
Qed.

Lemma write_failures_do_not_abort_witness :
  update_portfolio (mk_io (Some None) None) no_files =
    Ok (mk_files None None None (Some ""),
        [Info_processing 0; Error_write_csv; Info_change_log_saved]).
Proof.
  destruct (write_failures_do_not_abort (mk_io (Some None) None) no_files
              [] [Info_processing 0] fresh_state eq_refl)
    as (fs' & Hrun & _).
  rewrite Hrun. vm_compute in Hrun. now injection Hrun as <-.
Defined.

(** ** The loop *)

(** How the body of the loop can end once the filter is passed. *)
Lemma apply_trade_inv st t tx_date o ev st' :
  apply_trade st t tx_date = Ok (o, ev, st') ->
  (o = Rejected /\ st' = st /\ is_buyer t = false /\
   exists q, ev = [Warning_sell_exceeds (symbol t) (qty t) q]) \/
  (o = Updated /\ ev = [] /\
   exists i r,
     portfolio_map st !! symbol t = Some i /\
     st' = mk_state (<[i := r]> (sheet_rows st)) (portfolio_map st)
             ({[symbol t]} ∪ modified_symbols st)) \/
  (o = Created /\ ev = [] /\
   portfolio_map st !! symbol t = None /\
   st' = mk_state (sheet_rows st ++ [opening_row t tx_date])
           (<[symbol t := length (sheet_rows st)]> (portfolio_map st))
           ({[symbol t]} ∪ modified_symbols st)).
Proof.
  destruct (portfolio_map st !! symbol t) as [i|] eqn:Hmap.
  - unfold apply_trade. cbv zeta. rewrite Hmap. cbv beta iota. intros H.
    repeat match type of H with
           | bind ?m _ = Ok _ =>
               destruct m eqn:?; cbn [bind] in H; [|discriminate H]
           end.
    match goal with a : option _ |- _ => destruct a as [[[avg' q'] pnl']|] end.
    + repeat match type of H with
             | bind ?m _ = Ok _ =>
                 destruct m eqn:?; cbn [bind] in H; [|discriminate H]
             end.
      injection H as <- <- <-. right. left. eauto 10.
    + injection H as <- <- <-. left.
      destruct (is_buyer t) eqn:Hside.
      * match goal with
        | E : bind _ _ = Ok None |- _ =>
            destruct (gt _ zero) in E; [destruct (div _ _) in E|];
            discriminate E
        end.
      * eauto 10.
  - rewrite (apply_trade_new _ _ _ Hmap). intros [= <- <- <-].
    right. right. auto.
Qed.

(** A trade that is filtered out or rejected leaves the state as it is. *)
Lemma process_trade_not_accepted cutoff_date st t o ev st' :
  process_trade cutoff_date st t = Ok (o, ev, st') ->
  accepted o = false -> st' = st.
Proof.
  unfold process_trade. destruct (Datetime.strptime (time t)) as [d|];
    [cbn [bind] | discriminate].
  destruct (Datetime.leb d cutoff_date).
  - now intros [= <- <- <-].
  - intros H Hacc.
    destruct (apply_trade_inv _ _ _ _ _ _ H)
      as [(-> & -> & _) | [(-> & _) | (-> & _)]];
      [reflexivity | discriminate Hacc | discriminate Hacc].
Qed.

(** A trade never removes a modified symbol, and an accepted trade adds
    its own. *)
Lemma process_trade_modified cutoff_date st t o ev st' :
  process_trade cutoff_date st t = Ok (o, ev, st') ->
  modified_symbols st ⊆ modified_symbols st' /\
  (accepted o = true -> symbol t ∈ modified_symbols st').
Proof.
  unfold process_trade. destruct (Datetime.strptime (time t)) as [d|];
    [cbn [bind] | discriminate].
  destruct (Datetime.leb d cutoff_date).
  - intros [= <- <- <-]. split; [reflexivity | discriminate].
  - intros H.
    destruct (apply_trade_inv _ _ _ _ _ _ H)
      as [(-> & -> & _) | [(-> & _ & i & r & _ & ->) | (-> & _ & _ & ->)]];
      cbn; split; try discriminate; set_solver.
Qed.

Lemma process_trades_cons cutoff_date st t rest os ev st' :
  process_trades cutoff_date st (t :: rest) = Ok (os, ev, st') ->
  exists o ev1 st1 os' ev2,
    process_trade cutoff_date st t = Ok (o, ev1, st1) /\
    process_trades cutoff_date st1 rest = Ok (os', ev2, st') /\
    os = o :: os' /\ ev = ev1 ++ ev2.
Proof.
  cbn [process_trades].
  destruct (process_trade cutoff_date st t) as [[[o ev1] st1]|];
    [cbn [bind] | discriminate].
  destruct (process_trades cutoff_date st1 rest) as [[[os' ev2] st2]|] eqn:Hrest;
    [cbn [bind] | discriminate].
  intros [= <- <- <-]. now exists o, ev1, st1, os', ev2.
Qed.

Lemma process_trades_modified cutoff_date trades :
  forall st os ev st',
    process_trades cutoff_date st trades = Ok (os, ev, st') ->
    modified_symbols st ⊆ modified_symbols st' /\
    forall k t o,
      trades !! k = Some t -> os !! k = Some o -> accepted o = true ->
      symbol t ∈ modified_symbols st'.
Proof.
  induction trades as [|t rest IH]; intros st os ev st' H.
  - injection H as <- <- <-. split; [reflexivity|]. intros k t o Hk.
    now rewrite lookup_nil in Hk.
  - apply process_trades_cons in H
      as (o & ev1 & st1 & os' & ev2 & Hstep & Hrest & -> & ->).
    destruct (process_trade_modified _ _ _ _ _ _ Hstep) as [Hsub Hadd].
    destruct (IH _ _ _ _ Hrest) as [Hsub' Hall].
    split; [now transitivity (modified_symbols st1)|].
    intros [|k] t' o' Ht Ho Hacc.
    + injection Ht as <-. injection Ho as <-.
      now apply (proj1 (elem_of_subseteq _ _) Hsub'), Hadd.
    + now apply (Hall k t' o').
Qed.



(** The loop runs its body on every trade of the list, from the state the
    trades before it have left. *)
Lemma process_trades_at cutoff_date trades : forall k t st os ev st',
  process_trades cutoff_date st trades = Ok (os, ev, st') ->
  trades !! k = Some t ->
  exists before ev1 st1 o ev2 st2 after ev3,
    process_trades cutoff_date st (take k trades) = Ok (before, ev1, st1) /\
    process_trade cutoff_date st1 t = Ok (o, ev2, st2) /\
    process_trades cutoff_date st2 (drop (S k) trades) = Ok (after, ev3, st') /\
    os = before ++ o :: after.
Proof.
  induction trades as [|t0 rest IH]; intros k t st os ev st' H Hk;
    [now rewrite lookup_nil in Hk|].
  apply process_trades_cons in H
    as (o & ev1 & st1 & os' & ev2 & Hstep & Hrest & -> & ->).
  destruct k as [|k].
  - injection Hk as <-. cbn [take drop].
    now exists [], [], st, o, ev1, st1, os', ev2.
  - destruct (IH k t _ _ _ _ Hrest Hk)
      as (before & e1 & s1 & o' & e2 & s2 & after & e3 & Hb & Ht & Ha & ->).
    exists (o :: before), (ev1 ++ e1), s1, o', e2, s2, after, e3.
    cbn [take drop process_trades]. rewrite Hstep. cbn [bind].
    rewrite Hb. cbn [bind]. now repeat split.
Qed.

(** An accepted trade is stamped later than the cutoff and has the effect
    of a trade on the ledger; it creates a position exactly when its
    symbol has none. *)
Lemma process_trade_effect cutoff_date st t o ev st' :
  process_trade cutoff_date st t = Ok (o, ev, st') ->
  accepted o = true ->
  exists d,
    passes cutoff_date t d /\ effect t d st st' /\
    (o = Created <-> portfolio_map st !! symbol t = None).
Proof.
  unfold process_trade, passes.
  destruct (Datetime.strptime (time t)) as [d|]; [cbn [bind] | discriminate].
  destruct (Datetime.leb d cutoff_date) eqn:Hd.
  - intros [= <- <- <-]. discriminate.
  - intros H Hacc. exists d. split; [now split|].
    destruct (portfolio_map st !! symbol t) as [i|] eqn:Hmap.
    + destruct (apply_trade_reads_row _ _ _ _ _ Hmap H)
        as (r & avg & q & pnl & Hrow & Hholds).
      rewrite (apply_trade_existing st t d i r avg q pnl) in H
        by (try split; assumption).
      destruct (negb (is_buyer t) && gt (qty t) q) eqn:Hrej.
      * injection H as <- <- <-. discriminate Hacc.
      * destruct (if is_buyer t then after_buy avg q pnl (price t) (qty t)
                  else after_sell avg q pnl (price t) (qty t))
          as [[avg' q'] pnl'] eqn:Hv.
        injection H as <- <- <-. split; [|split; discriminate].
        apply (effect_update t d st i r avg q pnl avg' q' pnl');
          [now split | exact Hholds | | exact Hv].
        intros Hsell. now rewrite Hsell in Hrej.
    + rewrite (apply_trade_new _ _ _ Hmap) in H. injection H as <- <- <-.
      split; [now apply effect_open | now split].
Qed.


Lemma effect_modified t d st st' :
  effect t d st st' ->
  modified_symbols st' = {[symbol t]} ∪ modified_symbols st.
Proof. now intros []. Qed.



(** The ledger that is loaded has no modified symbol. *)
Lemma load_modified_symbols fs st : load fs = Ok st -> modified_symbols st = ∅.
Proof.
  unfold load. cbv zeta.
  destruct (match portfolio_csv fs with
            | Some rows => read_csv rows
            | None => Ok []
            end) as [rows|]; [cbn [bind] | discriminate].
  destruct (build_map _ _ _); [cbn [bind] | discriminate].
  now intros [= <-].
Qed.

(** A symbol the loop records as modified was recorded before, or is the
    symbol of an accepted trade. *)
Lemma process_trades_modified_inv cutoff_date trades : forall st os ev st' s,
  process_trades cutoff_date st trades = Ok (os, ev, st') ->
  s ∈ modified_symbols st' ->
  s ∈ modified_symbols st \/
  exists k t, accepted_at trades os k t /\ symbol t = s.
Proof.
  induction trades as [|t rest IH]; intros st os ev st' s H Hs.
  - injection H as <- <- <-. now left.
  - destruct (process_trades_cons _ _ _ _ _ _ _ H)
      as (o & ev1 & st1 & os' & ev2 & Ht & Hrest & -> & _).
    destruct (IH _ _ _ _ _ Hrest Hs) as [H1 | (k & t' & (Hk & o' & Ho & Hacc) & <-)].
    + destruct (accepted o) eqn:Hacc.
      * destruct (process_trade_effect _ _ _ _ _ _ Ht Hacc)
          as (d & _ & Heffect & _).
        rewrite (effect_modified _ _ _ _ Heffect) in H1.
        apply elem_of_union in H1 as [->%elem_of_singleton | H1]; [|now left].
        right. exists 0%nat, t. split; [|reflexivity].
        split; [reflexivity|]. now exists o.
      * left. now rewrite <- (process_trade_not_accepted _ _ _ _ _ _ Ht Hacc).
    + right. exists (S k), t'. split; [|reflexivity].
      split; [exact Hk|]. now exists o'.
Qed.

(** ** The order of the trades *)

Lemma lex_leb_total a : forall b,
  Datetime.lex_leb a b = false -> Datetime.lex_leb b a = true.
Proof.
  induction a as [|x a IH]; intros [|y b]; cbn [Datetime.lex_leb]; try easy.
  destruct (Nat.ltb_spec x y), (Nat.ltb_spec y x); try easy; try lia.
  apply IH.
Qed.

Lemma leb_total a b : Datetime.leb a b = false -> Datetime.leb b a = true.
Proof. apply lex_leb_total. Qed.

Lemma insert_sorted_HdRel a x l :
  key_le a x -> HdRel key_le a l -> HdRel key_le a (insert_sorted x l).
Proof.
  intros Hax Hal. destruct l as [|y l]; cbn [insert_sorted]; [now constructor|].
  destruct (Datetime.leb (fst y) (fst x)); constructor;
    [now inversion Hal | exact Hax].
Qed.

Lemma insert_sorted_Sorted x l :
  Sorted key_le l -> Sorted key_le (insert_sorted x l).
Proof.
  induction 1 as [|y l Hl IH Hy]; cbn [insert_sorted]; [now repeat constructor|].
  destruct (Datetime.leb (fst y) (fst x)) eqn:Hyx.
  - constructor; [exact IH|].
    apply insert_sorted_HdRel; [|exact Hy]. unfold key_le. now rewrite Hyx.
  - constructor; [now constructor|]. constructor. unfold key_le.
    now rewrite (leb_total _ _ Hyx).
Qed.

Lemma insert_sorted_Permutation x l : insert_sorted x l ≡ₚ x :: l.
Proof.
  induction l as [|y l IH]; cbn [insert_sorted]; [reflexivity|].
  destruct (Datetime.leb (fst y) (fst x)); [|reflexivity].
  rewrite IH. apply Permutation_swap.
Qed.

Lemma sort_by_time_spec l :
  Sorted key_le (sort_by_time l) /\ sort_by_time l ≡ₚ l.
Proof.
  unfold sort_by_time.
  enough (forall acc, Sorted key_le acc ->
            Sorted key_le (foldl (fun acc x => insert_sorted x acc) acc l) /\
            foldl (fun acc x => insert_sorted x acc) acc l ≡ₚ acc ++ l) as H.
  { destruct (H [] (Sorted_nil _)) as [Hs Hp]. now split. }
  induction l as [|x l IH]; intros acc Hacc; cbn [foldl].
  - split; [exact Hacc | now rewrite app_nil_r].
  - destruct (IH (insert_sorted x acc) (insert_sorted_Sorted x acc Hacc))
      as [Hs Hp].
    split; [exact Hs|]. rewrite Hp, insert_sorted_Permutation.
    apply Permutation_middle.
Qed.

Lemma sort_keys_spec trades : forall keyed,
  sort_keys trades = Ok keyed ->
  snd <$> keyed = trades /\
  Forall (fun kt => Datetime.strptime (time (snd kt)) = Ok (fst kt)) keyed.
Proof.
  induction trades as [|t rest IH]; intros keyed; cbn [sort_keys].
  - intros [= <-]. now split.
  - destruct (Datetime.strptime (time t)) as [k|] eqn:Hk;
      [cbn [bind] | discriminate].
    destruct (sort_keys rest) as [ks|]; [cbn [bind] | discriminate].
    intros [= <-]. destruct (IH ks eq_refl) as [Hsnd Hall].
    split; [cbn; now rewrite Hsnd | now constructor].
Qed.

(** [_read_trade_data] returns the trades it has read in the order of
    their timestamps. *)
Lemma read_trade_data_chronological fs trades warnings :
  _read_trade_data fs = Ok (trades, warnings) ->
  chronological trades /\
  trades ≡ₚ fst (read_lines (tail (default [] (raw_data_file fs)))).
Proof.
  unfold _read_trade_data.
  set (read := match raw_data_file fs with
               | Some lines => read_lines (tail lines)
               | None => ([], [])
               end).
  assert (fst read = fst (read_lines (tail (default [] (raw_data_file fs)))))
    as Hread by (subst read; now destruct (raw_data_file fs)).
  destruct read as [ts ws]. cbn [fst] in Hread.
  destruct (sort_keys ts) as [keyed|] eqn:Hkeys; [cbn [bind] | discriminate].
  intros [= <- <-].
  destruct (sort_keys_spec _ _ Hkeys) as [Hsnd Hall].
  destruct (sort_by_time_spec keyed) as [Hsorted Hperm].
  split.
  - exists (fst <$> sort_by_time keyed). split.
    + apply Forall2_fmap, Forall_Forall2_diag.
      now rewrite Hperm.
    + clear -Hsorted. induction Hsorted as [|x l Hl IH Hx]; cbn;
        constructor; [exact IH|].
      destruct Hx; cbn; now constructor.
  - now rewrite Hperm, Hsnd, <- Hread.
Qed.

Lemma lex_leb_trans a : forall b c,
  Datetime.lex_leb a b = true -> Datetime.lex_leb b c = true ->
  Datetime.lex_leb a c = true.
Proof.
  induction a as [|x a IH]; intros [|y b] [|z c]; cbn [Datetime.lex_leb];
    try easy.
  destruct (Nat.ltb_spec x y), (Nat.ltb_spec y x), (Nat.ltb_spec y z),
    (Nat.ltb_spec z y), (Nat.ltb_spec x z), (Nat.ltb_spec z x);
    try easy; try lia.
  apply IH.
Qed.

Lemma leb_trans a b c :
  Datetime.leb a b = true -> Datetime.leb b c = true -> Datetime.leb a c = true.
Proof. apply lex_leb_trans. Qed.


(** A line that reads as a trade gives a trade of the list. *)
Lemma read_lines_elem line t lines :
  line ∈ lines -> read_line line = (Some t, []) -> t ∈ fst (read_lines lines).
Proof.
  intros Hin Ht. induction lines as [|l rest IH]; [now apply elem_of_nil in Hin|].
  cbn [read_lines]. destruct (read_lines rest) as [ts ws].
  apply elem_of_cons in Hin as [<-|Hin].
  - rewrite Ht. cbn. now left.
  - destruct (read_line l) as [[t'|] w]; cbn in *; [right|]; now apply IH.
Qed.

(** ** The side of a trade *)

(** C9. A line of five fields whose price and quantity are numerals
    yields a trade that is a buy exactly when the fifth field is the text
    [True]; with any other text there it is a sell.  The trade is one of
    the trades [_read_trade_data] returns for a file that holds the line
    after its first line, and in a run that comes to the end of the loop,
    the loop has run its body on the trade, from the state the trades
    before it had left.  When the fifth field is another text, the loop
    of [update_portfolio] takes the trade, once it passes the filter,
    through the branch of a sell: on a position that exists it is
    rejected when the quantity is above the held one, and otherwise the
    row is rewritten with the held quantity less the sold one and the
    profit realized; on a symbol without a position the row that is
    appended holds the quantity negated.  When the fifth field is [True]
    the trade goes through the branch of a buy. *)
Theorem side_is_equality_with_True line symbol price qty time side p q :
  Str.split "," (Str.strip line) = [symbol; price; qty; time; side] ->
  of_string price = Ok p ->
  of_string qty = Ok q ->
  exists t,
    read_line line = (Some t, []) /\
    t = mk_trade symbol p q time (String.eqb side "True") /\
    (is_buyer t = true <-> side = "True") /\
    (side <> "True" -> is_buyer t = false) /\
    (forall fs first lines trades warnings,
       raw_data_file fs = Some (first :: lines) ->
       line ∈ lines ->
       _read_trade_data fs = Ok (trades, warnings) ->
       t ∈ trades) /\
    (forall fs first lines os ev st',
       raw_data_file fs = Some (first :: lines) ->
       line ∈ lines ->
       reconcile fs = Ok (os, ev, st') ->
       exists cutoff_date trades warnings st k before ev1 st1 o ev2 st2
              after ev3,
         read_cutoff fs = Ok cutoff_date /\
         _read_trade_data fs = Ok (trades, warnings) /\
         load fs = Ok st /\
         trades !! k = Some t /\
         process_trades cutoff_date st (take k trades) =
           Ok (before, ev1, st1) /\
         process_trade cutoff_date st1 t = Ok (o, ev2, st2) /\
         process_trades cutoff_date st2 (drop (S k) trades) =
           Ok (after, ev3, st') /\
         os = before ++ o :: after) /\
    (side <> "True" ->
     forall cutoff_date st tx_date,
       passes cutoff_date t tx_date ->
       (forall i r avg held pnl,
          bound_to st symbol i r ->
          holds r avg held pnl ->
          process_trade cutoff_date st t =
            if gt q held then
              Ok (Rejected, [Warning_sell_exceeds symbol q held], st)
            else
              Ok (Updated, [],
                  mk_state
                    (<[i := rewritten r
                              (avg, sub held q, add pnl (mul (sub p avg) q))
                              tx_date
                              (if gt (sub held q) zero then
                                 break_even_formula avg (sub held q)
                                   (add pnl (mul (sub p avg) q))
                               else zero)]> (sheet_rows st))
                    (portfolio_map st) ({[symbol]} ∪ modified_symbols st))) /\
       (portfolio_map st !! symbol = None ->
        process_trade cutoff_date st t =
          Ok (Created, [],
              mk_state
                (sheet_rows st ++
                 [[symbol; _format_decimal p; _format_decimal (neg q);
                   Datetime.strftime tx_date;
                   _format_decimal
                     (if ne (neg q) zero then
                        break_even_formula p (neg q) zero
                      else zero);
                   _format_decimal zero]])
                (<[symbol := length (sheet_rows st)]> (portfolio_map st))
                ({[symbol]} ∪ modified_symbols st)))) /\
    (side = "True" ->
     forall cutoff_date st tx_date,
       passes cutoff_date t tx_date ->
       (forall i r avg held pnl,
          bound_to st symbol i r ->
          holds r avg held pnl ->
          process_trade cutoff_date st t =
            Ok (Updated, [],
                mk_state
                  (<[i := rewritten r (after_buy avg held pnl p q) tx_date
                            (if gt (add held q) zero then
                               break_even_formula
                                 (SFdiv prec emax
                                    (add (mul avg held) (mul p q))
                                    (add held q))
                                 (add held q) pnl
                             else zero)]> (sheet_rows st))
                  (portfolio_map st) ({[symbol]} ∪ modified_symbols st))) /\
       (portfolio_map st !! symbol = None ->
        process_trade cutoff_date st t =
          Ok (Created, [],
              mk_state
                (sheet_rows st ++
                 [[symbol; _format_decimal p; _format_decimal q;
                   Datetime.strftime tx_date;
                   _format_decimal
                     (if ne q zero then break_even_formula p q zero
                      else zero);
                   _format_decimal zero]])
                (<[symbol := length (sheet_rows st)]> (portfolio_map st))
                ({[symbol]} ∪ modified_symbols st)))).
Proof.
  intros Hsplit Hp Hq.
  assert (read_line line =
            (Some (mk_trade symbol p q time (String.eqb side "True")), []))
    as Hline by (unfold read_line; now rewrite Hsplit, Hp, Hq).
  eexists. split; [exact Hline|]. split; [reflexivity|].
  split; [apply String.eqb_eq|].
  split; [intros Hside; now apply String.eqb_neq|].
  assert (forall fs first lines trades warnings,
            raw_data_file fs = Some (first :: lines) ->
            line ∈ lines ->
            _read_trade_data fs = Ok (trades, warnings) ->
            mk_trade symbol p q time (String.eqb side "True") ∈ trades)
    as Hreaches.
  { intros fs first lines trades warnings Hfile Hin Hread.
    destruct (read_trade_data_chronological _ _ _ Hread) as [_ Hperm].
    rewrite Hperm, Hfile. cbn [default tail].
    exact (read_lines_elem _ _ _ Hin Hline). }
  split; [exact Hreaches|]. split; [|split].
  - intros fs first lines os ev st' Hfile Hin. unfold reconcile.
    destruct (read_cutoff fs) as [cutoff_date|]; [cbn [bind] | discriminate].
    destruct (_read_trade_data fs) as [[trades warnings]|] eqn:Hread;
      [cbn [bind] | discriminate].
    destruct (load fs) as [st|]; [cbn [bind] | discriminate].
    destruct (process_trades cutoff_date st trades) as [[[os' ev'] st'']|]
      eqn:Hloop; [cbn [bind] | discriminate].
    intros [= <- <- <-].
    pose proof (Hreaches _ _ _ _ _ Hfile Hin Hread) as Ht.
    apply list_elem_of_lookup in Ht as [k Hk].
    destruct (process_trades_at _ _ _ _ _ _ _ _ Hloop Hk)
      as (before & ev1 & st1 & o & ev2 & st2 & after & ev3 & H1 & H2 & H3 & H4).
    now exists cutoff_date, trades, warnings, st, k, before, ev1, st1, o, ev2,
      st2, after, ev3.
  - intros Hside cutoff_date st tx_date Hpass.
    apply String.eqb_neq in Hside. rewrite Hside in Hpass |- *.
    rewrite (process_trade_passes _ _ _ _ Hpass). split.
    + intros i r avg held pnl Hbound Hholds.
      rewrite (apply_trade_existing _ _ _ i r avg held pnl)
        by assumption.
      cbn [Engine.is_buyer negb andb Engine.qty Engine.price Engine.symbol].
      now destruct (gt q held).
    + intros Hnew. now rewrite apply_trade_new by exact Hnew.
  - intros -> cutoff_date st tx_date Hpass.
    change (String.eqb "True" "True") with true in Hpass |- *.
    rewrite (process_trade_passes _ _ _ _ Hpass). split.
    + intros i r avg held pnl Hbound Hholds.
      rewrite (apply_trade_existing _ _ _ i r avg held pnl)
        by assumption.
      cbn [Engine.is_buyer negb andb Engine.qty Engine.price Engine.symbol].
      unfold after_buy. cbv zeta.
      now destruct (gt (add held q) zero).
    + intros Hnew. now rewrite apply_trade_new by exact Hnew.
Qed.

Lemma side_is_equality_with_True_witness :
  exists t,
    read_line "XYZBTC,30,1.0,2024-01-01 00:00:03,False" = (Some t, []) /\
    is_buyer t = false /\
    (forall trades warnings,
       _read_trade_data scenario_files = Ok (trades, warnings) ->
       t ∈ trades) /\
    process_trade Datetime.min fresh_state t =
      Ok (Created, [],
          mk_state
            [header;
             ["XYZBTC"; "30,00000000"; "-1,00000000"; "2024-01-01 00:00:03";
              "30,00000000"; "0,00000000"]]
            {["XYZBTC" := 1%nat]} {["XYZBTC"]}).
Proof.
  destruct (side_is_equality_with_True
              "XYZBTC,30,1.0,2024-01-01 00:00:03,False"
              "XYZBTC" "30" "1.0" "2024-01-01 00:00:03" "False"
              (flt "30") (flt "1.0") eq_refl eq_refl eq_refl)
    as (t & Hread & -> & _ & Hsell & Hreaches & _ & Hbranch & _).
  eexists. split; [exact Hread|]. split; [now apply Hsell|]. split.
  - intros trades warnings.
    apply (Hreaches scenario_files "symbol,price,qty,time,isBuyer"
             ["XYZBTC,30,1.0,2024-01-01 00:00:03,False";
              "XYZBTC,10,1.0,2024-01-01 00:00:01,True";
              "XYZBTC,10,5.0,2024-01-01 00:00:04,False";
              "XYZBTC,20,1.0,2024-01-01 00:00:02,True"]);
      [reflexivity | now left].
  - destruct (Hbranch ltac:(discriminate) Datetime.min fresh_state
                (Datetime.mk 2024 1 1 0 0 3) (conj eq_refl eq_refl))
      as [_ Hnew].
    rewrite (Hnew eq_refl). vm_compute. reflexivity.
Defined.

(** With [true], with [TRUE], or with a space before [True], the trade is
    a sell. *)
Example side_upper_case_is_sell :
  fst (read_line "XYZBTC,30,1.0,2024-01-01 00:00:03,true") =
    Some (mk_trade "XYZBTC" (flt "30") (flt "1") "2024-01-01 00:00:03" false) /\
  fst (read_line "XYZBTC,30,1.0,2024-01-01 00:00:03,TRUE") =
    Some (mk_trade "XYZBTC" (flt "30") (flt "1") "2024-01-01 00:00:03" false) /\
  fst (read_line "XYZBTC,30,1.0,2024-01-01 00:00:03, True") =
    Some (mk_trade "XYZBTC" (flt "30") (flt "1") "2024-01-01 00:00:03" false) /\
  fst (read_line "XYZBTC,30,1.0,2024-01-01 00:00:03,True") =
    Some (mk_trade "XYZBTC" (flt "30") (flt "1") "2024-01-01 00:00:03" true).
Proof. repeat split. Qed.

(** ** What a run guarantees *)




(** ** Decimal text *)

Lemma append_cons x (a b : string) : String x a +:+ b = String x (a +:+ b).
Proof. reflexivity. Qed.

Lemma append_assoc (a b c : string) : (a +:+ b) +:+ c = a +:+ b +:+ c.
Proof.
  induction a as [|x a IH]; [reflexivity|].
  now rewrite !append_cons, IH.
Qed.

Lemma replace_append a b (s t : string) :
  Str.replace a b (s +:+ t) = Str.replace a b s +:+ Str.replace a b t.
Proof.
  induction s as [|x s IH]; [reflexivity|].
  rewrite append_cons. cbn [Str.replace]. now rewrite append_cons, IH.
Qed.

Lemma no_space_append (s t : string) :
  no_space (s +:+ t) = no_space s && no_space t.
Proof.
  induction s as [|x s IH]; [reflexivity|].
  rewrite append_cons. cbn [no_space]. now rewrite IH, andb_assoc.
Qed.

Lemma lstrip_no_space s : no_space s = true -> Str.lstrip s = s.
Proof.
  destruct s as [|c s]; cbn; [reflexivity|].
  now destruct (Str.isspace c).
Qed.

Lemma rstrip_no_space s : no_space s = true -> Str.rstrip s = s.
Proof.
  induction s as [|c s IH]; cbn; [reflexivity|].
  intros [Hc Hs]%andb_prop. rewrite (IH Hs).
  destruct s; [|reflexivity]. now destruct (Str.isspace c).
Qed.

Lemma strip_no_space s : no_space s = true -> Str.strip s = s.
Proof.
  intros H. unfold Str.strip. rewrite (lstrip_no_space _ H).
  now apply rstrip_no_space.
Qed.

(** The white space [float] drops is white space for [str.strip]. *)
Lemma is_space_isspace c : is_space c = true -> Str.isspace c = true.
Proof. ascii_cases c. Qed.

Lemma skip_left_no_space s : no_space s = true -> skip_left s = s.
Proof.
  destruct s as [|c s]; cbn; [reflexivity|].
  destruct (is_space c) eqn:Hc; [|reflexivity].
  now rewrite (is_space_isspace _ Hc).
Qed.

Lemma skip_right_no_space s : no_space s = true -> skip_right s = s.
Proof.
  induction s as [|c s IH]; cbn; [reflexivity|].
  intros [Hc Hs]%andb_prop. rewrite (IH Hs).
  destruct s; [|reflexivity].
  destruct (is_space c) eqn:Hc'; [|reflexivity].
  now rewrite (is_space_isspace _ Hc') in Hc.
Qed.

Lemma trim_no_space s : no_space s = true -> trim s = s.
Proof.
  intros H. unfold trim. rewrite (skip_left_no_space _ H).
  now apply skip_right_no_space.
Qed.

Lemma all_digits_no_space s : all_digits s = true -> no_space s = true.
Proof.
  induction s as [|c s IH]; cbn; [reflexivity|].
  intros [Hc Hs]%andb_prop. rewrite (IH Hs), andb_true_r.
  revert Hc. ascii_cases c.
Qed.

Lemma all_digits_replace a b s :
  is_digit a = false -> all_digits s = true -> Str.replace a b s = s.
Proof.
  intros Ha. induction s as [|c s IH]; cbn; [reflexivity|].
  intros [Hc Hs]%andb_prop. rewrite (IH Hs).
  destruct (Ascii.eqb_spec c a) as [->|]; [congruence | reflexivity].
Qed.

Lemma all_digits_string_of_uint u :
  all_digits (NilEmpty.string_of_uint u) = true.
Proof. induction u; cbn; auto. Qed.

Lemma span_digitpart_digits s t :
  all_digits s = true ->
  match t with
  | EmptyString => True
  | String c _ => is_digit c = false /\ Ascii.eqb c "_" = false
  end ->
  span_digitpart (s +:+ t) = (s, t).
Proof.
  intros Hs Ht. induction s as [|c s IH].
  - change (EmptyString +:+ t) with t.
    destruct t as [|c t]; [reflexivity|]. cbn [span_digitpart].
    destruct Ht as [-> ->]. reflexivity.
  - cbn in Hs. apply andb_prop in Hs as [Hc Hs].
    rewrite append_cons. cbn [span_digitpart]. rewrite Hc. cbn [orb].
    now rewrite (IH Hs).
Qed.

Lemma digitpart_digits s : forall after_digit,
  all_digits s = true ->
  s <> EmptyString \/ after_digit = true ->
  digitpart after_digit s = Some s.
Proof.
  induction s as [|c s IH]; intros after_digit Hs Hne; cbn.
  - destruct Hne as [Hne | ->]; [now destruct Hne | reflexivity].
  - cbn in Hs. apply andb_prop in Hs as [Hc Hs]. rewrite Hc.
    now rewrite (IH true Hs (or_intror eq_refl)).
Qed.

Lemma digits_of_string_of_uint u :
  digits_of (NilEmpty.string_of_uint u) = Some u.
Proof.
  unfold digits_of.
  destruct (NilEmpty.string_of_uint u) eqn:Hs.
  - now destruct u.
  - rewrite <- Hs.
    rewrite digitpart_digits;
      [ | apply all_digits_string_of_uint | left; now rewrite Hs].
    cbn. apply NilEmpty.usu.
Qed.

Lemma of_lu_cons_digit d u :
  (d < 10)%N ->
  Unsigned.of_lu (cons_digit d u) = (d + 10 * Unsigned.of_lu u)%N /\
  Decimal.nb_digits (cons_digit d u) = S (Decimal.nb_digits u).
Proof.
  intros Hd. destruct d as [|p]; [now split|].
  repeat (destruct p as [p|p|]; try (now split); try lia).
Qed.

(** The value of the digits, least significant first. *)
Lemma of_lu_low_digits k : forall n,
  Unsigned.of_lu (low_digits k n) = (n mod 10 ^ N.of_nat k)%N.
Proof.
  induction k as [|k IH]; intros n.
  - cbn. now rewrite N.mod_1_r.
  - cbn [low_digits].
    rewrite (proj1 (of_lu_cons_digit _ _
               (N.mod_upper_bound n 10 ltac:(discriminate)))).
    rewrite IH, Nat2N.inj_succ, N.pow_succ_r'.
    rewrite (N.Div0.mod_mul_r n 10 (10 ^ N.of_nat k)). reflexivity.
Qed.

Lemma nb_digits_low_digits k : forall n,
  Decimal.nb_digits (low_digits k n) = k.
Proof.
  induction k as [|k IH]; intros n; [reflexivity|].
  cbn [low_digits].
  rewrite (proj2 (of_lu_cons_digit _ _
             (N.mod_upper_bound n 10 ltac:(discriminate)))).
  now rewrite IH.
Qed.

Lemma usize_nb_digits u : Unsigned.usize u = N.of_nat (Decimal.nb_digits u).
Proof.
  induction u; cbn [Unsigned.usize Decimal.nb_digits];
    rewrite ?Nat2N.inj_succ; now f_equal.
Qed.

(** The integer and the fraction digits of [u / 10^8] make [u]. *)
Lemma of_uint_fixed8 (u : N) :
  N.of_uint (Decimal.app (N.to_uint (u / 10 ^ 8))
               (Decimal.rev (low_digits 8 (u mod 10 ^ 8)))) = u.
Proof.
  set (a := N.to_uint (u / 10 ^ 8)). set (lf := low_digits 8 (u mod 10 ^ 8)).
  change (N.of_uint ?d) with (Pos.of_uint d).
  rewrite Unsigned.of_uint_alt.
  assert (Decimal.rev (Decimal.app a (Decimal.rev lf)) =
          Decimal.revapp (Decimal.rev lf) (Decimal.rev a)) as ->.
  { apply to_list_inj.
    rewrite rev_spec, app_spec, revapp_spec, !rev_spec.
    rewrite List.rev_append_rev, List.rev_app_distr. reflexivity. }
  rewrite Unsigned.of_lu_revapp, rev_rev, <- Unsigned.of_uint_alt.
  rewrite usize_nb_digits, nb_digits_rev.
  subst a lf. rewrite nb_digits_low_digits, of_lu_low_digits.
  change (Pos.of_uint ?d) with (N.of_uint d).
  rewrite DecimalN.Unsigned.of_to.
  change (N.of_nat 8) with 8%N.
  rewrite N.Div0.mod_mod.
  rewrite (N.div_mod u (10 ^ 8)) at 3 by discriminate. lia.
Qed.

Lemma append_nil_r (s : string) : s +:+ EmptyString = s.
Proof.
  induction s as [|c s IH]; [reflexivity|]. now rewrite append_cons, IH.
Qed.

(** The text of a natural number: its digits, at least one. *)
Lemma int_text_digits n :
  exists c r,
    int_text n = String c r /\ is_digit c = true /\ all_digits r = true /\
    digits_of (int_text n) = Some (N.to_uint n).
Proof.
  unfold int_text, NilZero.string_of_uint.
  assert (N.to_uint n <> Decimal.Nil) as Hne.
  { destruct n; [discriminate | apply Unsigned.to_uint_nonnil]. }
  pose proof (all_digits_string_of_uint (N.to_uint n)) as Hall.
  pose proof (digits_of_string_of_uint (N.to_uint n)) as Hdigits.
  destruct (N.to_uint n) as [| | | | | | | | | |] eqn:Hu;
    [now destruct Hne | ..];
    cbn [NilEmpty.string_of_uint] in *;
    apply andb_prop in Hall as [Hc Hr]; eauto 10.
Qed.

(** [number] on an integer part, a point and eight digits. *)
Lemma number_fixed8 negative u :
  number negative (fixed8 u) = Some (LitDec negative u (-8)).
Proof.
  unfold fixed8, frac_text.
  destruct (int_text_digits (u / 10 ^ 8)) as (c & r & Htext & Hc & Hr & Hint).
  set (b := Decimal.rev (low_digits 8 (u mod 10 ^ 8))).
  change ("." +:+ ?x) with (String "." x).
  unfold number.
  rewrite span_digitpart_digits;
    [ | rewrite Htext; cbn; now rewrite Hc, Hr | now split].
  cbv iota beta.
  rewrite <- (append_nil_r (NilEmpty.string_of_uint b)) at 1.
  rewrite span_digitpart_digits;
    [ | apply all_digits_string_of_uint | exact I].
  rewrite Hint, digits_of_string_of_uint. rewrite Htext at 1.
  cbn [mbind option_bind exponent]. subst b. rewrite of_uint_fixed8.
  now rewrite nb_digits_rev, nb_digits_low_digits.
Qed.

Lemma no_space_fixed8 u a : Str.isspace a = false ->
  no_space (int_text (u / 10 ^ 8) +:+ String a EmptyString
            +:+ frac_text 8 (u mod 10 ^ 8)) = true.
Proof.
  intros Ha. rewrite !no_space_append. cbn [no_space]. rewrite Ha.
  destruct (int_text_digits (u / 10 ^ 8)) as (c & r & Htext & Hc & Hr & _).
  rewrite (all_digits_no_space (int_text _)), (all_digits_no_space (frac_text _ _));
    [reflexivity | apply all_digits_string_of_uint |].
  rewrite Htext. cbn. now rewrite Hc, Hr.
Qed.

Lemma fixed8_head u :
  exists c r, fixed8 u = String c r /\ is_digit c = true.
Proof.
  unfold fixed8.
  destruct (int_text_digits (u / 10 ^ 8)) as (c & r & -> & Hc & _).
  rewrite append_cons. eauto.
Qed.

(** [lex] on a sign and the text of a number of units. *)
Lemma lex_fixed8 s u :
  lex (sign_text s +:+ fixed8 u) = Some (LitDec s u (-8)).
Proof.
  pose proof (number_fixed8 s u) as Hnum.
  destruct (fixed8_head u) as (c & r & Htext & Hc).
  unfold lex.
  assert (take_sign (sign_text s +:+ fixed8 u) = (s, fixed8 u)) as ->.
  { rewrite Htext. destruct s; [reflexivity|].
    change (sign_text false +:+ String c r) with (String c r).
    revert Hc. ascii_cases c. }
  cbv zeta. rewrite Hnum, Htext. cbn [Str.lower String.eqb].
  replace (Ascii.eqb (Str.lower_char c) "i") with false
    by (revert Hc; ascii_cases c).
  replace (Ascii.eqb (Str.lower_char c) "n") with false
    by (revert Hc; ascii_cases c).
  reflexivity.
Qed.

(** [float] on a sign and the text of a number of units. *)
Lemma of_string_fixed8 s u :
  of_string (sign_text s +:+ fixed8 u) = Ok (of_decimal s u (-8)).
Proof.
  unfold of_string. rewrite trim_no_space, lex_fixed8; [reflexivity|].
  rewrite no_space_append. unfold fixed8.
  rewrite no_space_fixed8 by reflexivity. now destruct s.
Qed.

(** [_format_decimal] writes a sign, the integer part, a comma and eight
    digits. *)
Lemma format_decimal_fixed8 s u :
  Str.replace "." "," (sign_text s +:+ fixed8 u) =
    sign_text s +:+ int_text (u / 10 ^ 8) +:+ "," +:+ frac_text 8 (u mod 10 ^ 8).
Proof.
  unfold fixed8. rewrite !replace_append.
  destruct (int_text_digits (u / 10 ^ 8)) as (c & r & Htext & Hc & Hr & _).
  rewrite (all_digits_replace _ _ (int_text _)), (all_digits_replace _ _ (frac_text _ _));
    [ now destruct s | reflexivity | apply all_digits_string_of_uint
    | reflexivity | ].
  rewrite Htext. cbn. now rewrite Hc, Hr.
Qed.

(** [_safe_float] on the text [_format_decimal] writes. *)
Lemma safe_float_fixed8 s u :
  _safe_float (Str.replace "." "," (sign_text s +:+ fixed8 u)) =
    Ok (of_decimal s u (-8)).
Proof.
  rewrite format_decimal_fixed8. unfold _safe_float.
  rewrite strip_no_space
    by (rewrite no_space_append, no_space_fixed8 by reflexivity; now destruct s).
  assert (Str.replace "," "." (sign_text s +:+ int_text (u / 10 ^ 8) +:+ ","
                               +:+ frac_text 8 (u mod 10 ^ 8))
          = sign_text s +:+ fixed8 u) as ->.
  { unfold fixed8. rewrite !replace_append.
    destruct (int_text_digits (u / 10 ^ 8)) as (c & r & Htext & Hc & Hr & _).
    rewrite (all_digits_replace _ _ (int_text _)),
      (all_digits_replace _ _ (frac_text _ _));
      [ now destruct s | reflexivity | apply all_digits_string_of_uint
      | reflexivity | ].
    rewrite Htext. cbn. now rewrite Hc, Hr. }
  rewrite of_string_fixed8.
  destruct (int_text_digits (u / 10 ^ 8)) as (c & r & -> & _).
  now destruct s.
Qed.

(** What is written is read back: [_safe_float] never fails on the
    text of [_format_decimal], and yields [reread]. *)
Lemma safe_float_format_decimal x :
  _safe_float (_format_decimal x) = Ok (reread x).
Proof.
  unfold _format_decimal.
  destruct x as [s | s | | s m e]; cbn [format_8f reread].
  - now destruct s.
  - now destruct s.
  - reflexivity.
  - apply safe_float_fixed8.
Qed.

(** ** Writing and reading decimals *)

Lemma round_half_even_spec n d :
  0 <= n -> 0 < d ->
  0 <= round_half_even n d /\ 2 * Z.abs (n - d * round_half_even n d) <= d.
Proof.
  intros Hn Hd. unfold round_half_even.
  pose proof (Z.div_mod n d ltac:(lia)) as Hdiv.
  pose proof (Z.mod_pos_bound n d Hd) as Hmod.
  pose proof (Z.div_pos n d Hn Hd) as Hq.
  destruct (Z.compare_spec (2 * (n mod d)) d) as [Heq | Hlt | Hgt];
    [destruct (Z.even (n / d))| |]; split; nia.
Qed.

Lemma units8_nearest m e : nearest_units m e (units8 m e).
Proof.
  unfold nearest_units, units8. destruct e as [|k|k].
  - rewrite Z2N.id by lia. reflexivity.
  - rewrite Z2N.id; [reflexivity|].
    pose proof (Z.pow_pos_nonneg 2 (Zpos k)). lia.
  - assert (0 < 2 ^ Zpos k) as Hd by (apply Z.pow_pos_nonneg; lia).
    destruct (round_half_even_spec (Zpos m * 10 ^ 8) (2 ^ Zpos k)) as [H0 H];
      [lia | exact Hd |].
    now rewrite Z2N.id.
Qed.

Lemma lstrip_replace a b s :
  Str.isspace a = false -> Str.isspace b = false ->
  Str.lstrip (Str.replace a b s) = Str.replace a b (Str.lstrip s).
Proof.
  intros Ha Hb. induction s as [|c s IH]; [reflexivity|].
  cbn [Str.replace Str.lstrip].
  destruct (Ascii.eqb_spec c a) as [->|Hc].
  - rewrite Ha, Hb. cbn [Str.replace]. now rewrite Ascii.eqb_refl.
  - destruct (Str.isspace c); [exact IH|].
    cbn [Str.replace]. now destruct (Ascii.eqb_spec c a).
Qed.

Lemma rstrip_replace a b s :
  Str.isspace a = false -> Str.isspace b = false ->
  Str.rstrip (Str.replace a b s) = Str.replace a b (Str.rstrip s).
Proof.
  intros Ha Hb. induction s as [|c s IH]; [reflexivity|].
  cbn [Str.replace Str.rstrip]. rewrite IH.
  destruct (Str.rstrip s) as [|c' s'] eqn:Hs; cbn [Str.replace].
  - destruct (Ascii.eqb_spec c a) as [->|Hc].
    + rewrite Ha, Hb. cbn [Str.replace]. now rewrite Ascii.eqb_refl.
    + destruct (Str.isspace c); [reflexivity|].
      cbn [Str.replace]. now destruct (Ascii.eqb_spec c a).
  - reflexivity.
Qed.

Lemma strip_replace a b s :
  Str.isspace a = false -> Str.isspace b = false ->
  Str.strip (Str.replace a b s) = Str.replace a b (Str.strip s).
Proof.
  intros Ha Hb. unfold Str.strip.
  now rewrite lstrip_replace, rstrip_replace.
Qed.

Lemma replace_replace a b s :
  Str.replace a b (Str.replace b a s) = Str.replace a b s.
Proof.
  induction s as [|c s IH]; [reflexivity|].
  cbn [Str.replace]. rewrite IH. f_equal.
  destruct (Ascii.eqb_spec c b) as [->|Hb].
  - rewrite Ascii.eqb_refl. now destruct (Ascii.eqb_spec b a).
  - reflexivity.
Qed.

Lemma replace_idem a b s :
  Str.replace a b (Str.replace a b s) = Str.replace a b s.
Proof.
  induction s as [|c s IH]; [reflexivity|].
  cbn [Str.replace]. rewrite IH. f_equal.
  destruct (Ascii.eqb_spec c a) as [->|Hc].
  - now destruct (Ascii.eqb_spec b a).
  - now destruct (Ascii.eqb_spec c a).
Qed.

(** A comma where the text has a point changes nothing for
    [_safe_float]. *)
Lemma safe_float_comma text :
  _safe_float (Str.replace "." "," text) = _safe_float text.
Proof.
  unfold _safe_float. rewrite strip_replace by reflexivity.
  destruct (Str.strip text) as [|c s]; [reflexivity|].
  rewrite replace_replace. reflexivity.
Qed.

(** *** The number that is read back *)

Lemma digits2_size p : digits2_pos p = Pos.size p.
Proof. induction p; cbn; congruence. Qed.

(** The mantissa of a well-formed number has at most 53 bits, and
    exactly 53 above the smallest exponent. *)
Lemma bounded_digits m e :
  bounded prec emax m e = true ->
  Zpos m < 2 ^ 53 /\ emin prec emax <= e /\
  (emin prec emax < e -> 2 ^ 52 <= Zpos m).
Proof.
  unfold bounded, canonical_mantissa, fexp.
  intros [Hc _]%andb_prop. apply Z.eqb_eq in Hc.
  rewrite digits2_size in Hc.
  pose proof (Pos.size_gt m) as Hgt. pose proof (Pos.size_le m) as Hle.
  assert (Zpos m < 2 ^ Zpos (Pos.size m)) as Hgt'
    by (apply Pos2Z.pos_lt_pos in Hgt; now rewrite Pos2Z.inj_pow in Hgt).
  assert (2 ^ Zpos (Pos.size m) <= 2 * Zpos m) as Hle'
    by (apply Pos2Z.pos_le_pos in Hle; now rewrite Pos2Z.inj_pow in Hle).
  unfold prec in *. split; [|split].
  - assert (Zpos (Pos.size m) <= 53) as Hs by lia.
    pose proof (Z.pow_le_mono_r 2 _ 53 ltac:(lia) Hs). lia.
  - lia.
  - intros He. assert (Zpos (Pos.size m) = 53) as Hs by lia.
    rewrite Hs in Hle'. change (2 ^ 53) with (2 * 2 ^ 52) in Hle'. lia.
Qed.

Lemma shr_1_fields m r s :
  0 <= m ->
  shr_1 (Build_shr_record m r s) =
    Build_shr_record (m / 2) (Z.odd m) (r || s).
Proof.
  intros Hm. destruct m as [|[p|p|]|p]; try lia; cbn [shr_1 Z.odd]; f_equal.
  - apply (Z.div_unique _ 2 _ 1); lia.
  - apply (Z.div_unique _ 2 _ 0); lia.
Qed.

Lemma record_of_loc q r d :
  0 <= r < d ->
  shr_record_of_loc q (loc_of r d) =
    Build_shr_record q (d <=? 2 * r) (negb (r =? 0) && negb (2 * r =? d)).
Proof.
  intros Hr. unfold loc_of.
  destruct (Z.eqb_spec r 0) as [->|Hr0]; cbn [shr_record_of_loc negb andb].
  - destruct (Z.leb_spec d (2 * 0)); [lia | reflexivity].
  - destruct (Z.compare_spec (2 * r) d), (Z.leb_spec d (2 * r)),
      (Z.eqb_spec (2 * r) d); try lia; reflexivity.
Qed.

Lemma shr_1_represents mrs n d :
  represents mrs n d -> represents (shr_1 mrs) n (2 * d).
Proof.
  intros (Hn & Hd & ->). split; [exact Hn|]. split; [lia|].
  pose proof (Z.div_pos n d Hn Hd) as Hq.
  pose proof (Z.mod_pos_bound n d Hd) as Hr.
  assert (n / (2 * d) = n / d / 2) as ->
    by (rewrite (Z.mul_comm 2 d); symmetry; apply Z.div_div; lia).
  assert (n mod (2 * d) = n mod d + d * ((n / d) mod 2)) as Hmod
    by (rewrite (Z.mul_comm 2 d); apply Z.rem_mul_r; lia).
  rewrite Zmod_odd in Hmod.
  pose proof (Z.mod_pos_bound n (2 * d) ltac:(lia)) as Hr2.
  rewrite !record_of_loc by assumption.
  rewrite shr_1_fields by exact Hq. rewrite Hmod. clear Hmod Hr2.
  generalize dependent (n / d). generalize dependent (n mod d).
  intros r Hr q Hq.
  destruct (Z.odd q); rewrite ?Z.mul_1_r, ?Z.mul_0_r, ?Z.add_0_r.
  - destruct (Z.leb_spec (2 * d) (2 * (r + d))), (Z.leb_spec d (2 * r)),
      (Z.eqb_spec (r + d) 0), (Z.eqb_spec r 0), (Z.eqb_spec (2 * r) d),
      (Z.eqb_spec (2 * (r + d)) (2 * d)); try lia; reflexivity.
  - destruct (Z.leb_spec (2 * d) (2 * r)), (Z.leb_spec d (2 * r)),
      (Z.eqb_spec r 0), (Z.eqb_spec (2 * r) d),
      (Z.eqb_spec (2 * r) (2 * d)); try lia; reflexivity.
Qed.

Lemma iter_shr_1_represents k mrs n d :
  represents mrs n d -> represents (SpecFloat.iter_pos shr_1 k mrs) n (d * 2 ^ Zpos k).
Proof.
  revert mrs d.
  induction k as [k IH|k IH|]; intros mrs d H; cbn [SpecFloat.iter_pos].
  - apply shr_1_represents, IH, IH in H.
    replace (d * 2 ^ Z.pos k~1) with (2 * d * 2 ^ Zpos k * 2 ^ Zpos k);
      [exact H|].
    replace (Z.pos k~1) with (Zpos k + Zpos k + 1) by lia.
    rewrite !Z.pow_add_r by lia. ring.
  - apply IH, IH in H.
    replace (d * 2 ^ Z.pos k~0) with (d * 2 ^ Zpos k * 2 ^ Zpos k);
      [exact H|].
    replace (Z.pos k~0) with (Zpos k + Zpos k) by lia.
    rewrite !Z.pow_add_r by lia. ring.
  - apply shr_1_represents in H.
    now replace (d * 2 ^ 1) with (2 * d) by lia.
Qed.

Lemma round_represents mrs n d :
  represents mrs n d ->
  round_nearest_even (shr_m mrs) (loc_of_shr_record mrs) = round_half_even n d.
Proof.
  intros (Hn & Hd & ->).
  pose proof (Z.mod_pos_bound n d Hd) as Hr.
  unfold loc_of, round_half_even.
  destruct (Z.eqb_spec (n mod d) 0) as [H0|H0].
  - rewrite H0. cbn [shr_record_of_loc shr_m loc_of_shr_record round_nearest_even].
    destruct (Z.compare_spec (2 * 0) d); lia.
  - destruct (2 * (n mod d) ?= d); reflexivity.
Qed.

Lemma new_location_loc_of d r :
  0 < d -> 0 <= r < d -> new_location d r = loc_of r d.
Proof.
  intros Hd Hr. unfold new_location, new_location_even, new_location_odd, loc_of.
  destruct (Z.even d) eqn:Heven; [reflexivity|].
  destruct (Z.eqb_spec r 0); [reflexivity|]. f_equal.
  assert (Z.odd d = true) as Hodd by (now rewrite <- Z.negb_even, Heven).
  apply Z.odd_spec in Hodd as [c Hc].
  destruct (Z.compare_spec (2 * r + 1) d), (Z.compare_spec (2 * r) d);
    try lia; reflexivity.
Qed.

Lemma digits_bounds p :
  2 ^ (Zpos (digits2_pos p) - 1) <= Zpos p < 2 ^ Zpos (digits2_pos p).
Proof.
  rewrite digits2_size.
  pose proof (Pos.size_gt p) as Hgt. pose proof (Pos.size_le p) as Hle.
  apply Pos2Z.pos_lt_pos in Hgt. rewrite Pos2Z.inj_pow in Hgt.
  apply Pos2Z.pos_le_pos in Hle. rewrite Pos2Z.inj_pow in Hle.
  split; [|exact Hgt].
  replace (Zpos (Pos.size p)) with (Z.succ (Zpos (Pos.size p) - 1)) in Hle
    by lia.
  rewrite Z.pow_succ_r in Hle by lia. lia.
Qed.

Lemma digits_unique p j :
  2 ^ (j - 1) <= Zpos p < 2 ^ j -> Zpos (digits2_pos p) = j.
Proof.
  intros [Hlo Hhi]. pose proof (digits_bounds p) as [Hlo' Hhi'].
  assert (0 <= j).
  { destruct (Z.le_gt_cases 0 j); [assumption|].
    rewrite Z.pow_neg_r in Hhi by lia. lia. }
  assert (j - 1 < Zpos (digits2_pos p))
    by (apply (Z.pow_lt_mono_r_iff 2); lia).
  assert (Zpos (digits2_pos p) - 1 < j)
    by (apply (Z.pow_lt_mono_r_iff 2); lia).
  lia.
Qed.

Lemma round_half_even_bounds n d lo hi :
  0 < d -> lo * d <= n <= hi * d -> lo <= round_half_even n d <= hi.
Proof.
  intros Hd Hn. unfold round_half_even.
  pose proof (Z.div_mod n d ltac:(lia)) as Hdiv.
  pose proof (Z.mod_pos_bound n d Hd) as Hmod.
  destruct (Z.compare_spec (2 * (n mod d)) d) as [Heq | Hlt | Hgt];
    [destruct (Z.even (n / d))| |]; split; nia.
Qed.

Lemma round_half_even_unique n d c :
  0 < d -> 2 * Z.abs (n - d * c) < d -> round_half_even n d = c.
Proof.
  intros Hd Hc. unfold round_half_even.
  pose proof (Z.div_mod n d ltac:(lia)) as Hdiv.
  pose proof (Z.mod_pos_bound n d Hd) as Hmod.
  destruct (Z.compare_spec (2 * (n mod d)) d) as [Heq | Hlt | Hgt];
    [destruct (Z.even (n / d))| |]; nia.
Qed.

Lemma round_half_even_scale c n d :
  0 < c -> 0 < d ->
  round_half_even (c * n) (c * d) = round_half_even n d.
Proof.
  intros Hc Hd. unfold round_half_even.
  rewrite Z.div_mul_cancel_l, Z.mul_mod_distr_l by lia.
  replace (2 * (c * (n mod d))) with (c * (2 * (n mod d))) by ring.
  destruct (Z.compare_spec (c * (2 * (n mod d))) (c * d)),
    (Z.compare_spec (2 * (n mod d)) d); try nia; reflexivity.
Qed.

Lemma shr_represents mrs n d e k :
  0 <= k -> represents mrs n d ->
  exists mrs', shr mrs e k = (mrs', e + k) /\ represents mrs' n (d * 2 ^ k).
Proof.
  intros Hk H. destruct k as [|k|k]; [| |lia].
  - exists mrs. split; [cbn [shr]; f_equal; lia|].
    now rewrite Z.pow_0_r, Z.mul_1_r.
  - exists (SpecFloat.iter_pos shr_1 k mrs). split; [reflexivity|].
    now apply iter_shr_1_represents.
Qed.

Lemma represents_exact n d :
  0 <= n -> 0 < d ->
  represents (shr_record_of_loc (n / d) (loc_of (n mod d) d)) n d.
Proof. now repeat split. Qed.

(** Rounding the quotient [n / d], of 53 bits or more, at the exponent
    [e]: the mantissa is [n / (d * 2^k)] rounded, where [k] is the
    number of bits above 53. *)
Lemma binary_round_aux_quotient s n d e :
  0 < d -> 2 ^ 52 * d <= n -> -1074 <= e ->
  let k := Zdigits2 (n / d) - 53 in
  let M := round_half_even n (d * 2 ^ k) in
  0 <= k /\
  2 ^ (52 + k) <= n / d < 2 ^ (53 + k) /\
  exists m' e',
    binary_round_aux prec emax s (n / d) e (loc_of (n mod d) d) =
      (if e' <=? 971 then S754_finite s m' e' else S754_infinity s) /\
    (Zpos m' = M /\ e' = e + k \/
     M = 2 ^ 53 /\ Zpos m' = 2 ^ 52 /\ e' = e + k + 1).
Proof.
  intros Hd Hn He.
  assert (2 ^ 52 <= n / d) as Hq by (apply Z.div_le_lower_bound; lia).
  assert (0 <= n) as Hn0 by nia.
  destruct (n / d) as [|q|q] eqn:Eq; try lia.
  cbv zeta. cbn [Zdigits2].
  set (k := Zpos (digits2_pos q) - 53).
  set (M := round_half_even n (d * 2 ^ k)).
  assert (53 <= Zpos (digits2_pos q)) as Hk.
  { pose proof (digits_bounds q) as Hdig.
    assert (52 < Zpos (digits2_pos q))
      by (apply (Z.pow_lt_mono_r_iff 2); lia).
    lia. }
  assert (2 ^ (52 + k) <= Zpos q < 2 ^ (53 + k)) as Hdig.
  { replace (52 + k) with (Zpos (digits2_pos q) - 1) by (unfold k; lia).
    replace (53 + k) with (Zpos (digits2_pos q)) by (unfold k; lia).
    apply digits_bounds. }
  split; [unfold k; lia|]. split; [exact Hdig|].
  assert (0 < 2 ^ k) as Hpk by (apply Z.pow_pos_nonneg; unfold k; lia).
  unfold binary_round_aux, shr_fexp. cbn [Zdigits2].
  replace (fexp prec emax (Zpos (digits2_pos q) + e) - e) with k
    by (unfold fexp, emin, prec, emax, k; lia).
  destruct (shr_represents (shr_record_of_loc (Zpos q) (loc_of (n mod d) d))
              n d e k) as (mrs & -> & Hmrs);
    [unfold k; lia | rewrite <- Eq; now apply represents_exact |].
  rewrite (round_represents _ _ _ Hmrs). fold M.
  assert (2 ^ 52 <= M <= 2 ^ 53) as HM.
  { apply round_half_even_bounds; [lia|].
    pose proof (Z.div_mod n d ltac:(lia)) as Hdiv.
    pose proof (Z.mod_pos_bound n d Hd) as Hmod.
    rewrite Eq in Hdiv.
    rewrite !Z.pow_add_r in Hdig by (unfold k; lia).
    nia. }
  destruct M as [|Mp|Mp] eqn:EM; try lia.
  destruct (Z.eq_dec (Zpos Mp) (2 ^ 53)) as [Hcarry|Hcarry].
  - exists (2 ^ 52)%positive, (e + k + 1). split; [|right; now repeat split].
    assert (Mp = (2 ^ 53)%positive) as -> by lia.
    change (Zdigits2 (Zpos (2 ^ 53))) with 54.
    replace (fexp prec emax (54 + (e + k)) - (e + k)) with 1
      by (unfold fexp, emin, prec, emax, k; lia).
    reflexivity.
  - exists Mp, (e + k). split; [|left; now split].
    assert (Zpos (digits2_pos Mp) = 53) as HdM
      by (apply digits_unique; change (2 ^ (53 - 1)) with (2 ^ 52); lia).
    cbn [Zdigits2]. rewrite HdM.
    replace (fexp prec emax (53 + (e + k)) - (e + k)) with 0
      by (unfold fexp, emin, prec, emax, k; lia).
    reflexivity.
Qed.

Lemma units8_unitsZ m e : units8 m e = Z.to_N (unitsZ (Zpos m) e).
Proof. reflexivity. Qed.

Lemma round_half_even_one n : round_half_even n 1 = n.
Proof. apply round_half_even_unique; lia. Qed.

Lemma unitsZ_neg M g :
  g <= 0 -> unitsZ M g = round_half_even (M * 10 ^ 8) (2 ^ (- g)).
Proof.
  intros Hg. destruct g as [|g|g]; [|lia|reflexivity].
  cbn [unitsZ Z.opp]. rewrite Z.pow_0_r, round_half_even_one. lia.
Qed.

Lemma unitsZ_double M g : unitsZ (2 * M) g = unitsZ M (g + 1).
Proof.
  destruct (Z.le_gt_cases 0 g) as [Hg|Hg].
  - assert (unitsZ (2 * M) g = 2 * M * 2 ^ g * 10 ^ 8) as ->
      by (destruct g; [reflexivity|reflexivity|lia]).
    assert (unitsZ M (g + 1) = M * 2 ^ (g + 1) * 10 ^ 8) as ->
      by (destruct (g + 1) eqn:E; [reflexivity|reflexivity|lia]).
    rewrite Z.pow_add_r by lia. ring.
  - rewrite !unitsZ_neg by lia.
    replace (- g) with (1 + - (g + 1)) by lia.
    rewrite Z.pow_add_r by lia.
    replace (2 * M * 10 ^ 8) with (2 ^ 1 * (M * 10 ^ 8)) by ring.
    apply round_half_even_scale; [lia|]. apply Z.pow_pos_nonneg; lia.
Qed.

Lemma unitsZ_shift M j g : 0 <= j -> unitsZ (M * 2 ^ j) g = unitsZ M (g + j).
Proof.
  intros Hj. revert g. pattern j. apply natlike_ind; [| |exact Hj].
  - intros g. now rewrite Z.pow_0_r, Z.mul_1_r, Z.add_0_r.
  - intros i Hi IH g. rewrite Z.pow_succ_r by exact Hi.
    replace (M * (2 * 2 ^ i)) with (2 * (M * 2 ^ i)) by ring.
    rewrite unitsZ_double, IH. f_equal. lia.
Qed.

Lemma div_eucl_div_mod a b : Z.div_eucl a b = (a / b, a mod b).
Proof. unfold Z.div, Z.modulo. now destruct (Z.div_eucl a b). Qed.

(** The quotient that [SFdiv] rounds for [p / 10^8]. *)
Lemma div_core p :
  let s := Z.max (80 - Zpos (digits2_pos p)) 0 in
  let n := Zpos p * 2 ^ s in
  SFdiv_core_binary prec emax (Zpos p) 0 (Zpos (10 ^ 8)) 0 =
    (n / 10 ^ 8, - s, loc_of (n mod 10 ^ 8) (10 ^ 8)).
Proof.
  intros s n. unfold SFdiv_core_binary.
  change (Zdigits2 (Zpos (10 ^ 8))) with 27. cbn [Zdigits2].
  assert (Z.min (fexp prec emax (Zpos (digits2_pos p) + 0 - (27 + 0))) (0 - 0)
          = - s) as ->
    by (unfold fexp, emin, prec, emax, s; lia).
  replace (0 - 0 - - s) with s by lia.
  assert (match s with
          | 0 => Zpos p
          | Zpos _ => Z.shiftl (Zpos p) s
          | Zneg _ => 0
          end = n) as ->.
  { unfold n. destruct s as [|s'|s'] eqn:Es; [lia| |lia].
    apply Z.shiftl_mul_pow2. lia. }
  change (Zpos (10 ^ 8)) with (10 ^ 8).
  rewrite div_eucl_div_mod. reflexivity.
Qed.

Lemma to_N_pos z p : Z.to_N z = Npos p -> z = Zpos p.
Proof. destruct z; cbn; congruence. Qed.

Lemma pow2_pos a : 0 <= a -> 0 < 2 ^ a.
Proof. intros. apply Z.pow_pos_nonneg; lia. Qed.

Lemma pow2_le a b : 0 <= a <= b -> 2 ^ a <= 2 ^ b.
Proof. intros. apply Z.pow_le_mono_r; lia. Qed.

Lemma pow2_lt_inv a b : 0 <= b -> 2 ^ a < 2 ^ b -> a < b.
Proof. intros Hb H. apply (Z.pow_lt_mono_r_iff 2); lia. Qed.

(** The quotient that is rounded has 53 bits or more. *)
Lemma div_core_large p :
  2 ^ 79 <= Zpos p * 2 ^ Z.max (80 - Zpos (digits2_pos p)) 0.
Proof.
  pose proof (digits_bounds p) as [Hlo _].
  assert (1 <= Zpos (digits2_pos p)) as Hd by lia.
  destruct (Z.le_gt_cases (Zpos (digits2_pos p)) 80) as [Hle|Hgt].
  - rewrite Z.max_l by lia.
    replace 79 with (Zpos (digits2_pos p) - 1 + (80 - Zpos (digits2_pos p)))
      by lia.
    rewrite Z.pow_add_r by lia.
    apply Z.mul_le_mono_nonneg_r; [|exact Hlo].
    apply Z.lt_le_incl, pow2_pos. lia.
  - rewrite Z.max_r, Z.pow_0_r, Z.mul_1_r by lia.
    pose proof (pow2_le 79 (Zpos (digits2_pos p) - 1)). lia.
Qed.

(** Below [2^26] the binary64 numbers are less than [10^-8] apart: the
    number nearest to [p] units is within half a unit of them. *)
Lemma units_of_rounded_small p sh k M :
  0 <= k -> k - sh <= -27 ->
  2 * Z.abs (Zpos p * 2 ^ sh - 10 ^ 8 * 2 ^ k * M) <= 10 ^ 8 * 2 ^ k ->
  unitsZ M (k - sh) = Zpos p.
Proof.
  intros Hk Hg Hround.
  rewrite unitsZ_neg by lia.
  apply round_half_even_unique; [apply pow2_pos; lia|].
  replace sh with (k + - (k - sh)) in Hround by lia.
  rewrite Z.pow_add_r in Hround by lia.
  assert (2 ^ 27 <= 2 ^ (- (k - sh))) as HG by (apply pow2_le; lia).
  assert (0 < 2 ^ k) as HK by (apply pow2_pos; lia).
  generalize dependent (2 ^ (- (k - sh))). generalize dependent (2 ^ k).
  intros K Hk' G Hround HG.
  replace (Zpos p * (K * G) - 10 ^ 8 * K * M)
    with (K * (Zpos p * G - 10 ^ 8 * M)) in Hround by ring.
  rewrite Z.abs_mul, (Z.abs_eq K) in Hround by lia.
  assert (K * (2 * Z.abs (Zpos p * G - 10 ^ 8 * M)) <= K * 10 ^ 8) as H
    by lia.
  apply Z.mul_le_mono_pos_l in H; [|exact Hk']. lia.
Qed.

(** From [2^26] on the binary64 numbers are more than [10^-8] apart: the
    number nearest to the units of [m * 2^e] is [m * 2^e] itself. *)
Lemma rounded_large m e p sh k :
  Zpos m < 2 ^ 53 ->
  nearest_units m e (Npos p) ->
  0 <= k -> 0 <= sh -> -26 <= k - sh ->
  2 ^ (52 + k) * 10 ^ 8 <= Zpos p * 2 ^ sh ->
  k - sh <= e /\
  round_half_even (Zpos p * 2 ^ sh) (10 ^ 8 * 2 ^ k) =
    Zpos m * 2 ^ (e - (k - sh)).
Proof.
  intros Hm Hnear Hk Hsh Hg Hq.
  assert (0 < 2 ^ sh) as Hpsh by (apply pow2_pos; lia).
  assert (0 < 2 ^ k) as Hpk by (apply pow2_pos; lia).
  unfold nearest_units in Hnear. cbn [Z.of_N] in Hnear.
  assert (2 ^ 26 * 10 ^ 8 <= Zpos p) as Hp.
  { assert (2 ^ (26 + sh) <= 2 ^ (52 + k)) as H by (apply pow2_le; lia).
    rewrite Z.pow_add_r in H by lia.
    apply (Z.mul_le_mono_pos_r _ _ (2 ^ sh)); [exact Hpsh|]. lia. }
  assert (-26 <= e) as He.
  { destruct (Z.le_gt_cases (-26) e) as [|Hlt]; [assumption|exfalso].
    destruct e as [|j|j]; try lia.
    assert (2 ^ 27 <= 2 ^ Zpos j) as HJ by (apply pow2_le; lia).
    generalize dependent (2 ^ Zpos j). intros J Hnear HJ.
    assert (J * (2 ^ 26 * 10 ^ 8) <= J * Zpos p)
      by (apply Z.mul_le_mono_nonneg_l; lia).
    lia. }
  assert (k - sh <= e) as Hge.
  { destruct (Z.le_gt_cases (k - sh) e) as [|Hgt]; [assumption|exfalso].
    assert (2 ^ (53 + e + sh) <= 2 ^ (52 + k)) as H by (apply pow2_le; lia).
    rewrite Z.pow_add_r in H by lia.
    assert (2 ^ (53 + e) * 10 ^ 8 <= Zpos p) as Hp'
      by (apply (Z.mul_le_mono_pos_r _ _ (2 ^ sh)); [exact Hpsh|lia]).
    destruct e as [|j|j].
    + lia.
    + rewrite Z.pow_add_r in Hp' by lia.
      assert (0 < 2 ^ Zpos j) as HJ by (apply pow2_pos; lia).
      assert (Zpos m * 2 ^ Zpos j < 2 ^ 53 * 2 ^ Zpos j)
        by (apply Z.mul_lt_mono_pos_r; assumption).
      lia.
    + assert (2 ^ (53 + Zneg j) * 2 ^ Zpos j = 2 ^ 53) as H53
        by (rewrite <- Z.pow_add_r by lia; f_equal; lia).
      assert (2 ^ Zpos j <= 2 ^ 26) as HJ by (apply pow2_le; lia).
      assert (0 < 2 ^ Zpos j) as HJ0 by (apply pow2_pos; lia).
      assert (2 ^ Zpos j * (2 ^ (53 + Zneg j) * 10 ^ 8) <= 2 ^ Zpos j * Zpos p)
        by (apply Z.mul_le_mono_nonneg_l; lia).
      lia. }
  split; [exact Hge|].
  apply round_half_even_unique; [lia|].
  remember (e - (k - sh)) as a eqn:Ea.
  assert (0 < 2 ^ a) as Hpa by (apply pow2_pos; lia).
  destruct e as [|j|j].
  - replace sh with (k + a) by lia. rewrite Z.pow_add_r by lia.
    rewrite Hnear.
    match goal with
    | |- 2 * Z.abs ?t < _ => replace t with 0 by ring
    end.
    lia.
  - rewrite Hnear.
    replace (Zpos m * 2 ^ Zpos j * 10 ^ 8 * 2 ^ sh)
      with (Zpos m * 10 ^ 8 * 2 ^ (Zpos j + sh))
      by (rewrite Z.pow_add_r by lia; ring).
    replace (Zpos j + sh) with (k + a) by lia. rewrite Z.pow_add_r by lia.
    match goal with
    | |- 2 * Z.abs ?t < _ => replace t with 0 by ring
    end.
    lia.
  - replace sh with (k + a + Zpos j) by lia. rewrite !Z.pow_add_r by lia.
    assert (2 ^ a * 2 ^ Zpos j <= 2 ^ 26) as HAJ
      by (rewrite <- Z.pow_add_r by lia; apply pow2_le; lia).
    assert (0 < 2 ^ Zpos j) as HJ0 by (apply pow2_pos; lia).
    clear Hq Hp Hpsh.
    generalize dependent (2 ^ Zpos j). generalize dependent (2 ^ a).
    generalize dependent (2 ^ k). intros K HK A HA J Hnear HAJ HJ.
    replace (Zpos p * (K * A * J) - 10 ^ 8 * K * (Zpos m * A))
      with (K * A * (Zpos p * J - 10 ^ 8 * Zpos m)) by ring.
    assert (0 < K * A) as HKA by (apply Z.mul_pos_pos; assumption).
    rewrite Z.abs_mul, (Z.abs_eq (K * A)) by lia.
    remember (Z.abs (Zpos p * J - 10 ^ 8 * Zpos m)) as t eqn:Et.
    assert (2 * t <= J) as Ht by lia.
    assert (K * A * (2 * t) <= K * A * J)
      by (apply Z.mul_le_mono_nonneg_l; lia).
    assert (K * (A * J) <= K * 2 ^ 26)
      by (apply Z.mul_le_mono_nonneg_l; lia).
    lia.
Qed.

(** The number read from the units that [.8f] prints for a binary64
    number prints the same units. *)
Lemma reread_units s m e p :
  Zpos m < 2 ^ 53 -> e <= 971 ->
  units8 m e = Npos p ->
  exists m' e',
    of_decimal s (Npos p) (-8) = S754_finite s m' e' /\
    units8 m' e' = Npos p.
Proof.
  intros Hm He Hu.
  pose proof (units8_nearest m e) as Hnear. rewrite Hu in Hnear.
  rewrite units8_unitsZ in Hu. apply to_N_pos in Hu.
  change (of_decimal s (Npos p) (-8))
    with (SFdiv prec emax (S754_finite s p 0)
            (S754_finite false (10 ^ 8)%positive 0)).
  unfold SFdiv.
  pose proof (div_core p) as Hcore. cbv zeta in Hcore. rewrite Hcore.
  clear Hcore. cbv beta iota. rewrite xorb_false_r.
  pose proof (div_core_large p) as Hlarge.
  assert (0 <= Z.max (80 - Zpos (digits2_pos p)) 0 <= 80) as Hsh by lia.
  generalize dependent (Z.max (80 - Zpos (digits2_pos p)) 0). intros sh Hlarge Hsh.
  set (n := Zpos p * 2 ^ sh) in *.
  destruct (binary_round_aux_quotient s n (10 ^ 8) (- sh))
    as (Hk & Hq & m' & e' & Hres & Hcase); [lia | lia | lia |].
  rewrite Hres. clear Hres.
  set (k := Zdigits2 (n / 10 ^ 8) - 53) in *.
  set (M := round_half_even n (10 ^ 8 * 2 ^ k)) in *.
  assert (0 < 2 ^ k) as Hpk by (apply pow2_pos; lia).
  pose proof (Z.div_mod n (10 ^ 8) ltac:(lia)) as Hdiv.
  pose proof (Z.mod_pos_bound n (10 ^ 8) ltac:(lia)) as Hmod.
  destruct (round_half_even_spec n (10 ^ 8 * 2 ^ k)) as [_ Hround];
    [lia | lia |]. fold M in Hround.
  assert (unitsZ M (k - sh) = Zpos p /\ k - sh <= 971 /\
          (M = 2 ^ 53 -> k - sh + 1 <= 971)) as (HU & Hg1 & Hg2).
  { destruct (Z.le_gt_cases (k - sh) (-27)) as [Hsmall|Hbig].
    - split; [|lia]. apply units_of_rounded_small; [lia | lia | exact Hround].
    - destruct (rounded_large m e p sh k) as [Hge HM];
        [exact Hm | exact Hnear | lia | lia | lia | fold n; lia |].
      fold n in HM. fold M in HM. split; [|split].
      + rewrite HM, unitsZ_shift by lia.
        replace (k - sh + (e - (k - sh))) with e by lia. exact Hu.
      + lia.
      + intros H53. rewrite HM in H53.
        destruct (Z.eq_dec (e - (k - sh)) 0) as [E0|E0]; [|lia].
        rewrite E0 in H53. lia. }
  destruct Hcase as [[Hm' He'] | (HM53 & Hm' & He')].
  - exists m', e'. rewrite (proj2 (Z.leb_le e' 971)) by lia.
    split; [reflexivity|].
    rewrite units8_unitsZ, Hm', He'.
    replace (- sh + k) with (k - sh) by lia. now rewrite HU.
  - exists m', e'. specialize (Hg2 HM53).
    rewrite (proj2 (Z.leb_le e' 971)) by lia.
    split; [reflexivity|].
    rewrite units8_unitsZ, Hm', He'.
    replace (- sh + k + 1) with (k - sh + 1) by lia.
    rewrite <- unitsZ_double. change (2 * 2 ^ 52) with (2 ^ 53).
    rewrite <- HM53. now rewrite HU.
Qed.

(** Reading back what [_format_decimal] wrote and writing it again gives
    the same text. *)
Lemma format_decimal_reread x :
  valid_binary prec emax x = true ->
  _format_decimal (reread x) = _format_decimal x.
Proof.
  intros Hvalid. destruct x as [s|s| |s m e]; try reflexivity.
  cbn [valid_binary] in Hvalid.
  destruct (bounded_digits _ _ Hvalid) as (Hm & _ & _).
  apply andb_prop in Hvalid as [_ He]. apply Z.leb_le in He.
  unfold emax, prec in He.
  unfold _format_decimal. f_equal. cbn [reread format_8f].
  destruct (units8 m e) as [|p] eqn:Hu; [reflexivity|].
  destruct (reread_units s m e p Hm ltac:(lia) Hu) as (m' & e' & -> & Hu').
  cbn [format_8f]. now rewrite Hu'.
Qed.

(** C8. The text [_format_decimal] writes for a number [x] is a sign, the
    integer part, a comma and eight digits: [x] rounded to eight decimal
    places (the number of units of 10^-8 nearest to [x]).  [_safe_float]
    reads that text back as the binary64 nearest to this decimal, and
    this number is [x] to eight decimal places: [_format_decimal] writes
    the same text for it.  [_safe_float] reads a text in the same way
    with commas as with points, and reads an empty or blank text as
    0. *)
Theorem decimal_round_trip x text :
  (is_finite x = true ->
   _format_decimal x =
     sign_text (negative x) +:+ int_text (units x / 10 ^ 8) +:+ ","
     +:+ frac_text 8 (units x mod 10 ^ 8) /\
   String.length (frac_text 8 (units x mod 10 ^ 8)) = 8%nat /\
   (forall s m e, x = S754_finite s m e -> nearest_units m e (units x)) /\
   _safe_float (_format_decimal x) =
     Ok (of_decimal (negative x) (units x) (-8)) /\
   _safe_float (format_8f x) =
     Ok (of_decimal (negative x) (units x) (-8))) /\
  (valid_binary prec emax x = true ->
   exists y, _safe_float (_format_decimal x) = Ok y /\
             _format_decimal y = _format_decimal x) /\
  _safe_float (Str.replace "." "," text) = _safe_float text /\
  _safe_float (Str.replace "," "." text) = _safe_float text /\
  (Str.strip text = EmptyString -> _safe_float text = Ok zero).
Proof.
  split; [|split; [|split; [|split]]].
  - intros Hfin.
    assert (format_8f x = sign_text (negative x) +:+ fixed8 (units x)) as Hfmt
      by now destruct x.
    unfold _format_decimal. rewrite Hfmt. repeat split.
    + apply format_decimal_fixed8.
    + unfold frac_text.
      generalize (Decimal.rev (low_digits 8 (units x `mod` 10 ^ 8))),
        (nb_digits_rev (low_digits 8 (units x `mod` 10 ^ 8))).
      rewrite nb_digits_low_digits. intros u <-.
      induction u; cbn; congruence.
    + intros s m e ->. apply units8_nearest.
    + apply safe_float_fixed8.
    + rewrite <- safe_float_comma. apply safe_float_fixed8.
  - intros Hvalid. exists (reread x).
    split; [apply safe_float_format_decimal | now apply format_decimal_reread].
  - apply safe_float_comma.
  - unfold _safe_float. rewrite strip_replace by reflexivity.
    destruct (Str.strip text) as [|c s]; [reflexivity|].
    now rewrite replace_idem.
  - intros Hblank. unfold _safe_float. now rewrite Hblank.
Qed.

Lemma decimal_round_trip_witness :
  _format_decimal (flt "-16.666666666666668") = "-16,66666667" /\
  _safe_float "-16,66666667" = Ok (flt "-16.66666667") /\
  (exists y, _safe_float "-16,66666667" = Ok y /\
             _format_decimal y = "-16,66666667") /\
  _safe_float "  " = Ok zero.
Proof.
  destruct (decimal_round_trip (flt "-16.666666666666668") "  ")
    as (Hnum & Hagain & _ & _ & Hblank).
  destruct (Hnum eq_refl) as (Htext & _ & _ & Hread & _).
  rewrite Htext in Hread.
  split; [exact Htext|]. split; [exact Hread|].
  split; [|now apply Hblank].
  destruct Hagain as (y & Hy & Hsame); [vm_compute; reflexivity|].
  rewrite Htext in Hy, Hsame. exists y. split; assumption.
Defined.

(** ** The break-even of a stored position *)

Lemma rewritten_fields (r : sheet_row) avg q pnl d be :
  (5 < length r)%nat ->
  let r' := rewritten r (avg, q, pnl) d be in
  r' !! 1%nat = Some (_format_decimal avg) /\
  r' !! 2%nat = Some (_format_decimal q) /\
  r' !! 3%nat = Some (Datetime.strftime d) /\
  r' !! 4%nat = Some (_format_decimal be) /\
  r' !! 5%nat = Some (_format_decimal pnl) /\
  r' !! 0%nat = r !! 0%nat.
Proof.
  intros Hlen. unfold rewritten. cbv zeta.
  repeat split;
    repeat (rewrite list_lookup_insert_ne by discriminate);
    try (rewrite list_lookup_insert_eq by (rewrite ?length_insert; lia));
    reflexivity.
Qed.

Lemma eq_zero_not_positive q :
  eq q zero = true -> gt q zero = false /\ ne q zero = false.
Proof.
  unfold gt, ne, eq. destruct (compare q zero) as [[]|]; try discriminate.
  now split.
Qed.

Lemma bound_to_rewritten st symbol i r r' m :
  bound_to st symbol i r ->
  bound_to (mk_state (<[i := r']> (sheet_rows st)) (portfolio_map st) m)
    symbol i r'.
Proof.
  intros [Hmap Hrow]. split; [exact Hmap|]. cbn [sheet_rows].
  apply list_lookup_insert_eq. now apply lookup_lt_Some in Hrow.
Qed.

(** C2, counterexample: after 0.40000001 units bought at 10 and 0.4 sold
    at 10.00000001, the row reads 10 for the average price, 0.00000001
    for the quantity and 0 for the realized profit, and a break-even of
    9.59999997, while [(10 * 0.00000001 - 0) / 0.00000001] is 10. *)
Lemma break_even_invariant_fails :
  ~ break_even_invariant_after_processing Datetime.min fresh_state
      buy_then_sell.
Proof.
  intros H.
  assert (process_trades Datetime.min fresh_state buy_then_sell =
            Ok ([Created; Updated], [], buy_then_sell_end)) as Hrun
    by (vm_compute; reflexivity).
  assert (holds buy_then_sell_row (flt "10") (flt "0.00000001") (flt "0"))
    as Hholds
    by (exists "10,00000000", "0,00000001", "0,00000000"; repeat split).
  specialize (H _ _ _ Hrun "XYZBTC" 1%nat buy_then_sell_row
                (conj eq_refl eq_refl) _ _ _
                "9,59999997" (flt "9.59999997") Hholds eq_refl eq_refl).
  vm_compute in H. discriminate H.
Qed.

(** The break-even the formula gives on the stored fields of the
    counterexample. *)
Example break_even_of_stored_fields :
  _format_decimal
    (break_even_formula (flt "10") (flt "0.00000001") (flt "0")) =
    "10,00000000".
Proof. reflexivity. Qed.

(** C2, amended. After a trade that is accepted, the stored average
    price, quantity and realized profit are the values [avg], [q] and
    [pnl] the trade computes, written with 8 decimals, and the stored
    break-even is written from those values before they are rounded: it
    is the text of [(avg * q - pnl) / q] when [q > 0] (when [q != 0] for
    a position that is created), and the text of 0 when [q == 0]. *)
Theorem break_even_of_accepted_trade cutoff_date st t tx_date :
  passes cutoff_date t tx_date ->
  (forall i r0 avg0 q0 pnl0,
     bound_to st (symbol t) i r0 ->
     holds r0 avg0 q0 pnl0 ->
     is_buyer t = true \/ gt (qty t) q0 = false ->
     exists st' r avg q pnl,
       process_trade cutoff_date st t = Ok (Updated, [], st') /\
       bound_to st' (symbol t) i r /\
       (avg, q, pnl) =
         (if is_buyer t then after_buy avg0 q0 pnl0 (price t) (qty t)
          else after_sell avg0 q0 pnl0 (price t) (qty t)) /\
       r !! 1%nat = Some (_format_decimal avg) /\
       r !! 2%nat = Some (_format_decimal q) /\
       r !! 5%nat = Some (_format_decimal pnl) /\
       (gt q zero = true ->
        r !! 4%nat = Some (_format_decimal (break_even_formula avg q pnl))) /\
       (eq q zero = true -> r !! 4%nat = Some (_format_decimal zero))) /\
  (portfolio_map st !! symbol t = None ->
   exists st' r,
     process_trade cutoff_date st t = Ok (Created, [], st') /\
     bound_to st' (symbol t) (length (sheet_rows st)) r /\
     let q := if is_buyer t then qty t else neg (qty t) in
     r !! 1%nat = Some (_format_decimal (price t)) /\
     r !! 2%nat = Some (_format_decimal q) /\
     r !! 5%nat = Some (_format_decimal zero) /\
     (ne q zero = true ->
      r !! 4%nat =
        Some (_format_decimal (break_even_formula (price t) q zero))) /\
     (eq q zero = true -> r !! 4%nat = Some (_format_decimal zero))).
Proof.
  intros Hpass. rewrite (process_trade_passes _ _ _ _ Hpass). split.
  - intros i r0 avg0 q0 pnl0 Hbound Hholds Hnot.
    rewrite (apply_trade_existing _ _ _ _ _ _ _ _ Hbound Hholds).
    assert (negb (is_buyer t) && gt (qty t) q0 = false) as ->.
    { destruct Hnot as [-> | ->]; [reflexivity | apply andb_false_r]. }
    destruct (if is_buyer t then after_buy avg0 q0 pnl0 (price t) (qty t)
              else after_sell avg0 q0 pnl0 (price t) (qty t))
      as [[avg q] pnl] eqn:Hv.
    cbv zeta beta iota.
    pose proof (rewritten_fields r0 avg q pnl tx_date
                  (if gt q zero then break_even_formula avg q pnl else zero)
                  (holds_length _ _ _ _ Hholds))
      as (H1 & H2 & _ & H4 & H5 & _).
    eexists _, _, avg, q, pnl. split; [reflexivity|].
    split; [now apply (bound_to_rewritten _ _ _ r0)|]. split; [reflexivity|].
    split; [exact H1|]. split; [exact H2|]. split; [exact H5|]. split.
    + intros Hq. now rewrite H4, Hq.
    + intros Hq. apply eq_zero_not_positive in Hq as [Hq _].
      now rewrite H4, Hq.
  - intros Hnew. rewrite (apply_trade_new _ _ _ Hnew).
    eexists _, _. split; [reflexivity|]. split.
    + split; [apply lookup_insert_eq|]. cbn [sheet_rows].
      rewrite lookup_app_r by lia. now rewrite Nat.sub_diag.
    + unfold opening_row. cbv zeta. repeat split.
      * intros Hq. cbn. now rewrite Hq.
      * intros Hq. apply eq_zero_not_positive in Hq as [_ Hq]. cbn.
        now rewrite Hq.
Qed.

Lemma break_even_of_accepted_trade_witness :
  exists st',
    process_trade Datetime.min one_unit_state
      (buy "20" "1" "2024-01-02 00:00:00") = Ok (Updated, [], st') /\
    sheet_rows st' =
      [header;
       ["XYZBTC"; "15,00000000"; "2,00000000"; "2024-01-02 00:00:00";
        "15,00000000"; "0,00000000"]].
Proof.
  destruct (break_even_of_accepted_trade Datetime.min one_unit_state
              (buy "20" "1" "2024-01-02 00:00:00")
              (Datetime.mk 2024 1 2 0 0 0) (conj eq_refl eq_refl))
    as [Hexisting _].
  destruct (Hexisting 1%nat one_unit_row (flt "10") (flt "1") (flt "0"))
    as (st' & r & avg & q & pnl & Hstep & _).
  - split; reflexivity.
  - exists "10,00000000", "1,00000000", "0,00000000". repeat split.
  - now left.
  - exists st'. split; [exact Hstep|].
    vm_compute in Hstep. now injection Hstep as <-.
Defined.

(** ** Buys only *)

(** C3, counterexample: after one unit bought at 1 and five buys of
    [10^-8] units at 1.6, the stored average price is 1.00000005; the
    weighted mean is 1.00000003 to 8 decimals, [2 * 10^-8] away. *)
Lemma average_is_not_weighted_mean :
  ~ average_is_weighted_mean Datetime.min fresh_state "XYZBTC" small_buys.
Proof.
  intros H.
  assert (process_trades Datetime.min fresh_state small_buys =
            Ok ([Created; Updated; Updated; Updated; Updated; Updated], [],
                small_buys_end)) as Hrun
    by (vm_compute; reflexivity).
  destruct (H eq_refl ltac:(discriminate)
              ltac:(repeat constructor; eexists; split; reflexivity)
              _ _ _ Hrun)
    as (i & r & f1 & avg & [Hmap Hrow] & H1 & Havg & Hle).
  vm_compute in Hmap. injection Hmap as <-.
  injection Hrow as <-. injection H1 as <-.
  vm_compute in Havg. injection Havg as <-.
  apply Qle_bool_iff in Hle. vm_compute in Hle. discriminate Hle.
Qed.

Lemma stores_holds r v :
  stores r v ->
  let '(avg, q, pnl) := v in holds r (reread avg) (reread q) (reread pnl).
Proof.
  destruct v as [[avg q] pnl]. intros (H1 & H2 & H5).
  exists (_format_decimal avg), (_format_decimal q), (_format_decimal pnl).
  now rewrite !safe_float_format_decimal.
Qed.

Lemma length_rewritten r v d be : length (rewritten r v d be) = length r.
Proof.
  destruct v as [[avg q] pnl]. unfold rewritten.
  now rewrite !length_insert.
Qed.

(** The loop over buys of a symbol the map holds. *)
Lemma process_buys_existing cutoff_date sym rest :
  forall st i r v,
    bound_to st sym i r ->
    stores r v ->
    Forall (buy_of sym cutoff_date) rest ->
    exists os ev st' r',
      process_trades cutoff_date st rest = Ok (os, ev, st') /\
      bound_to st' sym i r' /\
      stores r' (foldl buy_on_stored v rest).
Proof.
  induction rest as [|t rest IH]; intros st i r v Hbound Hstores Hbuys.
  - now exists [], [], st, r.
  - apply Forall_cons in Hbuys as [(Hsym & Hbuy & d & Hpass) Hbuys].
    destruct v as [[avg q] pnl].
    pose proof (stores_holds _ _ Hstores) as Hholds. cbv beta iota in Hholds.
    pose proof (holds_length _ _ _ _ Hholds) as Hlen.
    rewrite <- Hsym in Hbound.
    pose proof (apply_trade_existing st t d _ _ _ _ _ Hbound Hholds) as Hstep.
    rewrite Hbuy in Hstep. cbn [negb andb] in Hstep.
    change (after_buy (reread avg) (reread q) (reread pnl) (price t) (qty t))
      with (buy_on_stored (avg, q, pnl) t) in Hstep.
    destruct (buy_on_stored (avg, q, pnl) t) as [[avg' q'] pnl'] eqn:Hv.
    cbv zeta beta iota in Hstep.
    set (be := if gt q' zero then break_even_formula avg' q' pnl' else zero)
      in Hstep.
    pose proof (rewritten_fields r avg' q' pnl' d be Hlen)
      as (H1 & H2 & _ & _ & H5 & _).
    rewrite <- (process_trade_passes _ _ _ _ Hpass) in Hstep.
    match type of Hstep with _ = Ok (_, _, ?s) => set (st1 := s) in Hstep end.
    destruct (IH st1 i (rewritten r (avg', q', pnl') d be) (avg', q', pnl'))
      as (os & ev & st' & r' & Hrest & Hbound' & Hstores');
      [ rewrite <- Hsym; apply (bound_to_rewritten _ _ _ r); exact Hbound
      | now repeat split | exact Hbuys | ].
    exists (Updated :: os), ev, st', r'.
    cbn [process_trades foldl]. rewrite Hstep. cbn [bind]. rewrite Hrest.
    rewrite Hv. split; [reflexivity|]. now split.
Qed.

(** C3, amended. After buys only on a symbol without a position, all
    passing the filter, the stored average price is the text, with 8
    decimals, of the value the buy of section 4.2 yields when it is
    folded over the trades on the stored values: the first buy stores its
    price and its quantity; every later buy reads the stored average
    price [A] and quantity [Q] back from their 8 decimals and stores
    [(A * Q + price * qty) / (Q + qty)] (0 when [Q + qty] is not
    positive) and [Q + qty].  After a single buy the stored average is
    the price. *)
Theorem buy_only_average cutoff_date st sym t rest :
  portfolio_map st !! sym = None ->
  Forall (buy_of sym cutoff_date) (t :: rest) ->
  exists os ev st' r,
    process_trades cutoff_date st (t :: rest) = Ok (os, ev, st') /\
    bound_to st' sym (length (sheet_rows st)) r /\
    stores r (after_buys t rest) /\
    after_buys t [] = (price t, qty t, zero).
Proof.
  intros Hnew Hbuys.
  apply Forall_cons in Hbuys as [(Hsym & Hbuy & d & Hpass) Hbuys].
  rewrite <- Hsym in Hnew.
  pose proof (apply_trade_new st t d Hnew) as Hstep.
  rewrite <- (process_trade_passes _ _ _ _ Hpass) in Hstep.
  match type of Hstep with _ = Ok (_, _, ?s) => set (st1 := s) in Hstep end.
  destruct (process_buys_existing cutoff_date sym rest st1
              (length (sheet_rows st)) (opening_row t d)
              (price t, qty t, zero))
    as (os & ev & st' & r' & Hrest & Hbound' & Hstores');
    [ | | exact Hbuys | ].
  - rewrite <- Hsym. unfold st1.
    split; [apply lookup_insert_eq|]. cbn [sheet_rows].
    rewrite lookup_app_r by lia. now rewrite Nat.sub_diag.
  - unfold opening_row. rewrite Hbuy. now repeat split.
  - exists (Created :: os), ev, st', r'.
    cbn [process_trades]. rewrite Hstep. cbn [bind]. rewrite Hrest.
    split; [reflexivity|]. split; [exact Hbound'|].
    split; [exact Hstores' | reflexivity].
Qed.

Lemma buy_only_average_witness :
  exists os ev st' r,
    process_trades Datetime.min fresh_state small_buys = Ok (os, ev, st') /\
    bound_to st' "XYZBTC" 1%nat r /\
    r !! 1%nat = Some "1,00000005".
Proof.
  destruct (buy_only_average Datetime.min fresh_state "XYZBTC"
              (buy "1" "1" "2024-01-01 00:00:01") (tail small_buys) eq_refl)
    as (os & ev & st' & r & Hrun & Hbound & Hstores & _).
  - repeat constructor; eexists; split; reflexivity.
  - exists os, ev, st', r. split; [exact Hrun|]. split; [exact Hbound|].
    vm_compute in Hstores. apply Hstores.
Defined.

(** ** The sign of a quantity *)


Lemma signed_not_negative x : signed false x -> lt x zero = false.
Proof. destruct x as [s|s| |s m e]; cbn; intros; subst; reflexivity. Qed.

Lemma binary_round_aux_signed s m e l :
  signed s (binary_round_aux prec emax s m e l).
Proof.
  unfold binary_round_aux.
  destruct (shr_fexp prec emax m e l) as [mrs' e'].
  match goal with
  | |- context [shr_fexp ?p ?x ?a ?b ?c] =>
      destruct (shr_fexp p x a b c) as [mrs'' e'']
  end.
  destruct (shr_m mrs''); [reflexivity | | exact I].
  now destruct (e'' <=? emax - prec).
Qed.

Lemma binary_round_signed s m e : signed s (binary_round prec emax s m e).
Proof.
  unfold binary_round. destruct (shl_align m e _) as [mz ez].
  apply binary_round_aux_signed.
Qed.

(** The rounding of a number that is not negative is not negative. *)
Lemma binary_normalize_signed m e :
  0 <= m -> signed false (binary_normalize prec emax m e false).
Proof.
  destruct m as [|p|p]; intros Hm; [reflexivity | | lia].
  apply binary_round_signed.
Qed.

Lemma aligned_sign (s : bool) m e ez :
  if s then aligned s m e ez < 0 else 0 < aligned s m e ez.
Proof. unfold aligned. destruct s; cbn; lia. Qed.

(** [c - t] is not negative when [t > c] does not hold. *)
Lemma sub_not_negative c t : gt t c = false -> lt (sub c t) zero = false.
Proof.
  unfold gt, sub.
  destruct c as [sc|sc| |sc mc ec], t as [st|st| |st mt et]; try by_signs.
  unfold compare, SFsub. fold (aligned sc mc ec (Z.min ec et)).
  fold (aligned st mt et (Z.min ec et)). rewrite (Z.min_comm et ec).
  destruct (Z.compare_spec (aligned st mt et (Z.min ec et))
              (aligned sc mc ec (Z.min ec et))); try discriminate;
    intros _; apply signed_not_negative, binary_normalize_signed; lia.
Qed.

(** [c + t] is not negative when [c] is not negative and [t > 0]. *)
Lemma add_not_negative c t :
  lt c zero = false -> gt t zero = true -> lt (add c t) zero = false.
Proof.
  unfold gt, add.
  destruct c as [sc|sc| |sc mc ec], t as [st|st| |st mt et]; try by_signs.
  destruct sc, st; try discriminate. intros _ _.
  apply signed_not_negative. unfold SFadd. apply binary_normalize_signed.
  pose proof (aligned_sign false mc ec (Z.min ec et)).
  pose proof (aligned_sign false mt et (Z.min ec et)).
  unfold aligned in *. cbn [cond_Zopp] in *. lia.
Qed.

(** A positive quantity is above every quantity that is 0 or negative. *)
Lemma positive_above_not_positive c t :
  eq c zero = true \/ lt c zero = true -> gt t zero = true -> gt t c = true.
Proof.
  unfold eq, lt, gt.
  destruct c as [sc|sc| |sc mc ec], t as [st|st| |st mt et];
    repeat match goal with b : bool |- _ => destruct b end;
    cbn; intuition (reflexivity || discriminate).
Qed.

(** What is read back from the text of a number has its sign. *)
Lemma reread_signed s x : signed s x -> signed s (reread x).
Proof.
  destruct x as [s'|s'| |s' m e]; cbn [reread signed]; try easy.
  intros ->. unfold of_decimal.
  destruct (units8 m e) as [|p]; [reflexivity|].
  unfold SFdiv.
  match goal with
  | |- context [SFdiv_core_binary ?p ?x ?a ?b ?c ?d] =>
      destruct (SFdiv_core_binary p x a b c d) as [[mz ez] lz]
  end.
  rewrite xorb_false_r. apply binary_round_aux_signed.
Qed.

(** What is read back from the text of a number that is not negative is
    not negative. *)
Lemma reread_not_negative x : lt x zero = false -> lt (reread x) zero = false.
Proof.
  destruct x as [s|s| |s m e]; try (intros H; exact H).
  destruct s; [discriminate|]. intros _.
  now apply signed_not_negative, (reread_signed false (S754_finite false m e)).
Qed.

Lemma positive_not_negative x : gt x zero = true -> lt x zero = false.
Proof.
  unfold gt, lt. now destruct (compare x zero) as [[]|].
Qed.

(** After a trade of a positive quantity, the row of its symbol reads a
    quantity below zero only when the trade is a sell that created the
    row, or the row read a quantity below zero before. *)
Lemma negative_quantity_origin cutoff_date st t :
  gt (qty t) zero = true ->
  negative_only_from_opening_sell cutoff_date st t.
Proof.
  intros Hpos o ev st' i r avg q pnl Hstep [Hmap' Hrow'] Hholds Hneg.
  destruct (accepted o) eqn:Hacc.
  2: { rewrite (process_trade_not_accepted _ _ _ _ _ _ Hstep Hacc) in *.
       right. exists r, avg, q, pnl. now repeat split. }
  destruct (process_trade_effect _ _ _ _ _ _ Hstep Hacc)
    as (d & _ & Heffect & Hcreated).
  destruct Heffect
    as [i0 r0 avg0 q0 pnl0 avg' q' pnl' [Hmap Hrow] Hholds0 Hsell Hv | Hnew].
  - cbn [portfolio_map sheet_rows] in Hmap', Hrow'.
    rewrite Hmap in Hmap'. injection Hmap' as <-.
    rewrite list_lookup_insert_eq in Hrow' by now apply lookup_lt_Some in Hrow.
    injection Hrow' as <-.
    destruct (lt q0 zero) eqn:Hq0;
      [right; exists r0, avg0, q0, pnl0; now repeat split|].
    exfalso.
    set (be := if gt q' zero then break_even_formula avg' q' pnl' else zero)
      in Hholds.
    pose proof (rewritten_fields r0 avg' q' pnl' d be
                  (holds_length _ _ _ _ Hholds0))
      as (H1 & H2 & _ & _ & H5 & _).
    assert (stores (rewritten r0 (avg', q', pnl') d be) (avg', q', pnl'))
      as Hstores by now repeat split.
    apply stores_holds in Hstores.
    destruct (holds_functional _ _ _ _ _ _ _ Hstores Hholds) as (_ & -> & _).
    assert (lt q' zero = false) as Hq'.
    { destruct (is_buyer t); injection Hv as <- <- <-.
      - now apply add_not_negative.
      - now apply sub_not_negative, Hsell. }
    apply reread_not_negative in Hq'. rewrite Hq' in Hneg. discriminate Hneg.
  - left. split; [now apply Hcreated|].
    destruct (is_buyer t) eqn:Hbuy; [exfalso | reflexivity].
    cbn [portfolio_map sheet_rows] in Hmap', Hrow'.
    rewrite lookup_insert_eq in Hmap'. injection Hmap' as <-.
    rewrite lookup_app_r, Nat.sub_diag in Hrow' by lia.
    injection Hrow' as <-.
    assert (stores (opening_row t d) (price t, qty t, zero)) as Hstores
      by (unfold opening_row; rewrite Hbuy; now repeat split).
    apply stores_holds in Hstores.
    destruct (holds_functional _ _ _ _ _ _ _ Hstores Hholds) as (_ & -> & _).
    pose proof (reread_not_negative _ (positive_not_negative _ Hpos)) as Hq.
    rewrite Hq in Hneg. discriminate Hneg.
Qed.

(** C10, counterexample: on a holding of one unit, a buy whose quantity
    field is [-5] passes the filter and is applied; the row of the symbol
    reads the quantity -4 afterwards, and no sell opened the position. *)
Lemma negative_buy_goes_short :
  ~ negative_only_from_opening_sell Datetime.min one_unit_state negative_buy.
Proof.
  intros H.
  destruct (H Updated []
              (mk_state
                 [header;
                  ["XYZBTC"; "0,00000000"; "-4,00000000";
                   "2024-01-02 00:00:00"; "0,00000000"; "0,00000000"]]
                 {["XYZBTC" := 1%nat]} {["XYZBTC"]})
              1%nat
              ["XYZBTC"; "0,00000000"; "-4,00000000";
               "2024-01-02 00:00:00"; "0,00000000"; "0,00000000"]
              (flt "0") (flt "-4") (flt "0"))
    as [[Ho _] | (r0 & avg0 & q0 & pnl0 & [_ Hrow] & Hholds & Hq0)].
  - vm_compute. reflexivity.
  - split; reflexivity.
  - exists "0,00000000", "-4,00000000", "0,00000000". repeat split.
  - reflexivity.
  - discriminate Ho.
  - injection Hrow as <-.
    assert (holds one_unit_row (flt "10") (flt "1") (flt "0")) as Hone
      by (exists "10,00000000", "1,00000000", "0,00000000"; repeat split).
    destruct (holds_functional _ _ _ _ _ _ _ Hone Hholds) as (_ & -> & _).
    discriminate Hq0.
Qed.

(** [_read_trade_data] takes the trade from a line whose quantity field
    is [-5]. *)
Example negative_buy_is_read :
  read_line "XYZBTC,10,-5,2024-01-02 00:00:00,True" = (Some negative_buy, []).
Proof. reflexivity. Qed.

(** The same buy on a sheet without the symbol opens a position of -5
    units. *)
Example negative_buy_opens_short :
  exists st' r,
    process_trade Datetime.min fresh_state negative_buy = Ok (Created, [], st') /\
    bound_to st' "XYZBTC" 1 r /\
    holds r (flt "10") (flt "-5") (flt "0").
Proof.
  eexists _, _. split; [vm_compute; reflexivity|].
  split; [split; reflexivity|].
  exists "10,00000000", "-5,00000000", "0,00000000". repeat split.
Qed.

(** C10, amended. On an existing position, whose row reads the quantity
    [q]: a sell either is rejected and leaves the state as it is, or
    stores [q - qty], which is not negative; when [q] is zero or negative
    a sell of a positive quantity is rejected, so a short position is
    never enlarged by a sell; and a trade of a positive quantity, buy or
    sell, leaves a quantity that is not negative if [q] is not negative.
    For a symbol without a position, a buy of a positive quantity creates
    a position whose quantity is not negative.  So for a trade of a
    positive quantity, the row of its symbol reads a quantity below zero
    afterwards only when the trade is a sell that created the row, or
    the row read a quantity below zero before. *)
Theorem sells_never_go_short cutoff_date st t tx_date :
  passes cutoff_date t tx_date ->
  (forall i r avg q pnl,
     bound_to st (symbol t) i r ->
     holds r avg q pnl ->
     (exists o ev st' r' avg' q' pnl',
        process_trade cutoff_date st t = Ok (o, ev, st') /\
        bound_to st' (symbol t) i r' /\
        holds r' avg' q' pnl' /\
        (is_buyer t = false ->
         (o = Rejected /\ st' = st /\ r' = r) \/
         (o = Updated /\
          r' !! 2%nat = Some (_format_decimal (sub q (qty t))) /\
          lt (sub q (qty t)) zero = false /\
          lt q' zero = false)) /\
        (gt (qty t) zero = true -> lt q zero = false -> lt q' zero = false)) /\
     (is_buyer t = false ->
      eq q zero = true \/ lt q zero = true ->
      gt (qty t) zero = true ->
      process_trade cutoff_date st t =
        Ok (Rejected, [Warning_sell_exceeds (symbol t) (qty t) q], st))) /\
  (portfolio_map st !! symbol t = None ->
   is_buyer t = true ->
   gt (qty t) zero = true ->
   exists st' r avg q pnl,
     process_trade cutoff_date st t = Ok (Created, [], st') /\
     bound_to st' (symbol t) (length (sheet_rows st)) r /\
     holds r avg q pnl /\
     lt q zero = false) /\
  (gt (qty t) zero = true ->
   negative_only_from_opening_sell cutoff_date st t).
Proof.
  intros Hpass. split; [|split; [|apply negative_quantity_origin]];
    rewrite (process_trade_passes _ _ _ _ Hpass).
  - intros i r avg q pnl Hbound Hholds.
    rewrite (apply_trade_existing _ _ _ _ _ _ _ _ Hbound Hholds). split.
    + destruct (negb (is_buyer t) && gt (qty t) q) eqn:Hrej.
      * exists Rejected, [Warning_sell_exceeds (symbol t) (qty t) q], st, r,
          avg, q, pnl.
        split; [reflexivity|]. split; [exact Hbound|].
        split; [exact Hholds|]. split; [now left | auto].
      * destruct (if is_buyer t then after_buy avg q pnl (price t) (qty t)
                  else after_sell avg q pnl (price t) (qty t))
          as [[avg' q'] pnl'] eqn:Hv.
        cbv zeta beta iota.
        set (be := if gt q' zero then break_even_formula avg' q' pnl' else zero).
        pose proof (rewritten_fields r avg' q' pnl' tx_date be
                      (holds_length _ _ _ _ Hholds))
          as (H1 & H2 & _ & _ & H5 & _).
        assert (stores (rewritten r (avg', q', pnl') tx_date be)
                  (avg', q', pnl')) as Hstores by now repeat split.
        apply stores_holds in Hstores.
        eexists Updated, [], _, _, (reread avg'), (reread q'), (reread pnl').
        split; [reflexivity|].
        split; [now apply (bound_to_rewritten _ _ _ r)|].
        split; [exact Hstores|]. split.
        -- intros Hsell. right. rewrite Hsell in Hv, Hrej.
           cbn [negb andb] in Hrej. injection Hv as <- <- <-.
           pose proof (sub_not_negative _ _ Hrej) as Hsub.
           repeat split; [exact H2 | exact Hsub |].
           now apply reread_not_negative.
        -- intros Hpos Hq. apply reread_not_negative.
           destruct (is_buyer t); cbn [negb andb] in Hrej;
             injection Hv as <- <- <-.
           ++ now apply add_not_negative.
           ++ now apply sub_not_negative.
    + intros Hsell Hq Hpos.
      now rewrite Hsell, (positive_above_not_positive _ _ Hq Hpos).
  - intros Hnew Hbuy Hpos. rewrite (apply_trade_new _ _ _ Hnew).
    assert (stores (opening_row t tx_date) (price t, qty t, zero)) as Hstores
      by (unfold opening_row; rewrite Hbuy; now repeat split).
    apply stores_holds in Hstores.
    eexists _, _, (reread (price t)), (reread (qty t)), (reread zero).
    split; [reflexivity|]. split.
    + split; [apply lookup_insert_eq|]. cbn [sheet_rows].
      rewrite lookup_app_r by lia. now rewrite Nat.sub_diag.
    + split; [exact Hstores|].
      now apply reread_not_negative, positive_not_negative.
Qed.

Lemma sells_never_go_short_witness :
  process_trade Datetime.min
    (mk_state [header;
               ["XYZBTC"; "10,00000000"; "-5,00000000";
                "2024-01-01 00:00:00"; "10,00000000"; "0,00000000"]]
       {["XYZBTC" := 1%nat]} ∅)
    sell_five =
  Ok (Rejected, [Warning_sell_exceeds "XYZBTC" (flt "5") (flt "-5")],
      mk_state [header;
                ["XYZBTC"; "10,00000000"; "-5,00000000";
                 "2024-01-01 00:00:00"; "10,00000000"; "0,00000000"]]
        {["XYZBTC" := 1%nat]} ∅).
Proof.
  destruct (sells_never_go_short Datetime.min
              (mk_state [header;
                         ["XYZBTC"; "10,00000000"; "-5,00000000";
                          "2024-01-01 00:00:00"; "10,00000000"; "0,00000000"]]
                 {["XYZBTC" := 1%nat]} ∅)
              sell_five (Datetime.mk 2024 1 2 0 0 0) (conj eq_refl eq_refl))
    as [Hexisting _].
  destruct (Hexisting 1%nat
              ["XYZBTC"; "10,00000000"; "-5,00000000";
               "2024-01-01 00:00:00"; "10,00000000"; "0,00000000"]
              (flt "10") (flt "-5") (flt "0"))
    as [_ Hrejected].
  - split; reflexivity.
  - exists "10,00000000", "-5,00000000", "0,00000000". repeat split.
  - apply Hrejected; [reflexivity | now right | reflexivity].
Defined.

(** ** The comparison of the values and the comparison of IEEE 754 *)

Lemma iter_xO m d : Zpos (Pos.iter xO m d) = Zpos m * 2 ^ Zpos d.
Proof.
  induction d as [|d IH] using Pos.peano_ind.
  - cbn. lia.
  - rewrite Pos.iter_succ, Pos2Z.inj_xO, IH, Pos2Z.inj_succ, Z.pow_succ_r; lia.
Qed.

(** A well-formed number of smaller exponent has the smaller magnitude. *)
Lemma aligned_lt m1 e1 m2 e2 :
  bounded prec emax m1 e1 = true -> bounded prec emax m2 e2 = true ->
  e1 < e2 ->
  aligned false m1 e1 (Z.min e1 e2) < aligned false m2 e2 (Z.min e1 e2).
Proof.
  intros H1 H2 He.
  destruct (bounded_digits _ _ H1) as (Hm1 & Hmin & _).
  destruct (bounded_digits _ _ H2) as (_ & _ & Hm2).
  specialize (Hm2 ltac:(lia)).
  rewrite Z.min_l by lia. unfold aligned, shl_align. cbn [cond_Zopp].
  rewrite Z.sub_diag. cbn [fst].
  destruct (e1 - e2) as [|d|d] eqn:Hd; try lia. cbn [fst].
  rewrite iter_xO.
  assert (2 <= 2 ^ Zpos d).
  { change 2 with (2 ^ 1) at 1. apply Z.pow_le_mono_r; lia. }
  change (2 ^ 53) with (2 * 2 ^ 52) in Hm1. nia.
Qed.

Lemma aligned_same m e : aligned false m e (Z.min e e) = Zpos m.
Proof.
  rewrite Z.min_id. unfold aligned, shl_align. now rewrite Z.sub_diag.
Qed.

Lemma aligned_opp s m e ez : aligned s m e ez = cond_Zopp s (aligned false m e ez).
Proof. reflexivity. Qed.

(** On well-formed binary64 numbers, the comparison of the values is the
    comparison of the IEEE 754 specification. *)
Lemma compare_is_SFcompare x y :
  valid_binary prec emax x = true -> valid_binary prec emax y = true ->
  compare x y = SFcompare x y.
Proof.
  destruct x as [s1|s1| |s1 m1 e1], y as [s2|s2| |s2 m2 e2]; try reflexivity.
  cbn [valid_binary]. intros H1 H2. unfold compare, SFcompare. f_equal.
  rewrite (aligned_opp s1), (aligned_opp s2).
  pose proof (aligned_sign false m1 e1 (Z.min e1 e2)) as P1.
  pose proof (aligned_sign false m2 e2 (Z.min e1 e2)) as P2.
  cbv beta iota in P1, P2.
  destruct (Z.compare_spec e1 e2) as [He | He | He].
  - subst e2. rewrite !aligned_same.
    destruct s1, s2; reflexivity.
  - pose proof (aligned_lt _ _ _ _ H1 H2 He) as Hlt.
    destruct s1, s2; cbn [cond_Zopp];
      [apply Z.compare_gt_iff | apply Z.compare_lt_iff
      | apply Z.compare_gt_iff | apply Z.compare_lt_iff]; lia.
  - pose proof (aligned_lt _ _ _ _ H2 H1 He) as Hlt.
    rewrite (Z.min_comm e2 e1) in Hlt.
    destruct s1, s2; cbn [cond_Zopp];
      [apply Z.compare_lt_iff | apply Z.compare_lt_iff
      | apply Z.compare_gt_iff | apply Z.compare_gt_iff]; lia.
Qed.

(** * The rest of the engine, and the extractor *)

(** ** Timestamps written and read back *)

Lemma pad_2 n :
  (n < 100)%nat ->
  Datetime.pad 2 n =
    String (digit_char (n / 10)) (String (digit_char (n mod 10)) EmptyString).
Proof.
  intros Hn.
  assert (forallb (fun n =>
            String.eqb (Datetime.pad 2 n)
              (String (digit_char (n / 10))
                 (String (digit_char (n mod 10)) EmptyString)))
            (seq 0 100) = true) as Hall by (vm_compute; reflexivity).
  rewrite forallb_forall in Hall.
  apply String.eqb_eq, Hall, in_seq. lia.
Qed.

Lemma elem_of_below n : forall k, (k < n)%N -> k ∈ below n.
Proof.
  induction n as [|n IH] using N.peano_ind; intros k Hk; [lia|].
  unfold below. rewrite (N.recursion_succ Logic.eq);
    [|reflexivity|now intros ? ? -> ? ? ->]. fold (below n).
  destruct (N.eq_dec k n) as [->|Hne]; [now left|].
  right. apply IH. lia.
Qed.

Lemma pad_4 n :
  (N.of_nat n <= 9999)%N ->
  Datetime.pad 4 n = Datetime.pad 2 (n / 100) +:+ Datetime.pad 2 (n mod 100).
Proof.
  intros Hn. unfold Datetime.pad. rewrite Nat2N.inj_div, Nat2N.inj_mod.
  change (N.of_nat 100) with 100%N. generalize dependent (N.of_nat n).
  intros k Hk.
  assert (forallb (fun k =>
            String.eqb (frac_text 4 k)
              (frac_text 2 (k / 100)%N +:+ frac_text 2 (k mod 100)%N))
            (below 10000) = true) as Hall by (vm_compute; reflexivity).
  rewrite forallb_forall in Hall.
  apply String.eqb_eq, Hall, list_elem_of_In, elem_of_below. lia.
Qed.

(** From the year 1000 on, the year is written on four digits. *)
Lemma year_text y :
  (1000 <= y)%nat -> (N.of_nat y <= 9999)%N ->
  Float.int_text (N.of_nat y) = Datetime.pad 4 y.
Proof.
  intros Hlo Hhi. unfold Datetime.pad.
  assert (1000 <= N.of_nat y < 10000)%N as Hk by lia.
  clear Hlo Hhi. revert Hk. generalize (N.of_nat y). intros k Hk.
  assert (forallb (fun k =>
            (k <? 1000)%N || String.eqb (Float.int_text k) (frac_text 4 k))
            (below 10000) = true) as Hall by (vm_compute; reflexivity).
  rewrite forallb_forall in Hall.
  assert (k ∈ below 10000) as Hin by (apply elem_of_below; lia).
  apply list_elem_of_In, Hall in Hin. clear Hall. rename Hin into Hall.
  apply orb_true_iff in Hall as [Hlt|Heq]; [apply N.ltb_lt in Hlt; lia|].
  now apply String.eqb_eq.
Qed.

Lemma digit_digit_char k r :
  (k < 10)%nat -> Datetime.digit (String (digit_char k) r) = [(k, r)].
Proof.
  intros Hk. do 10 (destruct k as [|k]; [reflexivity|]). lia.
Qed.

Lemma two_pad ok n r :
  (n < 100)%nat ->
  Datetime.two ok (Datetime.pad 2 n +:+ r) =
    if ok (n / 10)%nat (n mod 10)%nat then [(n, r)] else [].
Proof.
  intros Hn. rewrite pad_2 by exact Hn. rewrite !append_cons.
  change (EmptyString +:+ r) with r.
  assert (n / 10 < 10)%nat by (apply Nat.Div0.div_lt_upper_bound; lia).
  assert (n mod 10 < 10)%nat by (apply Nat.mod_upper_bound; lia).
  unfold Datetime.two. rewrite digit_digit_char by assumption.
  cbn [mbind list_bind]. rewrite digit_digit_char by assumption.
  cbn [mbind list_bind app].
  replace (10 * (n / 10) + n mod 10)%nat with n
    by (pose proof (Nat.div_mod_eq n 10); lia).
  now destruct (ok _ _).
Qed.

Lemma first_match_then {A B} (p : Datetime.pattern A)
    (k : A -> Datetime.pattern B) s a r b r' :
  first_match p s a r -> first_match (k a) r b r' ->
  first_match (Datetime.then_ p k) s b r'.
Proof.
  intros [l Hp] [l' Hk]. unfold first_match, Datetime.then_. rewrite Hp.
  cbn [mbind list_bind]. rewrite Hk. now eexists.
Qed.

Lemma first_match_alt_l {A} (p q : Datetime.pattern A) s a r :
  first_match p s a r -> first_match (Datetime.alt p q) s a r.
Proof.
  intros [l Hp]. unfold first_match, Datetime.alt. rewrite Hp. now eexists.
Qed.

Lemma first_match_alt_r {A} (p q : Datetime.pattern A) s a r :
  p s = [] -> first_match q s a r -> first_match (Datetime.alt p q) s a r.
Proof.
  intros Hp [l Hq]. unfold first_match, Datetime.alt. rewrite Hp, Hq.
  now eexists.
Qed.

Lemma first_match_char c r : first_match (Datetime.char c) (String c r) () r.
Proof. exists []. cbn. now rewrite Ascii.eqb_refl. Qed.

Lemma first_match_two ok n r :
  (n < 100)%nat -> ok (n / 10)%nat (n mod 10)%nat = true ->
  first_match (Datetime.two ok) (Datetime.pad 2 n +:+ r) n r.
Proof. intros Hn Hok. exists []. now rewrite two_pad, Hok. Qed.

Lemma no_match_two ok n r :
  (n < 100)%nat -> ok (n / 10)%nat (n mod 10)%nat = false ->
  Datetime.two ok (Datetime.pad 2 n +:+ r) = [].
Proof. intros Hn Hok. now rewrite two_pad, Hok. Qed.

Ltac digits_of_field n :=
  assert (n / 10 < 10)%nat by (apply Nat.Div0.div_lt_upper_bound; lia);
  pose proof (Nat.div_mod_eq n 10);
  pose proof (Nat.mod_upper_bound n 10 ltac:(lia)).

Ltac two_matches :=
  apply first_match_two; [lia|];
  repeat match goal with
         | |- context [(?a =? ?b)%nat] => destruct (Nat.eqb_spec a b)
         | |- context [(?a <=? ?b)%nat] => destruct (Nat.leb_spec a b)
         end; try reflexivity; lia.

Ltac two_fails :=
  apply no_match_two; [lia|];
  repeat match goal with
         | |- context [(?a =? ?b)%nat] => destruct (Nat.eqb_spec a b)
         | |- context [(?a <=? ?b)%nat] => destruct (Nat.leb_spec a b)
         end; try reflexivity; lia.

Lemma first_match_pY y r :
  (N.of_nat y <= 9999)%N ->
  first_match Datetime.pY (Datetime.pad 4 y +:+ r) y r.
Proof.
  intros Hy. rewrite pad_4, append_assoc by exact Hy.
  assert (y / 100 < 100)%nat by (apply Nat.Div0.div_lt_upper_bound; lia).
  pose proof (Nat.mod_upper_bound y 100 ltac:(lia)).
  unfold Datetime.pY.
  eapply first_match_then; [now apply first_match_two|].
  eapply first_match_then; [now apply first_match_two|].
  exists []. do 2 f_equal. pose proof (Nat.div_mod_eq y 100). lia.
Qed.

Lemma first_match_pm m r :
  (1 <= m <= 12)%nat -> first_match Datetime.pm (Datetime.pad 2 m +:+ r) m r.
Proof.
  intros Hm. digits_of_field m. unfold Datetime.pm.
  destruct (Nat.eq_dec (m / 10)%nat 1%nat).
  - apply first_match_alt_l. two_matches.
  - apply first_match_alt_r; [two_fails|].
    apply first_match_alt_l. two_matches.
Qed.

Lemma first_match_pd d r :
  (1 <= d <= 31)%nat -> first_match Datetime.pd (Datetime.pad 2 d +:+ r) d r.
Proof.
  intros Hd. digits_of_field d. unfold Datetime.pd.
  destruct (Nat.eq_dec (d / 10)%nat 3%nat).
  - apply first_match_alt_l. two_matches.
  - apply first_match_alt_r; [two_fails|].
    destruct (Nat.eq_dec (d / 10)%nat 0%nat).
    + apply first_match_alt_r; [two_fails|].
      apply first_match_alt_l. two_matches.
    + apply first_match_alt_l. two_matches.
Qed.

Lemma first_match_pH h r :
  (h <= 23)%nat -> first_match Datetime.pH (Datetime.pad 2 h +:+ r) h r.
Proof.
  intros Hh. digits_of_field h. unfold Datetime.pH.
  destruct (Nat.eq_dec (h / 10)%nat 2%nat).
  - apply first_match_alt_l. two_matches.
  - apply first_match_alt_r; [two_fails|].
    apply first_match_alt_l. two_matches.
Qed.

Lemma first_match_pM m r :
  (m <= 59)%nat -> first_match Datetime.pM (Datetime.pad 2 m +:+ r) m r.
Proof.
  intros Hm. digits_of_field m. unfold Datetime.pM.
  apply first_match_alt_l. two_matches.
Qed.

Lemma first_match_pS s r :
  (s <= 59)%nat -> first_match Datetime.pS (Datetime.pad 2 s +:+ r) s r.
Proof.
  intros Hs. digits_of_field s. unfold Datetime.pS.
  apply first_match_alt_r; [two_fails|].
  apply first_match_alt_l. two_matches.
Qed.

Lemma isspace_digit_char k :
  (k < 10)%nat -> Str.isspace (digit_char k) = false.
Proof. intros Hk. do 10 (destruct k as [|k]; [reflexivity|]). lia. Qed.

Lemma first_match_space n r :
  (n < 100)%nat ->
  first_match Datetime.spaces (" " +:+ Datetime.pad 2 n +:+ r) ()
    (Datetime.pad 2 n +:+ r).
Proof.
  intros Hn. exists []. rewrite pad_2 by exact Hn. rewrite !append_cons.
  change (EmptyString +:+ ?x) with x.
  cbn [Datetime.spaces]. change (Str.isspace " ") with true. cbv iota.
  assert (n / 10 < 10)%nat by (apply Nat.Div0.div_lt_upper_bound; lia).
  now rewrite isspace_digit_char.
Qed.

Lemma valid_fields d :
  Datetime.valid d = true ->
  (N.of_nat (Datetime.year d) <= 9999)%N /\
  (1 <= Datetime.month d <= 12)%nat /\
  (1 <= Datetime.day d <= 31)%nat /\
  (Datetime.hour d <= 23)%nat /\ (Datetime.minute d <= 59)%nat /\
  (Datetime.second d <= 59)%nat.
Proof.
  unfold Datetime.valid. rewrite !andb_true_iff.
  rewrite !Nat.leb_le, N.leb_le. intros H.
  assert (Datetime.days_in_month (Datetime.year d) (Datetime.month d) <= 31)%nat.
  { unfold Datetime.days_in_month. generalize (Datetime.month d). intros m.
    destruct (Datetime.is_leap _);
      do 12 (destruct m as [|m]; [cbn; lia|]); cbn; lia. }
  lia.
Qed.

(** The text [strftime] writes for a date of the year 1000 or later is
    read back by [strptime] as that date. *)
Lemma strptime_strftime d :
  Datetime.valid d = true -> (1000 <= Datetime.year d)%nat ->
  Datetime.strptime (Datetime.strftime d) = Ok d.
Proof.
  intros Hvalid Hyear.
  destruct (valid_fields d Hvalid) as (Hy & Hm & Hd & Hh & Hmi & Hs).
  assert (first_match Datetime.pattern_Ymd_HMS (Datetime.strftime d) d
            EmptyString) as [l Hl].
  { unfold Datetime.pattern_Ymd_HMS, Datetime.strftime.
    rewrite (year_text _ Hyear Hy).
    eapply first_match_then; [now apply first_match_pY|].
    eapply first_match_then; [rewrite append_cons; apply first_match_char|].
    change (EmptyString +:+ ?x) with x.
    eapply first_match_then; [now apply first_match_pm|].
    eapply first_match_then; [rewrite append_cons; apply first_match_char|].
    change (EmptyString +:+ ?x) with x.
    eapply first_match_then; [now apply first_match_pd|].
    eapply first_match_then; [apply first_match_space; lia|].
    eapply first_match_then; [now apply first_match_pH|].
    eapply first_match_then; [rewrite append_cons; apply first_match_char|].
    change (EmptyString +:+ ?x) with x.
    eapply first_match_then; [now apply first_match_pM|].
    eapply first_match_then; [rewrite append_cons; apply first_match_char|].
    change (EmptyString +:+ ?x) with x.
    rewrite <- (append_nil_r (Datetime.pad 2 (Datetime.second d))).
    eapply first_match_then; [now apply first_match_pS|].
    exists []. now destruct d. }
  unfold Datetime.strptime. now rewrite Hl, Hvalid.
Qed.

(** From the year 1000 on, [strftime] writes 19 characters. *)
Lemma strftime_padded d :
  Datetime.valid d = true -> (1000 <= Datetime.year d)%nat ->
  Datetime.strftime d =
    Datetime.pad 4 (Datetime.year d) +:+ "-" +:+ Datetime.pad 2 (Datetime.month d)
    +:+ "-" +:+ Datetime.pad 2 (Datetime.day d)
    +:+ " " +:+ Datetime.pad 2 (Datetime.hour d)
    +:+ ":" +:+ Datetime.pad 2 (Datetime.minute d)
    +:+ ":" +:+ Datetime.pad 2 (Datetime.second d).
Proof.
  intros Hvalid Hyear. unfold Datetime.strftime.
  now rewrite (year_text _ Hyear (proj1 (valid_fields d Hvalid))).
Qed.

(** ** The exceptions of a run *)

Lemma strptime_raises s e : Datetime.strptime s = Raise e -> e = ValueError.
Proof.
  unfold Datetime.strptime.
  destruct (Datetime.pattern_Ymd_HMS s) as [|[d [|c r]] l];
    try (now intros [= <-]).
  destruct (Datetime.valid d); [discriminate | now intros [= <-]].
Qed.

Lemma of_string_raises s e : of_string s = Raise e -> e = ValueError.
Proof. unfold of_string. destruct (lex _); [discriminate | now intros [= <-]]. Qed.

Lemma safe_float_raises s e : _safe_float s = Raise e -> e = ValueError.
Proof.
  unfold _safe_float. destruct (Str.strip s); [discriminate|].
  apply of_string_raises.
Qed.

(** The exceptions that leave the body of the loop: [IndexError] for a
    field that is missing, [ValueError] for a field that is not a number. *)
Lemma apply_trade_raises st t tx_date e :
  apply_trade st t tx_date = Raise e -> e = IndexError \/ e = ValueError.
Proof.
  intros H. destruct (portfolio_map st !! symbol t) as [i|] eqn:Hmap;
    [|now rewrite apply_trade_new in H].
  pose proof H as H0. revert H.
  unfold apply_trade. cbv zeta. rewrite Hmap. cbv beta iota.
  destruct (sheet_rows st !! i) as [r|] eqn:Hrow;
    [change (default [] (Some r)) with r
    |change (default [] (@None sheet_row)) with (@nil string)].
  2: { change (get_item [] 1) with (@Raise string IndexError).
       cbn [bind]. intros [= <-]. now left. }
  unfold get_item.
  destruct (r !! 1%nat) as [f1|] eqn:H1; cbn [bind];
    [|intros [= <-]; now left].
  destruct (_safe_float f1) as [avg|e1] eqn:P1; cbn [bind];
    [|intros [= <-]; right; now apply safe_float_raises in P1].
  destruct (r !! 2%nat) as [f2|] eqn:H2; cbn [bind];
    [|intros [= <-]; now left].
  destruct (_safe_float f2) as [q|e2] eqn:P2; cbn [bind];
    [|intros [= <-]; right; now apply safe_float_raises in P2].
  destruct (r !! 5%nat) as [f5|] eqn:H5; cbn [bind];
    [|intros [= <-]; now left].
  destruct (_safe_float f5) as [pnl|e5] eqn:P5; cbn [bind];
    [|intros [= <-]; right; now apply safe_float_raises in P5].
  intros _. exfalso.
  rewrite (apply_trade_existing st t tx_date i r avg q pnl) in H0;
    [|now split | exists f1, f2, f5; now repeat split].
  destruct (negb (is_buyer t) && gt (qty t) q); [discriminate H0|].
  destruct (is_buyer t); discriminate H0.
Qed.

Lemma process_trade_raises cutoff_date st t e :
  process_trade cutoff_date st t = Raise e -> e = IndexError \/ e = ValueError.
Proof.
  unfold process_trade.
  destruct (Datetime.strptime (time t)) as [d|e0] eqn:Hd; cbn [bind].
  - destruct (Datetime.leb d cutoff_date); [discriminate|].
    apply apply_trade_raises.
  - intros [= <-]. right. now apply strptime_raises in Hd.
Qed.

Lemma process_trades_raises cutoff_date trades : forall st e,
  process_trades cutoff_date st trades = Raise e ->
  e = IndexError \/ e = ValueError.
Proof.
  induction trades as [|t rest IH]; intros st e; [discriminate|].
  cbn [process_trades].
  destruct (process_trade cutoff_date st t) as [[[o ev] st1]|e0] eqn:Ht;
    cbn [bind].
  - destruct (process_trades cutoff_date st1 rest) as [[[os evs] st2]|e1] eqn:Hr;
      cbn [bind]; [discriminate|].
    intros [= <-]. now apply IH in Hr.
  - intros [= <-]. now apply process_trade_raises in Ht.
Qed.

Lemma sort_keys_raises trades e : sort_keys trades = Raise e -> e = ValueError.
Proof.
  induction trades as [|t rest IH]; [discriminate|]. cbn [sort_keys].
  destruct (Datetime.strptime (time t)) as [d|e0] eqn:Hd; cbn [bind].
  - destruct (sort_keys rest); cbn [bind]; [discriminate|].
    intros [= <-]. now apply IH.
  - intros [= <-]. now apply strptime_raises in Hd.
Qed.

Lemma read_trade_data_raises fs e :
  _read_trade_data fs = Raise e -> e = ValueError.
Proof.
  unfold _read_trade_data.
  destruct (match raw_data_file fs with
            | Some lines => read_lines (tail lines)
            | None => ([], [])
            end) as [trades warnings].
  destruct (sort_keys trades) eqn:Hk; cbn [bind]; [discriminate|].
  intros [= <-]. now apply sort_keys_raises in Hk.
Qed.

Lemma build_map_raises rows : forall i m e,
  build_map i rows m = Raise e -> e = IndexError.
Proof.
  induction rows as [|r rest IH]; intros i m e; [discriminate|].
  cbn [build_map]. unfold get_item.
  destruct (r !! 0%nat); cbn [bind]; [apply IH | now intros [= <-]].
Qed.

Lemma read_csv_raises rows e : read_csv rows = Raise e -> e = CsvError.
Proof.
  unfold read_csv. destruct (within_field_limit rows);
    [discriminate | now intros [= <-]].
Qed.

Lemma load_raises fs e : load fs = Raise e -> e = IndexError \/ e = CsvError.
Proof.
  unfold load. cbv zeta.
  destruct (match portfolio_csv fs with
            | Some rows => read_csv rows
            | None => Ok []
            end) as [rows|e0] eqn:Hrows; cbn [bind].
  - destruct (build_map _ _ _) eqn:Hm; cbn [bind]; [discriminate|].
    intros [= <-]. left. now apply build_map_raises in Hm.
  - intros [= <-]. right. destruct (portfolio_csv fs); [|discriminate Hrows].
    now apply read_csv_raises in Hrows.
Qed.

Lemma read_cutoff_raises fs e : read_cutoff fs = Raise e -> e = ValueError.
Proof.
  unfold read_cutoff. destruct (last_sync_file fs); [|discriminate].
  destruct (Str.strip _) eqn:Hs; [discriminate|]. apply strptime_raises.
Qed.

(** X1. No [ZeroDivisionError] leaves [update_portfolio], and none leaves
    its loop, whatever the ledger it starts from and the trades: each of
    the three divisions stands behind its guard. *)
Theorem update_portfolio_never_divides_by_zero io fs :
  update_portfolio io fs <> Raise ZeroDivisionError /\
  (forall cutoff_date st trades,
     process_trades cutoff_date st trades <> Raise ZeroDivisionError).
Proof.
  split.
  - unfold update_portfolio, reconcile.
    destruct (read_cutoff fs) as [cutoff_date|e0] eqn:Hc; cbn [bind];
      [|intros [= ->]; now apply read_cutoff_raises in Hc].
    destruct (_read_trade_data fs) as [[trades warnings]|e0] eqn:Hr; cbn [bind];
      [|intros [= ->]; now apply read_trade_data_raises in Hr].
    destruct (load fs) as [st|e0] eqn:Hl; cbn [bind];
      [|intros [= ->]; now apply load_raises in Hl as [Hl|Hl]].
    destruct (process_trades cutoff_date st trades) as [[[os ev] st']|e0] eqn:Hp;
      cbn [bind].
    + destruct (persist io fs st'). discriminate.
    + intros [= ->]. now apply process_trades_raises in Hp as [Hp|Hp].
  - intros cutoff_date st trades H.
    now apply process_trades_raises in H as [H|H].
Qed.

(** ** The ledger that is written and loaded again *)

(** What a trade that goes through does to the state. *)
Lemma apply_trade_step st t d o ev st' :
  apply_trade st t d = Ok (o, ev, st') ->
  (o = Rejected /\ st' = st) \/
  (o = Updated /\
   exists i r r',
     portfolio_map st !! symbol t = Some i /\ sheet_rows st !! i = Some r /\
     r' !! 0%nat = r !! 0%nat /\ r' !! 3%nat = Some (Datetime.strftime d) /\
     st' = mk_state (<[i := r']> (sheet_rows st)) (portfolio_map st)
             ({[symbol t]} ∪ modified_symbols st)) \/
  (o = Created /\ portfolio_map st !! symbol t = None /\
   st' = mk_state (sheet_rows st ++ [opening_row t d])
           (<[symbol t := length (sheet_rows st)]> (portfolio_map st))
           ({[symbol t]} ∪ modified_symbols st)).
Proof.
  intros H. destruct (portfolio_map st !! symbol t) as [i|] eqn:Hmap.
  - destruct (apply_trade_reads_row _ _ _ _ _ Hmap H)
      as (r & avg & q & pnl & Hrow & Hholds).
    rewrite (apply_trade_existing st t d i r avg q pnl) in H
      by (try split; assumption).
    destruct (negb (is_buyer t) && gt (qty t) q).
    + injection H as <- <- <-. now left.
    + right. left.
      pose proof (holds_length _ _ _ _ Hholds) as Hlen.
      destruct (if is_buyer t then after_buy avg q pnl (price t) (qty t)
                else after_sell avg q pnl (price t) (qty t))
        as [[avg' q'] pnl'] eqn:Hv.
      injection H as <- <- <-. split; [reflexivity|].
      set (be := if gt q' zero then break_even_formula avg' q' pnl' else zero).
      destruct (rewritten_fields r avg' q' pnl' d be Hlen)
        as (_ & _ & H3 & _ & _ & H0).
      exists i, r, (rewritten r (avg', q', pnl') d be). now repeat split.
  - rewrite (apply_trade_new _ _ _ Hmap) in H. injection H as <- <- <-.
    right. right. auto.
Qed.

Lemma process_trade_step cutoff_date st t o ev st' :
  process_trade cutoff_date st t = Ok (o, ev, st') ->
  exists d,
    Datetime.strptime (time t) = Ok d /\
    (o = Filtered /\ st' = st /\ Datetime.leb d cutoff_date = true \/
     Datetime.leb d cutoff_date = false /\
     apply_trade st t d = Ok (o, ev, st')).
Proof.
  unfold process_trade.
  destruct (Datetime.strptime (time t)) as [d|]; [cbn [bind]|discriminate].
  destruct (Datetime.leb d cutoff_date) eqn:Hd; intros H; exists d.
  - injection H as <- <- <-. auto.
  - auto.
Qed.

Lemma build_map_ext rows : forall rows' i m,
  Forall2 (fun r r' : sheet_row => r !! 0%nat = r' !! 0%nat) rows rows' ->
  build_map i rows m = build_map i rows' m.
Proof.
  induction rows as [|r rows IH]; intros rows' i m H; inversion H; subst;
    [reflexivity|].
  cbn [build_map]. unfold get_item.
  match goal with E : r !! 0%nat = _ |- _ => rewrite <- E end.
  destruct (r !! 0%nat); cbn [bind]; [now apply IH | reflexivity].
Qed.

Lemma build_map_snoc rows r : forall i m,
  build_map i (rows ++ [r]) m =
    let* m' := build_map i rows m in
    let* s := get_item r 0 in
    Ok (<[s := (i + length rows)%nat]> m').
Proof.
  induction rows as [|r0 rows IH]; intros i m; cbn [app build_map length].
  - rewrite Nat.add_0_r. now destruct (get_item r 0).
  - destruct (get_item r0 0); cbn [bind]; [|reflexivity].
    rewrite IH. now replace (S i + length rows)%nat with (i + S (length rows))%nat by lia.
Qed.

Lemma Forall2_insert_first (rows : list sheet_row) i r r' :
  rows !! i = Some r -> r' !! 0%nat = r !! 0%nat ->
  Forall2 (fun r r' : sheet_row => r !! 0%nat = r' !! 0%nat)
    (tail (<[i := r']> rows)) (tail rows).
Proof.
  intros Hrow Hfirst.
  assert (Forall2 (fun r r' : sheet_row => r !! 0%nat = r' !! 0%nat)
            (<[i := r']> rows) rows) as H.
  { revert i Hrow. induction rows as [|r0 rows IH]; intros [|i] Hrow;
      try discriminate; cbn in *.
    - injection Hrow as ->. constructor; [exact Hfirst|].
      apply Forall_Forall2_diag, Forall_true. reflexivity.
    - constructor; [reflexivity | now apply IH]. }
  destruct H; [constructor | assumption].
Qed.

(** A trade keeps the map the map of the rows. *)
Lemma apply_trade_indexed st t d o ev st' :
  apply_trade st t d = Ok (o, ev, st') -> indexed st -> indexed st'.
Proof.
  intros H [Hne Hmap].
  destruct (apply_trade_step _ _ _ _ _ _ H)
    as [(_ & ->) | [(_ & i & r & r' & Hi & Hrow & Hfirst & _ & ->)
                   | (_ & Hnone & ->)]];
    [now split | |]; split; cbn [sheet_rows portfolio_map].
  - intros E. apply (f_equal length) in E. rewrite length_insert in E.
    now destruct (sheet_rows st).
  - rewrite <- Hmap. now apply build_map_ext, Forall2_insert_first with r.
  - now destruct (sheet_rows st).
  - destruct (sheet_rows st) as [|h rows] eqn:Hrows; [contradiction|].
    cbn [tail app] in *. rewrite build_map_snoc, Hmap. cbn [bind length].
    reflexivity.
Qed.

Lemma process_trades_indexed cutoff_date trades : forall st os ev st',
  process_trades cutoff_date st trades = Ok (os, ev, st') ->
  indexed st -> indexed st'.
Proof.
  induction trades as [|t rest IH]; intros st os ev st' H Hst.
  - now injection H as <- <- <-.
  - destruct (process_trades_cons _ _ _ _ _ _ _ H)
      as (o & ev1 & st1 & os' & ev2 & Ht & Hrest & _).
    apply (IH _ _ _ _ Hrest).
    destruct (process_trade_step _ _ _ _ _ _ Ht)
      as (d & _ & [(_ & -> & _) | [_ Ha]]); [exact Hst|].
    now apply (apply_trade_indexed _ _ _ _ _ _ Ha).
Qed.

Lemma load_indexed fs st : load fs = Ok st -> indexed st.
Proof.
  unfold load. cbv zeta.
  destruct (match portfolio_csv fs with
            | Some rows => read_csv rows
            | None => Ok []
            end) as [rows|]; [cbn [bind]|discriminate].
  destruct (build_map _ _ _) as [m|] eqn:Hm; [cbn [bind]|discriminate].
  intros [= <-]. split; [|exact Hm]. cbn [sheet_rows].
  now destruct rows.
Qed.

Lemma reconcile_indexed fs os ev st :
  reconcile fs = Ok (os, ev, st) -> indexed st.
Proof.
  unfold reconcile.
  destruct (read_cutoff fs) as [c|]; [cbn [bind]|discriminate].
  destruct (_read_trade_data fs) as [[trades w]|]; [cbn [bind]|discriminate].
  destruct (load fs) as [st0|] eqn:Hl; [cbn [bind]|discriminate].
  destruct (process_trades c st0 trades) as [[[os' ev'] st1]|] eqn:Hp;
    [cbn [bind]|discriminate].
  intros [= <- <- <-]. apply (process_trades_indexed _ _ _ _ _ _ Hp).
  now apply load_indexed with fs.
Qed.

(** The ledger that holds the rows of a state is loaded as that state,
    unless a field is larger than the limit of [csv]. *)
Lemma load_ledger fs st :
  indexed st -> portfolio_csv fs = Some (sheet_rows st) ->
  load fs =
    if within_field_limit (sheet_rows st) then
      Ok (mk_state (sheet_rows st) (portfolio_map st) ∅)
    else Raise CsvError.
Proof.
  intros [Hne Hmap] Hcsv. unfold load, read_csv. rewrite Hcsv.
  destruct (within_field_limit (sheet_rows st)); [cbn [bind]|reflexivity].
  cbv zeta. destruct (sheet_rows st) as [|h rows]; [contradiction|].
  now rewrite Hmap.
Qed.

(** X2. The ledger a run writes holds the rows of the state the run ends
    in.  The next run loads these rows and binds every symbol to the same
    row, unless one of the fields, a symbol of the trade file, has more
    characters than the limit of [csv]: then [csv.reader] raises
    [_csv.Error] and the next run stops there. *)
Theorem ledger_reloads io fs fs' ev :
  portfolio_write_error io = None ->
  update_portfolio io fs = Ok (fs', ev) ->
  exists os ev0 st,
    reconcile fs = Ok (os, ev0, st) /\
    portfolio_csv fs' = Some (sheet_rows st) /\
    load fs' =
      (if within_field_limit (sheet_rows st) then
         Ok (mk_state (sheet_rows st) (portfolio_map st) ∅)
       else Raise CsvError) /\
    (within_field_limit (sheet_rows st) = false ->
     forall io', update_portfolio io' fs' = Raise CsvError).
Proof.
  intros Hio. unfold update_portfolio at 1.
  destruct (reconcile fs) as [[[os ev0] st]|] eqn:Hr; [cbn [bind]|discriminate].
  pose proof (reconcile_indexed _ _ _ _ Hr) as Hind.
  unfold persist. rewrite Hio.
  assert (forall report,
            load (mk_files (raw_data_file fs) (Some (sheet_rows st))
                    (last_sync_file fs) report) =
              if within_field_limit (sheet_rows st) then
                Ok (mk_state (sheet_rows st) (portfolio_map st) ∅)
              else Raise CsvError) as Hload
    by (intros report; now apply load_ledger).
  assert (read_cutoff fs <> Raise CsvError /\
          _read_trade_data fs <> Raise CsvError) as [Hc Ht].
  { split; intros H; [apply read_cutoff_raises in H
                     |apply read_trade_data_raises in H]; discriminate H. }
  destruct (modified_write_error io); intros [= <- <-];
    exists os, ev0, st; (split; [reflexivity|]); (split; [reflexivity|]);
    (split; [apply Hload|]); intros Hlimit io';
    unfold update_portfolio, reconcile;
    change (read_cutoff (mk_files (raw_data_file fs) ?a (last_sync_file fs) ?b))
      with (read_cutoff fs);
    change (_read_trade_data
              (mk_files (raw_data_file fs) ?a (last_sync_file fs) ?b))
      with (_read_trade_data fs);
    rewrite Hload, Hlimit.
  all: revert Hr; unfold reconcile;
    destruct (read_cutoff fs) as [c|]; [cbn [bind]|discriminate];
    destruct (_read_trade_data fs) as [[trades w]|]; [cbn [bind]|discriminate];
    reflexivity.
Qed.

Lemma ledger_reloads_witness :
  exists fs',
    portfolio_csv fs' = Some (sheet_rows scenario_end) /\
    load fs' =
      Ok (mk_state (sheet_rows scenario_end) (portfolio_map scenario_end) ∅).
Proof.
  destruct (ledger_reloads (mk_io None None) scenario_files
              (mk_files (raw_data_file scenario_files)
                 (Some (sheet_rows scenario_end)) None (Some "XYZBTC"))
              [Info_processing 4;
               Warning_sell_exceeds "XYZBTC" (flt "5") (flt "1");
               Info_portfolio_updated; Info_change_log_saved])
    as (os & ev0 & st & Hrec & Hcsv & Hload & _);
    [reflexivity | vm_compute; reflexivity |].
  vm_compute in Hrec. injection Hrec as <- <- <-.
  eexists. split; [exact Hcsv | exact Hload].
Defined.

(** X3. The engine leaves the trade file and the cursor as they are: a
    second run, with no extraction between the two, applies the same
    trades once more, to the ledger the first run wrote, unless a field
    of that ledger has more characters than the limit of [csv]: then the
    second run stops with [_csv.Error]. *)
Theorem second_run_applies_the_trades_again io fs fs' ev :
  portfolio_write_error io = None ->
  update_portfolio io fs = Ok (fs', ev) ->
  exists cutoff_date trades warnings st os ev0 st',
    read_cutoff fs = Ok cutoff_date /\
    _read_trade_data fs = Ok (trades, warnings) /\
    load fs = Ok st /\
    process_trades cutoff_date st trades = Ok (os, ev0, st') /\
    raw_data_file fs' = raw_data_file fs /\
    last_sync_file fs' = last_sync_file fs /\
    reconcile fs' =
      if within_field_limit (sheet_rows st') then
        let* (os2, ev2, st2) :=
          process_trades cutoff_date
            (mk_state (sheet_rows st') (portfolio_map st') ∅) trades in
        Ok (os2, warnings ++ [Info_processing (length trades)] ++ ev2, st2)
      else Raise CsvError.
Proof.
  intros Hio. unfold update_portfolio.
  destruct (reconcile fs) as [[[os ev0] st']|] eqn:Hr;
    [cbn [bind]|discriminate].
  pose proof (reconcile_indexed _ _ _ _ Hr) as Hind. revert Hr.
  unfold reconcile at 1.
  destruct (read_cutoff fs) as [c|] eqn:Hc; [cbn [bind]|discriminate].
  destruct (_read_trade_data fs) as [[trades w]|] eqn:Ht;
    [cbn [bind]|discriminate].
  destruct (load fs) as [st|] eqn:Hl; [cbn [bind]|discriminate].
  destruct (process_trades c st trades) as [[[os1 ev1] st1]|] eqn:Hp;
    [cbn [bind]|discriminate].
  intros [= -> <- ->]. unfold persist. rewrite Hio.
  destruct (modified_write_error io); intros [= <- <-];
    exists c, trades, w, st, os, ev1, st';
    do 6 (split; [first [reflexivity | assumption]|]);
    unfold reconcile;
    change (read_cutoff (mk_files (raw_data_file fs) ?a (last_sync_file fs) ?b))
      with (read_cutoff fs);
    change (_read_trade_data
              (mk_files (raw_data_file fs) ?a (last_sync_file fs) ?b))
      with (_read_trade_data fs);
    rewrite Hc, Ht; cbn [bind];
    rewrite (load_ledger _ st') by (try exact Hind; reflexivity);
    now destruct (within_field_limit (sheet_rows st')).
Qed.

Lemma second_run_applies_the_trades_again_witness :
  exists os2 ev2 st2,
    reconcile
      (mk_files (raw_data_file scenario_files)
         (Some (sheet_rows scenario_end)) None (Some "XYZBTC")) =
      Ok (os2, ev2, st2) /\
    os2 = [Updated; Updated; Updated; Rejected].
Proof.
  destruct (second_run_applies_the_trades_again (mk_io None None)
              scenario_files
              (mk_files (raw_data_file scenario_files)
                 (Some (sheet_rows scenario_end)) None (Some "XYZBTC"))
              [Info_processing 4;
               Warning_sell_exceeds "XYZBTC" (flt "5") (flt "1");
               Info_portfolio_updated; Info_change_log_saved])
    as (c & trades & w & st & os & ev0 & st' & Hc & Ht & Hl & Hp & _ & _
        & Hagain);
    [reflexivity | vm_compute; reflexivity |].
  rewrite Hagain. vm_compute in Hc, Ht, Hl.
  injection Hc as <-. injection Ht as <- <-. injection Hl as <-.
  vm_compute in Hp. injection Hp as <- <- <-.
  eexists _, _, _. split; [vm_compute; reflexivity | reflexivity].
Defined.

(** ** The rows the loop leaves alone *)

Lemma build_map_lookup rows : forall i m m' s k,
  build_map i rows m = Ok m' -> m' !! s = Some k ->
  (m !! s = Some k /\ Forall (fun r : sheet_row => r !! 0%nat <> Some s) rows) \/
  (exists j r,
     k = (i + j)%nat /\ rows !! j = Some r /\ r !! 0%nat = Some s /\
     forall j' r', (j < j')%nat -> rows !! j' = Some r' ->
                   r' !! 0%nat <> Some s).
Proof.
  induction rows as [|r rest IH]; intros i m m' s k.
  - intros [= <-] Hk. left. now split.
  - cbn [build_map]. unfold get_item.
    destruct (r !! 0%nat) as [s0|] eqn:Hr; [cbn [bind]|discriminate].
    intros Hb Hk.
    destruct (IH _ _ _ _ _ Hb Hk) as [[Hm Hnone] | (j & r' & -> & Hj & Hs & Hlast)].
    + destruct (decide (s0 = s)) as [->|Hne].
      * rewrite lookup_insert_eq in Hm. injection Hm as <-.
        right. exists 0%nat, r. repeat split; [lia | assumption |].
        intros [|j'] r' Hlt; [lia|]. cbn. intros Hj'.
        rewrite Forall_forall in Hnone. apply Hnone.
        now apply list_elem_of_lookup_2 in Hj'.
      * rewrite lookup_insert_ne in Hm by exact Hne. left. split; [exact Hm|].
        constructor; [|exact Hnone]. rewrite Hr. congruence.
    + right. exists (S j), r'. repeat split; [lia | assumption | assumption |].
      intros [|j'] r'' Hlt; [lia|]. cbn. apply Hlast. lia.
Qed.

Lemma build_map_keeps rows : forall i m m' s,
  build_map i rows m = Ok m' -> is_Some (m !! s) -> is_Some (m' !! s).
Proof.
  induction rows as [|r rest IH]; intros i m m' s.
  - cbn [build_map]. now intros [= <-].
  - cbn [build_map]. destruct (get_item r 0) as [s0|]; [cbn [bind]|discriminate].
    intros Hb Hs. apply (IH _ _ _ _ Hb).
    destruct (decide (s0 = s)) as [->|Hne].
    + rewrite lookup_insert_eq. eauto.
    + now rewrite lookup_insert_ne.
Qed.

Lemma build_map_complete rows : forall i m m' j r s,
  build_map i rows m = Ok m' ->
  rows !! j = Some r -> r !! 0%nat = Some s -> is_Some (m' !! s).
Proof.
  induction rows as [|r0 rest IH]; intros i m m' j r s; [discriminate|].
  cbn [build_map]. unfold get_item.
  destruct (r0 !! 0%nat) as [s0|] eqn:Hr0; [cbn [bind]|discriminate].
  intros Hb Hj Hs. destruct j as [|j].
  - injection Hj as ->. rewrite Hs in Hr0. injection Hr0 as ->.
    apply (build_map_keeps _ _ _ _ _ Hb). rewrite lookup_insert_eq. eauto.
  - now apply (IH _ _ _ _ _ _ Hb Hj).
Qed.

(** X4. After the ledger is loaded, and at the end of the loop, a symbol
    of the map is bound to the last row that starts with it, never to the
    first row of the sheet; and every row behind the first one has its
    symbol in the map. *)
Theorem map_binds_last_row fs st :
  load fs = Ok st \/ (exists os ev, reconcile fs = Ok (os, ev, st)) ->
  (forall s k,
     portfolio_map st !! s = Some k ->
     (1 <= k)%nat /\
     exists r,
       sheet_rows st !! k = Some r /\ r !! 0%nat = Some s /\
       forall k' r', (k < k')%nat -> sheet_rows st !! k' = Some r' ->
                     r' !! 0%nat <> Some s) /\
  (forall j r s,
     (1 <= j)%nat -> sheet_rows st !! j = Some r -> r !! 0%nat = Some s ->
     is_Some (portfolio_map st !! s)).
Proof.
  intros H.
  assert (indexed st) as [Hne Hmap]
    by (destruct H as [H | (os & ev & H)];
        [now apply load_indexed with fs | now apply reconcile_indexed in H]).
  destruct (sheet_rows st) as [|h rows]; [contradiction|]. cbn [tail] in Hmap.
  split.
  - intros s k Hk.
    destruct (build_map_lookup _ _ _ _ _ _ Hmap Hk)
      as [[Hempty _] | (j & r & -> & Hj & Hs & Hlast)];
      [now rewrite lookup_empty in Hempty|].
    split; [lia|]. exists r. repeat split; [exact Hj | exact Hs |].
    intros [|k'] r' Hlt; [lia|]. cbn. apply Hlast. lia.
  - intros [|j] r s Hj; [lia|]. cbn. intros Hrow Hs.
    now apply (build_map_complete _ _ _ _ _ _ _ Hmap Hrow).
Qed.

Lemma map_binds_last_row_witness :
  exists r,
    sheet_rows scenario_end !! 1%nat = Some r /\
    r !! 0%nat = Some "XYZBTC".
Proof.
  destruct (map_binds_last_row scenario_files scenario_end) as [Hbound _].
  - right. eexists _, _. vm_compute. reflexivity.
  - destruct (Hbound "XYZBTC" 1%nat) as (_ & r & Hr & Hs & _);
      [vm_compute; reflexivity|].
    exists r. split; [exact Hr | exact Hs].
Defined.

Lemma process_trade_frame cutoff_date st t o ev st' :
  process_trade cutoff_date st t = Ok (o, ev, st') ->
  length (sheet_rows st') = (length (sheet_rows st) + created [o])%nat /\
  (forall j r,
     sheet_rows st !! j = Some r -> portfolio_map st !! symbol t <> Some j ->
     sheet_rows st' !! j = Some r) /\
  (forall s j,
     portfolio_map st' !! s = Some j -> (j < length (sheet_rows st))%nat ->
     portfolio_map st !! s = Some j).
Proof.
  intros H.
  destruct (process_trade_step _ _ _ _ _ _ H)
    as (d & _ & [(-> & -> & _) | [_ Ha]]);
    [cbn [created]; split; [lia | split; auto]|].
  destruct (apply_trade_step _ _ _ _ _ _ Ha)
    as [(-> & ->) | [(-> & i & r & r' & Hi & Hrow & _ & _ & ->)
                    | (-> & Hnone & ->)]];
    cbn [sheet_rows portfolio_map created].
  - split; [lia | split; auto].
  - rewrite length_insert. split; [lia | split; [|auto]].
    intros j r0 Hj Hne. rewrite list_lookup_insert_ne; [exact Hj|congruence].
  - rewrite length_app. cbn [length]. split; [lia | split].
    + intros j r0 Hj _. now apply lookup_app_l_Some.
    + intros s j Hj Hlt. destruct (decide (symbol t = s)) as [<-|Hne].
      * rewrite lookup_insert_eq in Hj. injection Hj as <-. lia.
      * now rewrite lookup_insert_ne in Hj.
Qed.

Lemma created_cons o os : created (o :: os) = (created [o] + created os)%nat.
Proof. now destruct o. Qed.

(** X5. The loop only rewrites the rows its trades are bound to and
    appends one row for every position it creates: every other row of the
    sheet stays as it is, at its place. *)
Theorem other_rows_are_kept cutoff_date trades : forall st os ev st',
  process_trades cutoff_date st trades = Ok (os, ev, st') ->
  length (sheet_rows st') = (length (sheet_rows st) + created os)%nat /\
  forall j r,
    sheet_rows st !! j = Some r ->
    (forall t, t ∈ trades -> portfolio_map st !! symbol t <> Some j) ->
    sheet_rows st' !! j = Some r.
Proof.
  induction trades as [|t rest IH]; intros st os ev st' H.
  - injection H as <- <- <-. cbn. split; [lia | auto].
  - destruct (process_trades_cons _ _ _ _ _ _ _ H)
      as (o & ev1 & st1 & os' & ev2 & Ht & Hrest & -> & _).
    destruct (process_trade_frame _ _ _ _ _ _ Ht) as (Hlen1 & Hkeep1 & Hmap1).
    destruct (IH _ _ _ _ Hrest) as [Hlen Hkeep].
    rewrite created_cons. split; [lia|].
    intros j r Hj Hfree. apply Hkeep.
    + apply Hkeep1; [exact Hj|]. apply Hfree. now left.
    + intros t' Ht' Hbound. apply (Hfree t'); [now right|].
      apply Hmap1; [exact Hbound|]. now apply lookup_lt_Some in Hj.
Qed.

Lemma other_rows_are_kept_witness :
  exists os ev st',
    process_trades Datetime.min one_unit_state
      [mk_trade "ABCBTC" (flt "2") (flt "3") "2024-01-02 00:00:00" true] =
      Ok (os, ev, st') /\
    length (sheet_rows st') = 3%nat /\
    sheet_rows st' !! 1%nat = Some one_unit_row.
Proof.
  destruct (process_trades Datetime.min one_unit_state
              [mk_trade "ABCBTC" (flt "2") (flt "3") "2024-01-02 00:00:00"
                 true]) as [[[os ev] st']|] eqn:Hrun;
    [|vm_compute in Hrun; discriminate Hrun].
  exists os, ev, st'. split; [reflexivity|].
  destruct (other_rows_are_kept _ _ _ _ _ _ Hrun) as [Hlen Hkept].
  split.
  - rewrite Hlen. vm_compute in Hrun. now injection Hrun as <- _ _.
  - apply Hkept; [reflexivity|].
    intros t Ht. apply list_elem_of_singleton in Ht. subst t.
    vm_compute. discriminate.
Defined.

(** ** The lines of the trade file *)

Lemma read_line_cases line :
  (short line = true /\ read_line line = (None, [])) \/
  (short line = false /\ exists t, read_line line = (Some t, [])) \/
  (short line = false /\
   read_line line = (None, [Warning_malformed_line (Str.strip line)])).
Proof.
  unfold short, fields, read_line.
  destruct (Str.split "," (Str.strip line))
    as [|a [|b [|c [|d [|e [|f l]]]]]]; cbn [length Nat.ltb Nat.leb];
    try (left; now split).
  - destruct (of_string b); [destruct (of_string c)|]; eauto.
  - eauto.
Qed.

(** X6. Every line of the trade file gives one trade, or one warning, or
    has fewer than five fields and is passed over without a word. *)
Theorem lines_are_accounted lines :
  (length (fst (read_lines lines)) + length (snd (read_lines lines)) +
   length (filter (fun line => Is_true (short line)) lines) =
   length lines)%nat /\
  Forall (fun w => exists line,
            line ∈ lines /\ short line = false /\
            w = Warning_malformed_line (Str.strip line))
    (snd (read_lines lines)).
Proof.
  induction lines as [|line rest [IHn IHw]]; [now split|].
  cbn [read_lines]. destruct (read_lines rest) as [ts ws]. cbn [fst snd] in *.
  assert (Forall (fun w => exists line0,
                    line0 ∈ line :: rest /\ short line0 = false /\
                    w = Warning_malformed_line (Str.strip line0)) ws) as Hws.
  { eapply Forall_impl; [exact IHw|]. intros w (l & Hl & Hs & ->).
    exists l. split; [now right | now split]. }
  destruct (read_line_cases line)
    as [[Hs ->] | [[Hs [t ->]] | [Hs ->]]]; cbn [fst snd from_option app length].
  - rewrite filter_cons_True by now rewrite Hs. cbn [length].
    split; [lia | exact Hws].
  - rewrite filter_cons_False by now rewrite Hs. split; [lia | exact Hws].
  - rewrite filter_cons_False by now rewrite Hs. split; [lia|].
    constructor; [|exact Hws]. exists line. split; [now left | now split].
Qed.

Lemma sort_keys_bad_time trades t :
  t ∈ trades -> (forall d, Datetime.strptime (time t) <> Ok d) ->
  sort_keys trades = Raise ValueError.
Proof.
  intros Hin Hbad. destruct (sort_keys trades) as [keyed|e] eqn:Hk.
  - exfalso. destruct (sort_keys_spec _ _ Hk) as [<- Hall].
    apply list_elem_of_fmap in Hin as ([d t'] & -> & Hin).
    rewrite Forall_forall in Hall. now apply Hall, Hbad in Hin.
  - now apply sort_keys_raises in Hk as ->.
Qed.

(** X7. One timestamp that [strptime] does not take, on a line that is a
    trade otherwise, makes [_read_trade_data] raise [ValueError]: the run
    stops before it writes anything. *)
Theorem bad_timestamp_aborts io fs h lines line t :
  raw_data_file fs = Some (h :: lines) ->
  line ∈ lines ->
  read_line line = (Some t, []) ->
  (forall d, Datetime.strptime (time t) <> Ok d) ->
  _read_trade_data fs = Raise ValueError /\
  update_portfolio io fs = Raise ValueError.
Proof.
  intros Hfile Hin Hline Hbad.
  assert (_read_trade_data fs = Raise ValueError) as Hread.
  { unfold _read_trade_data. rewrite Hfile. cbn [tail].
    pose proof (read_lines_elem _ _ _ Hin Hline) as Ht.
    destruct (read_lines lines) as [trades warnings]. cbn [fst] in Ht.
    now rewrite (sort_keys_bad_time _ _ Ht Hbad). }
  split; [exact Hread|].
  unfold update_portfolio, reconcile. rewrite Hread.
  destruct (read_cutoff fs) as [c|e] eqn:Hc; cbn [bind]; [reflexivity|].
  now apply read_cutoff_raises in Hc as ->.
Qed.

Lemma bad_timestamp_aborts_witness :
  update_portfolio (mk_io None None)
    (mk_files (Some ["symbol,price,qty,time,isBuyer";
                     "XYZBTC,10,1.0,2024-01-01 00:00:01,True";
                     "XYZBTC,10,1.0,2024-02-30 00:00:01,True"])
       None None None) = Raise ValueError.
Proof.
  apply (bad_timestamp_aborts (mk_io None None) _
           "symbol,price,qty,time,isBuyer"
           ["XYZBTC,10,1.0,2024-01-01 00:00:01,True";
            "XYZBTC,10,1.0,2024-02-30 00:00:01,True"]
           "XYZBTC,10,1.0,2024-02-30 00:00:01,True"
           (mk_trade "XYZBTC" (flt "10") (flt "1.0") "2024-02-30 00:00:01"
              true)).
  - reflexivity.
  - right. now left.
  - vm_compute. reflexivity.
  - intros d Hd. vm_compute in Hd. discriminate Hd.
Defined.

(** ** Trades with the same timestamp *)

Lemma lex_leb_refl a : Datetime.lex_leb a a = true.
Proof.
  induction a as [|x a IH]; [reflexivity|]. cbn [Datetime.lex_leb].
  destruct (Nat.ltb_spec x x); [lia | exact IH].
Qed.

Lemma leb_refl a : Datetime.leb a a = true.
Proof. apply lex_leb_refl. Qed.

Lemma key_le_trans : Transitive key_le.
Proof.
  intros a b c. unfold key_le. rewrite !Is_true_true. apply leb_trans.
Qed.

(** Behind an earlier trade there is no trade of an instant up to it. *)
Lemma later_not_same (x y : Datetime.datetime * trade) l d :
  StronglySorted key_le (y :: l) ->
  Datetime.leb (fst y) (fst x) = false ->
  same_instant (fst x) d = true ->
  filter (fun kt : Datetime.datetime * trade =>
            Is_true (same_instant (fst kt) d)) (y :: l) = [].
Proof.
  intros Hs Hyx [Hxd Hdx]%andb_prop.
  apply StronglySorted_inv in Hs as [_ Hall].
  assert (Forall (fun z : Datetime.datetime * trade =>
            ~ Is_true (same_instant (fst z) d)) (y :: l)) as Hno.
  { assert (forall z : Datetime.datetime * trade,
              key_le y z -> ~ Is_true (same_instant (fst z) d)) as Hz.
    { intros z Hyz [Hzd _]%Is_true_true%andb_prop.
      apply Is_true_true in Hyz.
      rewrite (leb_trans _ _ _ Hyz (leb_trans _ _ _ Hzd Hdx)) in Hyx.
      discriminate. }
    constructor.
    - apply Hz. unfold key_le. now rewrite leb_refl.
    - eapply Forall_impl; [exact Hall | exact Hz]. }
  clear -Hno. induction Hno as [|z l' Hz _ IH]; [reflexivity|].
  now rewrite filter_cons_False.
Qed.

Lemma filter_insert_sorted x l d :
  Sorted key_le l ->
  filter (fun kt : Datetime.datetime * trade =>
            Is_true (same_instant (fst kt) d)) (insert_sorted x l) =
    filter (fun kt : Datetime.datetime * trade =>
            Is_true (same_instant (fst kt) d)) (l ++ [x]).
Proof.
  intros Hs0.
  assert (StronglySorted key_le l) as Hs
    by (apply Sorted_StronglySorted; [exact key_le_trans | exact Hs0]).
  clear Hs0. induction l as [|y l IH]; [reflexivity|].
  cbn [insert_sorted app].
  destruct (Datetime.leb (fst y) (fst x)) eqn:Hyx.
  - rewrite !(filter_cons _ y), IH; [reflexivity|].
    now apply StronglySorted_inv in Hs.
  - change (y :: l ++ [x]) with ((y :: l) ++ [x]). rewrite filter_app.
    destruct (same_instant (fst x) d) eqn:Hx.
    + rewrite (later_not_same x y l d Hs Hyx Hx).
      rewrite (filter_cons_True _ x (y :: l)) by (cbn beta; now rewrite Hx).
      rewrite (later_not_same x y l d Hs Hyx Hx).
      rewrite (filter_cons_True _ x []) by (cbn beta; now rewrite Hx).
      reflexivity.
    + rewrite (filter_cons_False _ x (y :: l)) by (cbn beta; now rewrite Hx).
      rewrite (filter_cons_False _ x []) by (cbn beta; now rewrite Hx).
      now rewrite filter_nil, app_nil_r.
Qed.

Lemma filter_sort_by_time l d :
  filter (fun kt : Datetime.datetime * trade =>
            Is_true (same_instant (fst kt) d)) (sort_by_time l) =
    filter (fun kt : Datetime.datetime * trade =>
            Is_true (same_instant (fst kt) d)) l.
Proof.
  unfold sort_by_time.
  enough (forall acc, Sorted key_le acc ->
            filter (fun kt : Datetime.datetime * trade =>
            Is_true (same_instant (fst kt) d))
              (foldl (fun acc x => insert_sorted x acc) acc l) =
            filter (fun kt : Datetime.datetime * trade =>
            Is_true (same_instant (fst kt) d)) (acc ++ l))
    as H by exact (H [] (Sorted_nil _)).
  induction l as [|x l IH]; intros acc Hacc; cbn [foldl].
  - now rewrite app_nil_r.
  - rewrite IH by now apply insert_sorted_Sorted.
    rewrite !filter_app, filter_insert_sorted by exact Hacc.
    rewrite filter_app, <- app_assoc. f_equal.
    change (x :: l) with ([x] ++ l). now rewrite filter_app.
Qed.

Lemma filter_stamped_keyed d (l : list (Datetime.datetime * trade)) :
  Forall (fun kt => Datetime.strptime (time (snd kt)) = Ok (fst kt)) l ->
  filter (fun t => Is_true (stamped d t)) (snd <$> l) =
    snd <$> filter (fun kt : Datetime.datetime * trade =>
            Is_true (same_instant (fst kt) d)) l.
Proof.
  induction 1 as [|kt l Hkt _ IH]; [reflexivity|]. cbn [fmap list_fmap].
  assert (stamped d (snd kt) = same_instant (fst kt) d) as Hst
    by (unfold stamped; now rewrite Hkt).
  destruct (same_instant (fst kt) d) eqn:Hs.
  - rewrite !filter_cons_True by (cbn beta; now rewrite ?Hst, ?Hs).
    cbn [fmap list_fmap]. now rewrite IH.
  - rewrite !filter_cons_False by (cbn beta; now rewrite ?Hst, ?Hs).
    exact IH.
Qed.

(** X8. [_read_trade_data] keeps the trades of one timestamp in the order
    of their lines: the sort is stable. *)
Theorem equal_timestamps_keep_file_order fs trades warnings d :
  _read_trade_data fs = Ok (trades, warnings) ->
  filter (fun t => Is_true (stamped d t)) trades =
    filter (fun t => Is_true (stamped d t))
      (fst (read_lines (tail (default [] (raw_data_file fs))))).
Proof.
  unfold _read_trade_data.
  assert (match raw_data_file fs with
          | Some lines => read_lines (tail lines)
          | None => ([], [])
          end = read_lines (tail (default [] (raw_data_file fs)))) as ->
    by now destruct (raw_data_file fs).
  destruct (read_lines _) as [raw ws]. cbn [fst].
  destruct (sort_keys raw) as [keyed|] eqn:Hk; [cbn [bind]|discriminate].
  intros [= <- <-]. destruct (sort_keys_spec _ _ Hk) as [<- Hall].
  rewrite !filter_stamped_keyed, filter_sort_by_time; [reflexivity | exact Hall |].
  destruct (sort_by_time_spec keyed) as [_ Hperm]. now rewrite Hperm.
Qed.

Lemma equal_timestamps_keep_file_order_witness :
  filter (fun t => Is_true (stamped (Datetime.mk 2024 1 1 0 0 2) t))
    [mk_trade "CCC" (flt "1") (flt "1") "2024-01-01 00:00:01" true;
     mk_trade "BBB" (flt "1") (flt "1") "2024-01-01 00:00:02" true;
     mk_trade "AAA" (flt "1") (flt "1") "2024-01-01  00:00:02" true] =
  [mk_trade "BBB" (flt "1") (flt "1") "2024-01-01 00:00:02" true;
   mk_trade "AAA" (flt "1") (flt "1") "2024-01-01  00:00:02" true].
Proof.
  rewrite (equal_timestamps_keep_file_order
             (mk_files
                (Some ["symbol,price,qty,time,isBuyer";
                       "BBB,1,1,2024-01-01 00:00:02,True";
                       "AAA,1,1,2024-01-01  00:00:02,True";
                       "CCC,1,1,2024-01-01 00:00:01,True"])
                None None None) _ []);
    [|vm_compute; reflexivity].
  vm_compute. reflexivity.
Defined.

(** ** The time of the last trade *)

Lemma length_append (a b : string) :
  String.length (a +:+ b) = (String.length a + String.length b)%nat.
Proof.
  induction a as [|c a IH]; [reflexivity|].
  rewrite append_cons. cbn [String.length]. now rewrite IH.
Qed.

Lemma length_pad k n : String.length (Datetime.pad k n) = k.
Proof.
  unfold Datetime.pad, frac_text.
  generalize (Decimal.rev (low_digits k (N.of_nat n))),
    (nb_digits_rev (low_digits k (N.of_nat n))).
  rewrite nb_digits_low_digits. intros u <-.
  induction u; cbn; congruence.
Qed.

Lemma length_strftime d :
  Datetime.valid d = true -> (1000 <= Datetime.year d)%nat ->
  String.length (Datetime.strftime d) = 19%nat.
Proof.
  intros Hvalid Hyear. rewrite (strftime_padded d Hvalid Hyear).
  rewrite !length_append, !length_pad. reflexivity.
Qed.

(** X9. An accepted trade, of the year 1000 or later, leaves its
    timestamp in the row of its symbol, on the 19 characters of
    [strftime], however the line of the trade spelled it; [strptime] reads
    that text back as the same timestamp. *)
Theorem last_trade_time_is_canonical cutoff_date st t tx_date o ev st' :
  Datetime.strptime (time t) = Ok tx_date ->
  (1000 <= N.of_nat (Datetime.year tx_date))%N ->
  process_trade cutoff_date st t = Ok (o, ev, st') ->
  accepted o = true ->
  exists i r,
    bound_to st' (symbol t) i r /\
    r !! 3%nat = Some (Datetime.strftime tx_date) /\
    String.length (Datetime.strftime tx_date) = 19%nat /\
    Datetime.strptime (Datetime.strftime tx_date) = Ok tx_date.
Proof.
  intros Hdate Hyear H Hacc.
  destruct (process_trade_step _ _ _ _ _ _ H)
    as (d & Hd & [(-> & _) | [_ Ha]]); [discriminate Hacc|].
  rewrite Hdate in Hd. injection Hd as <-.
  pose proof (strptime_valid _ _ Hdate) as Hvalid.
  assert (1000 <= Datetime.year tx_date)%nat as Hyear' by lia.
  pose proof (strptime_strftime _ Hvalid Hyear') as Hback.
  pose proof (length_strftime _ Hvalid Hyear') as Hlength.
  destruct (apply_trade_step _ _ _ _ _ _ Ha)
    as [(-> & _) | [(_ & i & r & r' & Hi & Hrow & _ & H3 & ->)
                   | (_ & Hnone & ->)]]; [discriminate Hacc | |].
  - exists i, r'. split; [|now split; [|split]].
    split; cbn [portfolio_map sheet_rows]; [exact Hi|].
    apply list_lookup_insert_eq. now apply lookup_lt_Some in Hrow.
  - exists (length (sheet_rows st)), (opening_row t tx_date).
    split; [|now split; [|split]].
    split; cbn [portfolio_map sheet_rows].
    + apply lookup_insert_eq.
    + rewrite lookup_app_r by lia. now rewrite Nat.sub_diag.
Qed.

Lemma last_trade_time_is_canonical_witness :
  exists i r,
    bound_to
      (mk_state
         [header;
          ["XYZBTC"; "10,00000000"; "1,00000000"; "2024-01-05 07:03:09";
           "10,00000000"; "0,00000000"]]
         {["XYZBTC" := 1%nat]} {["XYZBTC"]}) "XYZBTC" i r /\
    r !! 3%nat = Some "2024-01-05 07:03:09".
Proof.
  destruct (last_trade_time_is_canonical Datetime.min fresh_state
              (mk_trade "XYZBTC" (flt "10") (flt "1") "2024-1-5  7:03:09"
                 true)
              (Datetime.mk 2024 1 5 7 3 9) Created []
              (mk_state
                 [header;
                  ["XYZBTC"; "10,00000000"; "1,00000000";
                   "2024-01-05 07:03:09"; "10,00000000"; "0,00000000"]]
                 {["XYZBTC" := 1%nat]} {["XYZBTC"]}))
    as (i & r & Hbound & Hr & _);
    [vm_compute; reflexivity | vm_compute; discriminate
    | vm_compute; reflexivity | reflexivity |].
  exists i, r. split; [exact Hbound | exact Hr].
Defined.

(** ** The report of the modified symbols *)

Lemma str_leb_total a : forall b, Str.leb a b = false -> Str.leb b a = true.
Proof.
  induction a as [|x a IH]; intros [|y b]; cbn [Str.leb]; try easy.
  destruct (N.ltb_spec (N_of_ascii x) (N_of_ascii y)),
    (N.ltb_spec (N_of_ascii y) (N_of_ascii x)); try easy; try lia.
  apply IH.
Qed.

Lemma str_leb_trans a : forall b c,
  Str.leb a b = true -> Str.leb b c = true -> Str.leb a c = true.
Proof.
  induction a as [|x a IH]; intros [|y b] [|z c]; cbn [Str.leb]; try easy.
  destruct (N.ltb_spec (N_of_ascii x) (N_of_ascii y)),
    (N.ltb_spec (N_of_ascii y) (N_of_ascii x)),
    (N.ltb_spec (N_of_ascii y) (N_of_ascii z)),
    (N.ltb_spec (N_of_ascii z) (N_of_ascii y)),
    (N.ltb_spec (N_of_ascii x) (N_of_ascii z)),
    (N.ltb_spec (N_of_ascii z) (N_of_ascii x)); try easy; try lia.
  apply IH.
Qed.

Lemma str_le_total : Total str_le.
Proof.
  intros a b. unfold str_le. destruct (Str.leb a b) eqn:Hab; [now left|].
  right. now rewrite (str_leb_total _ _ Hab).
Qed.

Lemma str_le_trans : Transitive str_le.
Proof.
  intros a b c. unfold str_le. rewrite !Is_true_true. apply str_leb_trans.
Qed.

(** X10. The report [update_portfolio] writes names the symbols that had an
    accepted trade in the run, and no other, each once, in the order of
    [sorted], with a comma and a space between them. *)
Theorem report_lists_accepted_symbols io fs fs' ev :
  modified_write_error io = None ->
  update_portfolio io fs = Ok (fs', ev) ->
  exists cutoff_date trades warnings st os ev' st' names,
    read_cutoff fs = Ok cutoff_date /\
    _read_trade_data fs = Ok (trades, warnings) /\
    load fs = Ok st /\
    process_trades cutoff_date st trades = Ok (os, ev', st') /\
    modified_log_file fs' = Some (Str.join ", " names) /\
    StronglySorted str_le names /\ NoDup names /\
    forall s, s ∈ names <-> exists k t, accepted_at trades os k t /\ symbol t = s.
Proof.
  intros Hio. unfold update_portfolio, reconcile.
  destruct (read_cutoff fs) as [c|]; [cbn [bind]|discriminate].
  destruct (_read_trade_data fs) as [[trades w]|]; [cbn [bind]|discriminate].
  destruct (load fs) as [st|] eqn:Hl; [cbn [bind]|discriminate].
  destruct (process_trades c st trades) as [[[os ev'] st']|] eqn:Hp;
    [cbn [bind]|discriminate].
  unfold persist. rewrite Hio.
  destruct (portfolio_write_error io); intros [= <- <-];
    exists c, trades, w, st, os, ev', st',
      (merge_sort str_le (elements (modified_symbols st')));
    (do 5 (split; [first [reflexivity | exact Hp]|]));
    (split; [exact (@StronglySorted_merge_sort _ str_le _ str_le_trans
                      str_le_total _)|]);
    (split; [rewrite merge_sort_Permutation; apply NoDup_elements|]);
    intros s; rewrite merge_sort_Permutation, elem_of_elements;
    (split;
     [intros Hs;
      destruct (process_trades_modified_inv _ _ _ _ _ _ _ Hp Hs) as [H0|H0];
      [|exact H0];
      rewrite (load_modified_symbols _ _ Hl) in H0;
      now apply elem_of_empty in H0
     |intros (k & t & (Hk & o' & Ho & Hacc) & <-);
      now apply (proj2 (process_trades_modified _ _ _ _ _ _ Hp) k t o')]).
Qed.

Lemma report_lists_accepted_symbols_witness :
  exists names,
    Some "XYZBTC" = Some (Str.join ", " names) /\ NoDup names.
Proof.
  destruct (report_lists_accepted_symbols (mk_io None None) scenario_files
              (mk_files (raw_data_file scenario_files)
                 (Some (sheet_rows scenario_end)) None (Some "XYZBTC"))
              [Info_processing 4;
               Warning_sell_exceeds "XYZBTC" (flt "5") (flt "1");
               Info_portfolio_updated; Info_change_log_saved])
    as (c & trades & w & st & os & ev' & st' & names & _ & _ & _ & _ &
        Hlog & _ & Hnd & _);
    [reflexivity | vm_compute; reflexivity |].
  exists names. split; [exact Hlog | exact Hnd].
Defined.

(** ** Texts with more than one separator *)

Lemma count_chars_append p (a b : string) :
  count_chars p (a +:+ b) = (count_chars p a + count_chars p b)%nat.
Proof.
  induction a as [|c a IH]; [reflexivity|].
  rewrite append_cons. cbn [count_chars]. rewrite IH. lia.
Qed.

Lemma count_chars_lstrip p s :
  (forall c, p c = true -> Str.isspace c = false) ->
  count_chars p (Str.lstrip s) = count_chars p s.
Proof.
  intros Hp. induction s as [|c s IH]; [reflexivity|]. cbn [Str.lstrip].
  destruct (Str.isspace c) eqn:Hc; [|reflexivity].
  cbn [count_chars]. rewrite IH.
  destruct (p c) eqn:Hpc; [|reflexivity]. apply Hp in Hpc. congruence.
Qed.

Lemma count_chars_rstrip p s :
  (forall c, p c = true -> Str.isspace c = false) ->
  count_chars p (Str.rstrip s) = count_chars p s.
Proof.
  intros Hp. induction s as [|c s IH]; [reflexivity|]. cbn [Str.rstrip].
  destruct (Str.rstrip s) as [|c' r] eqn:Hr.
  - cbn [count_chars] in *. rewrite <- IH.
    destruct (Str.isspace c) eqn:Hc; [|reflexivity].
    destruct (p c) eqn:Hpc; [|reflexivity]. apply Hp in Hpc. congruence.
  - cbn [count_chars] in *. now rewrite IH.
Qed.

Lemma count_chars_strip p s :
  (forall c, p c = true -> Str.isspace c = false) ->
  count_chars p (Str.strip s) = count_chars p s.
Proof.
  intros Hp. unfold Str.strip.
  now rewrite count_chars_rstrip, count_chars_lstrip.
Qed.

Lemma count_chars_skip_left p s :
  (forall c, p c = true -> Str.isspace c = false) ->
  count_chars p (skip_left s) = count_chars p s.
Proof.
  intros Hp. induction s as [|c s IH]; [reflexivity|]. cbn [skip_left].
  destruct (is_space c) eqn:Hc; [|reflexivity].
  cbn [count_chars]. rewrite IH.
  destruct (p c) eqn:Hpc; [|reflexivity].
  apply Hp in Hpc. apply is_space_isspace in Hc. congruence.
Qed.

Lemma count_chars_skip_right p s :
  (forall c, p c = true -> Str.isspace c = false) ->
  count_chars p (skip_right s) = count_chars p s.
Proof.
  intros Hp. induction s as [|c s IH]; [reflexivity|]. cbn [skip_right].
  destruct (skip_right s) as [|c' r] eqn:Hr.
  - cbn [count_chars] in *. rewrite <- IH.
    destruct (is_space c) eqn:Hc; [|reflexivity].
    destruct (p c) eqn:Hpc; [|reflexivity].
    apply Hp in Hpc. apply is_space_isspace in Hc. congruence.
  - cbn [count_chars] in *. now rewrite IH.
Qed.

Lemma count_chars_trim p s :
  (forall c, p c = true -> Str.isspace c = false) ->
  count_chars p (trim s) = count_chars p s.
Proof.
  intros Hp. unfold trim.
  now rewrite count_chars_skip_right, count_chars_skip_left.
Qed.

Lemma is_point_not_space c : is_point c = true -> Str.isspace c = false.
Proof. unfold is_point. now intros ->%Ascii.eqb_eq. Qed.

Lemma is_separator_not_space c :
  is_separator c = true -> Str.isspace c = false.
Proof.
  unfold is_separator. now intros [->%Ascii.eqb_eq | ->%Ascii.eqb_eq]%orb_prop.
Qed.

Lemma is_comma_not_space c : is_comma c = true -> Str.isspace c = false.
Proof. unfold is_comma. now intros ->%Ascii.eqb_eq. Qed.

Lemma points_replace s :
  count_chars is_point (Str.replace "," "." s) = count_chars is_separator s.
Proof.
  induction s as [|c s IH]; [reflexivity|].
  cbn [Str.replace count_chars]. rewrite IH. f_equal.
  unfold is_point, is_separator.
  destruct (Ascii.eqb_spec c ",") as [->|Hc]; [reflexivity|].
  now rewrite orb_false_r.
Qed.

(** The characters of a numeral: what the grammar of [float] leaves for a
    character that is no digit, no underscore, no sign and no letter. *)
Section Numeral.

Variable p : ascii -> bool.
Hypothesis p_digit : forall c, is_digit c = true -> p c = false.
Hypothesis p_underscore : p "_" = false.
Hypothesis p_plus : p "+" = false.
Hypothesis p_minus : p "-" = false.
Hypothesis p_letter : forall c, p (Str.lower_char c) = p c.
Hypothesis p_e : p "e" = false.
Hypothesis p_inf : count_chars p "infinity" = 0%nat.
Hypothesis p_nan : count_chars p "nan" = 0%nat.

Lemma count_lower s : count_chars p (Str.lower s) = count_chars p s.
Proof.
  induction s as [|c s IH]; [reflexivity|].
  cbn [Str.lower count_chars]. now rewrite IH, p_letter.
Qed.

Lemma span_digitpart_count s : forall a b,
  span_digitpart s = (a, b) -> s = a +:+ b /\ count_chars p a = 0%nat.
Proof.
  induction s as [|c s IH]; intros a b; cbn [span_digitpart].
  - now intros [= <- <-].
  - destruct (is_digit c || Ascii.eqb c "_") eqn:Hc.
    + destruct (span_digitpart s) as [a' b'] eqn:Hs. intros [= <- <-].
      destruct (IH _ _ eq_refl) as [-> Ha]. split; [now rewrite append_cons|].
      cbn [count_chars]. rewrite Ha.
      apply orb_prop in Hc as [Hc | ->%Ascii.eqb_eq].
      * now rewrite p_digit.
      * now rewrite p_underscore.
    + now intros [= <- <-].
Qed.

Lemma digitpart_count s : forall after_digit d,
  digitpart after_digit s = Some d -> count_chars p s = 0%nat.
Proof.
  induction s as [|c s IH]; intros after_digit d; [reflexivity|].
  cbn [digitpart count_chars].
  destruct (is_digit c) eqn:Hd.
  - rewrite p_digit by exact Hd.
    destruct (digitpart true s) eqn:Hs; [|discriminate].
    intros _. now rewrite (IH _ _ Hs).
  - destruct (Ascii.eqb_spec c "_") as [->|]; [|discriminate].
    destruct after_digit; [|discriminate]. cbn [andb].
    rewrite p_underscore. intros Hs. now rewrite (IH _ _ Hs).
Qed.

Lemma digits_of_count s u : digits_of s = Some u -> count_chars p s = 0%nat.
Proof.
  destruct s as [|c s]; [reflexivity|]. unfold digits_of.
  destruct (digitpart false (String c s)) eqn:Hd; [|discriminate].
  intros _. now apply digitpart_count in Hd.
Qed.

Lemma take_sign_count s b r :
  take_sign s = (b, r) -> count_chars p r = count_chars p s.
Proof.
  unfold take_sign. destruct s as [|c s]; [now intros [= <- <-]|].
  destruct (Ascii.eqb_spec c "-") as [->|Hm];
    [intros [= <- <-]; cbn [count_chars]; now rewrite p_minus|].
  destruct (Ascii.eqb_spec c "+") as [->|Hp];
    [intros [= <- <-]; cbn [count_chars]; now rewrite p_plus|].
  revert Hm Hp. ascii_cases c; intros; try congruence;
    match goal with H : _ = (b, r) |- _ => now injection H as <- <- end.
Qed.

Lemma exponent_count s e : exponent s = Some e -> count_chars p s = 0%nat.
Proof.
  destruct s as [|c s]; [reflexivity|]. cbn [exponent count_chars].
  destruct (Ascii.eqb_spec (Str.lower_char c) "e") as [Hc|]; [|discriminate].
  destruct (take_sign s) as [b r] eqn:Hs.
  apply take_sign_count in Hs as <-.
  destruct r as [|c' r]; [discriminate|].
  destruct (digits_of (String c' r)) eqn:Hd; [|discriminate].
  intros _. rewrite (digits_of_count _ _ Hd).
  now rewrite <- p_letter, Hc, p_e.
Qed.

Lemma number_count negative s l :
  number negative s = Some l ->
  (count_chars p s <= if p "." then 1 else 0)%nat.
Proof.
  unfold number.
  destruct (span_digitpart s) as [ip r1] eqn:H1.
  destruct (span_digitpart_count _ _ _ H1) as [-> Hip].
  rewrite count_chars_append, Hip.
  assert (exists dot r2,
            match r1 with
            | String "." r => (true, r)
            | _ => (false, r1)
            end = (dot, r2) /\
            count_chars p r1 =
              ((if dot then if p "." then 1 else 0 else 0)
               + count_chars p r2)%nat)
    as (dot & r2 & -> & ->).
  { destruct r1 as [|c r]; [now exists false, EmptyString|].
    destruct (Ascii.eqb_spec c ".") as [->|Hc].
    - now exists true, r.
    - exists false, (String c r). split; [|reflexivity].
      revert Hc. ascii_cases c. congruence. }
  assert (forall (r3 : string) (k : nat) (iu fu : option Decimal.uint),
            (iu ≫= fun iu =>
             fu ≫= fun fu =>
             exponent r3 ≫= fun e =>
             Some (LitDec negative (N.of_uint (Decimal.app iu fu))
                     (e - Z.of_nat (Decimal.nb_digits fu)))) = Some l ->
            (k <= if p "." then 1 else 0)%nat ->
            (0 + (k + count_chars p r3) <= if p "." then 1 else 0)%nat)
    as Hend.
  { intros r3 k [iu|] [fu|]; cbn [mbind option_bind]; try discriminate.
    destruct (exponent r3) eqn:He; [|discriminate].
    intros _. rewrite (exponent_count _ _ He). lia. }
  destruct dot.
  - destruct (span_digitpart r2) as [fp r3] eqn:H2.
    destruct (span_digitpart_count _ _ _ H2) as [-> Hfp].
    rewrite count_chars_append, Hfp.
    destruct ip, fp; try discriminate; intros H;
      apply (Hend r3 _ _ _ H); lia.
  - destruct ip; [discriminate|]. intros H.
    apply (Hend r2 0%nat _ _ H). lia.
Qed.

Lemma lex_count s l :
  lex s = Some l -> (count_chars p s <= if p "." then 1 else 0)%nat.
Proof.
  unfold lex. destruct (take_sign s) as [b r] eqn:Hs.
  apply take_sign_count in Hs as <-. rewrite <- count_lower.
  assert (count_chars p "inf" = 0%nat) as Hinf.
  { revert p_inf. cbn [count_chars]. lia. }
  destruct (String.eqb_spec (Str.lower r) "inf") as [->|_];
    [rewrite Hinf; lia|].
  destruct (String.eqb_spec (Str.lower r) "infinity") as [->|_];
    [rewrite p_inf; lia|].
  cbn [orb].
  destruct (String.eqb_spec (Str.lower r) "nan") as [->|_];
    [rewrite p_nan; lia|].
  rewrite count_lower. apply number_count.
Qed.

End Numeral.

Lemma lex_points s l : lex s = Some l -> (count_chars is_point s <= 1)%nat.
Proof.
  intros H. apply (lex_count is_point) in H; try reflexivity; [exact H| |].
  - intros c. unfold is_point. ascii_cases c.
  - intros c. unfold is_point, Str.lower_char. ascii_cases c.
Qed.

Lemma lex_no_comma s l : lex s = Some l -> no_comma s.
Proof.
  intros H. apply (lex_count is_comma) in H; try reflexivity.
  - unfold no_comma. change (is_comma ".") with false in H. cbv iota in H.
    lia.
  - intros c. unfold is_comma. ascii_cases c.
  - intros c. unfold is_comma, Str.lower_char. ascii_cases c.
Qed.

(** X11. [_safe_float] takes one decimal separator at most: a text with
    two points or commas, such as the thousands of [1.234,56], raises
    [ValueError]. *)
Theorem safe_float_rejects_two_separators text :
  (2 <= count_chars is_separator text)%nat ->
  _safe_float text = Raise ValueError.
Proof.
  intros Htwo. unfold _safe_float.
  rewrite <- (count_chars_strip _ _ is_separator_not_space) in Htwo.
  destruct (Str.strip text) as [|c s] eqn:Hs; [cbn in Htwo; lia|].
  rewrite <- points_replace in Htwo.
  rewrite <- (count_chars_trim _ _ is_point_not_space) in Htwo.
  unfold of_string.
  destruct (lex _) eqn:Hl; [|reflexivity].
  apply lex_points in Hl. lia.
Qed.

Lemma safe_float_rejects_two_separators_witness :
  _safe_float "1.234,56" = Raise ValueError.
Proof.
  apply safe_float_rejects_two_separators. vm_compute. lia.
Defined.

(** A numeral [float] takes holds no comma. *)
Lemma of_string_no_comma s x : of_string s = Ok x -> no_comma s.
Proof.
  unfold of_string. destruct (lex (trim s)) eqn:Hl; [|discriminate].
  intros _. apply lex_no_comma in Hl. unfold no_comma in *.
  now rewrite (count_chars_trim _ _ is_comma_not_space) in Hl.
Qed.

(** ** The local time of a trade *)

Lemma month_days_ok :
  forallb (fun n => month_day_ok false (Z.of_N n) &&
                    month_day_ok true (Z.of_N n)) (below 365) = true.
Proof. vm_compute. reflexivity. Qed.

Lemma month_day_in_year leapyear n :
  0 <= n < 365 -> month_day_ok leapyear n = true.
Proof.
  intros Hn. pose proof month_days_ok as Hall.
  rewrite forallb_forall in Hall.
  specialize (Hall (Z.to_N n)). rewrite Z2N.id in Hall by lia.
  apply andb_prop in Hall; [|apply list_elem_of_In, elem_of_below; lia].
  now destruct leapyear.
Qed.

Lemma is_leap_Z y :
  0 <= y ->
  Datetime.is_leap (Z.to_nat y) =
  (y mod 4 =? 0) && negb (y mod 100 =? 0) || (y mod 400 =? 0).
Proof.
  intros Hy. unfold Datetime.is_leap.
  assert (forall k, 0 < k ->
            (Z.to_nat y mod Z.to_nat k =? 0)%nat = (y mod k =? 0)) as Hmod.
  { intros k Hk. rewrite <- Z2Nat.inj_mod by lia.
    destruct (Z.eqb_spec (y mod k) 0) as [->|Hne]; [reflexivity|].
    apply Nat.eqb_neq. pose proof (Z.mod_pos_bound y k Hk). lia. }
  now rewrite <- (Hmod 4), <- (Hmod 100), <- (Hmod 400) by lia.
Qed.

Lemma days_in_month_Z y m leapyear :
  0 <= y -> 1 <= m <= 12 ->
  Datetime.is_leap (Z.to_nat y) = leapyear ->
  Z.of_nat (Datetime.days_in_month (Z.to_nat y) (Z.to_nat m)) =
  Extractor._DAYS_IN_MONTH m + (if (m =? 2) && leapyear then 1 else 0).
Proof.
  intros Hy Hm <-.
  assert (m = 1 \/ m = 2 \/ m = 3 \/ m = 4 \/ m = 5 \/ m = 6 \/ m = 7 \/
          m = 8 \/ m = 9 \/ m = 10 \/ m = 11 \/ m = 12) as Hcases by lia.
  repeat destruct Hcases as [->|Hcases]; try subst m;
    unfold Datetime.days_in_month;
    destruct (Datetime.is_leap (Z.to_nat y)); reflexivity.
Qed.

Lemma ord2ymd_valid n :
  1 <= n <= Extractor._MAXORDINAL ->
  exists y m d,
    Extractor._ord2ymd n = (y, m, d) /\
    1 <= y <= 9999 /\ 400 * ((n - 1) / 146097) <= y /\
    1 <= m <= 12 /\ 1 <= d /\
    d <= Z.of_nat (Datetime.days_in_month (Z.to_nat y) (Z.to_nat m)).
Proof.
  unfold Extractor._MAXORDINAL. intros Hn. unfold Extractor._ord2ymd.
  cbv zeta.
  set (n400 := (n - 1) / 146097). set (r400 := (n - 1) mod 146097).
  set (n100 := r400 / 36524). set (r100 := r400 mod 36524).
  set (n4 := r100 / 1461). set (r4 := r100 mod 1461).
  set (n1 := r4 / 365). set (r1 := r4 mod 365).
  assert (0 <= n400 <= 24 /\ 0 <= n100 <= 4 /\ 0 <= n4 <= 24 /\
          0 <= n1 <= 4 /\ 0 <= r1 < 365 /\
          n - 1 = 146097 * n400 + 36524 * n100 + 1461 * n4 + 365 * n1 + r1)
    as (H400 & H100 & H4 & H1 & Hr1 & Hsum).
  { subst n400 r400 n100 r100 n4 r4 n1 r1. Z.div_mod_to_equations. lia. }
  clearbody n400 r400 n100 r100 n4 r4 n1 r1.
  destruct ((n1 =? 4) || (n100 =? 4)) eqn:Hend.
  - eexists _, _, _. split; [reflexivity|].
    change (Z.to_nat 12) with 12%nat. cbn [Datetime.days_in_month].
    apply orb_prop in Hend. lia.
  - apply orb_false_elim in Hend. destruct Hend as [Hn1 Hn100].
    apply Z.eqb_neq in Hn1, Hn100.
    set (year := n400 * 400 + 1 + n100 * 100 + n4 * 4 + n1).
    set (leapyear := (n1 =? 3) && (negb (n4 =? 24) || (n100 =? 3))).
    assert (Datetime.is_leap (Z.to_nat year) = leapyear) as Hleap.
    { rewrite is_leap_Z by lia. subst year leapyear.
      destruct (Z.eqb_spec n1 3), (Z.eqb_spec n4 24), (Z.eqb_spec n100 3),
        (Z.eqb_spec ((n400 * 400 + 1 + n100 * 100 + n4 * 4 + n1) mod 4) 0),
        (Z.eqb_spec ((n400 * 400 + 1 + n100 * 100 + n4 * 4 + n1) mod 100) 0),
        (Z.eqb_spec ((n400 * 400 + 1 + n100 * 100 + n4 * 4 + n1) mod 400) 0);
        try reflexivity; exfalso; Z.div_mod_to_equations; lia. }
    pose proof (month_day_in_year leapyear r1 Hr1) as Hmd.
    unfold month_day_ok in Hmd. cbv zeta in Hmd.
    destruct (r1 <? _) in Hmd |- *.
    all: apply andb_prop in Hmd; destruct Hmd as [Hmd Hd2];
      apply andb_prop in Hmd; destruct Hmd as [Hmd Hd1];
      apply andb_prop in Hmd; destruct Hmd as [Hm1 Hm2];
      eexists _, _, _; (split; [reflexivity|]);
      rewrite (days_in_month_Z _ _ leapyear) by (try exact Hleap; lia);
      lia.
Qed.

Lemma to_datetime_valid days second :
  1 <= days <= Extractor._MAXORDINAL -> 0 <= second < 86400 ->
  Datetime.valid (Extractor.to_datetime (days, second)) = true /\
  400 * ((days - 1) / 146097) <=
    Z.of_nat (Datetime.year (Extractor.to_datetime (days, second))).
Proof.
  intros Hdays Hsec. unfold Extractor.to_datetime.
  destruct (ord2ymd_valid days Hdays)
    as (y & m & d & -> & Hy & Hlow & Hm & Hd1 & Hd2).
  unfold Datetime.valid.
  cbn [Datetime.year Datetime.month Datetime.day Datetime.hour
       Datetime.minute Datetime.second].
  split; [|lia].
  assert (0 <= second / 3600 <= 23 /\ 0 <= second mod 3600 / 60 <= 59 /\
          0 <= second mod 60 <= 59) as (Hh & Hmi & Hs)
    by (Z.div_mod_to_equations; lia).
  repeat (apply andb_true_intro; split);
    first [apply Nat.leb_le | apply N.leb_le]; lia.
Qed.

Lemma div_1000_signed time_in_ms x :
  0 <= time_in_ms -> Extractor.div_1000 time_in_ms = Some x ->
  signed false x.
Proof.
  intros Hms. unfold Extractor.div_1000.
  destruct time_in_ms as [|p|p]; [| |lia].
  - now intros [= <-].
  - assert (signed false
              (SFdiv prec emax (S754_finite false p 0)
                 (S754_finite false 1000 0))) as Hs.
    { unfold SFdiv.
      match goal with
      | |- context [SFdiv_core_binary ?p ?x ?a ?b ?c ?d] =>
          destruct (SFdiv_core_binary p x a b c d) as [[mz ez] lz]
      end.
      apply binary_round_aux_signed. }
    destruct (SFdiv _ _ _ _); try discriminate; now intros [= <-].
Qed.

Lemma trunc_signed x : signed false x -> 0 <= Extractor.trunc x.
Proof.
  destruct x as [s|s| |s m e]; cbn [signed Extractor.trunc]; try lia.
  intros ->. destruct e as [|e|e]; cbn [cond_Zopp]; [lia|lia|].
  apply Z.div_pos; lia.
Qed.

Lemma to_timeval_seconds x :
  Extractor.trunc x - 1 <= fst (Extractor.to_timeval x).
Proof.
  unfold Extractor.to_timeval. cbv zeta.
  destruct (1000000 <=? _); [cbn [fst]; lia|].
  destruct (_ <? 0); cbn [fst]; lia.
Qed.

Lemma convert_timezone_strftime time_in_ms s :
  0 <= time_in_ms ->
  Extractor.convert_timezone time_in_ms = Some s ->
  exists d,
    s = Datetime.strftime d /\
    Datetime.valid d = true /\
    (1000 <= N.of_nat (Datetime.year d))%N /\
    Datetime.strptime s = Ok d.
Proof.
  intros Hms. unfold Extractor.convert_timezone.
  destruct (Extractor.div_1000 time_in_ms) as [x|] eqn:Hx; [|discriminate].
  cbn [mbind option_bind].
  pose proof (trunc_signed _ (div_1000_signed _ _ Hms Hx)) as Htrunc.
  pose proof (to_timeval_seconds x) as Hsec.
  unfold Extractor.utc_fromtimestamp.
  destruct (Extractor.to_timeval x) as [sec us]. cbn [fst] in Hsec.
  destruct ((1 <=? sec / 86400 + Extractor.epoch) && _) eqn:Hrange;
    [|discriminate].
  cbn [mbind option_bind]. unfold Extractor.astimezone.
  set (total := (sec / 86400 + Extractor.epoch) * 86400 + sec mod 86400
                - 3 * 3600).
  destruct ((0 <? total / 86400) && _) eqn:Hlocal; [|discriminate].
  cbn [mbind option_bind]. intros [= <-].
  apply andb_prop in Hlocal. destruct Hlocal as [Hl1 Hl2].
  apply Z.ltb_lt in Hl1. apply Z.leb_le in Hl2.
  assert (0 <= total mod 86400 < 86400) as Hmod
    by (apply Z.mod_pos_bound; lia).
  destruct (to_datetime_valid (total / 86400) (total mod 86400))
    as [Hvalid Hyear]; [lia | exact Hmod |].
  exists (Extractor.to_datetime (total / 86400, total mod 86400)).
  split; [reflexivity|]. split; [exact Hvalid|].
  assert (4 <= (total / 86400 - 1) / 146097) as H4.
  { unfold Extractor.epoch in *. subst total. Z.div_mod_to_equations. lia. }
  split; [lia | apply strptime_strftime; [exact Hvalid | lia]].
Qed.

(** X13. For a time since 1970, the text [convert_timezone] returns is a
    timestamp of the format of the trade file: the nineteen characters of
    a date of the calendar, its year on four digits, that [strptime] reads
    back as that date. *)
Theorem convert_timezone_is_a_timestamp time_in_ms s :
  0 <= time_in_ms ->
  Extractor.convert_timezone time_in_ms = Some s ->
  String.length s = 19%nat /\
  exists d,
    s = Datetime.strftime d /\
    Datetime.valid d = true /\
    (1000 <= N.of_nat (Datetime.year d))%N /\
    Datetime.strptime s = Ok d.
Proof.
  intros Hms Hs.
  destruct (convert_timezone_strftime _ _ Hms Hs) as (d & -> & H).
  split; [apply length_strftime; [tauto | lia]|]. now exists d.
Qed.

Lemma convert_timezone_is_a_timestamp_witness :
  Datetime.strptime "2023-12-31 21:00:00" =
    Ok (Datetime.mk 2023 12 31 21 0 0).
Proof.
  destruct (convert_timezone_is_a_timestamp 1704067200000
              "2023-12-31 21:00:00") as (_ & d & Hs & _ & _ & Hd);
    [lia | vm_compute; reflexivity |].
  rewrite Hd. f_equal. vm_compute in Hd. now injection Hd as <-.
Defined.

(** ** The second of a trade *)

(** Rounding the quotient [n / d], of 53 bits or more, at the exponent
    [e]: the outcome is normal, and its value is [n / (d * 2^k)] rounded,
    times [2^(e + k)]. *)
Lemma binary_round_aux_normal s n d e :
  0 < d -> 2 ^ 52 * d <= n -> -1074 <= e ->
  let k := Zdigits2 (n / d) - 53 in
  let M := round_half_even n (d * 2 ^ k) in
  0 <= k /\
  exists m' e',
    binary_round_aux prec emax s (n / d) e (loc_of (n mod d) d) =
      (if e' <=? 971 then S754_finite s m' e' else S754_infinity s) /\
    2 ^ 52 <= Zpos m' < 2 ^ 53 /\
    (e' = e + k /\ Zpos m' = M \/ e' = e + k + 1 /\ 2 * Zpos m' = M).
Proof.
  intros Hd Hn He.
  assert (2 ^ 52 <= n / d) as Hq by (apply Z.div_le_lower_bound; lia).
  assert (0 <= n) as Hn0 by nia.
  destruct (n / d) as [|q|q] eqn:Eq; try lia.
  cbv zeta. cbn [Zdigits2].
  set (k := Zpos (digits2_pos q) - 53).
  set (M := round_half_even n (d * 2 ^ k)).
  assert (53 <= Zpos (digits2_pos q)) as Hk.
  { pose proof (digits_bounds q) as Hdig.
    assert (52 < Zpos (digits2_pos q))
      by (apply (Z.pow_lt_mono_r_iff 2); lia).
    lia. }
  assert (2 ^ (52 + k) <= Zpos q < 2 ^ (53 + k)) as Hdig.
  { replace (52 + k) with (Zpos (digits2_pos q) - 1) by (unfold k; lia).
    replace (53 + k) with (Zpos (digits2_pos q)) by (unfold k; lia).
    apply digits_bounds. }
  split; [unfold k; lia|].
  assert (0 < 2 ^ k) as Hpk by (apply Z.pow_pos_nonneg; unfold k; lia).
  unfold binary_round_aux, shr_fexp. cbn [Zdigits2].
  replace (fexp prec emax (Zpos (digits2_pos q) + e) - e) with k
    by (unfold fexp, emin, prec, emax, k; lia).
  destruct (shr_represents (shr_record_of_loc (Zpos q) (loc_of (n mod d) d))
              n d e k) as (mrs & -> & Hmrs);
    [unfold k; lia | rewrite <- Eq; now apply represents_exact |].
  rewrite (round_represents _ _ _ Hmrs). fold M.
  assert (2 ^ 52 <= M <= 2 ^ 53) as HM.
  { apply round_half_even_bounds; [lia|].
    pose proof (Z.div_mod n d ltac:(lia)) as Hdiv.
    pose proof (Z.mod_pos_bound n d Hd) as Hmod.
    rewrite Eq in Hdiv.
    rewrite !Z.pow_add_r in Hdig by (unfold k; lia).
    nia. }
  destruct M as [|Mp|Mp] eqn:EM; try lia.
  destruct (Z.eq_dec (Zpos Mp) (2 ^ 53)) as [Hcarry|Hcarry].
  - exists (2 ^ 52)%positive, (e + k + 1).
    split; [|split; [lia | right; split; [reflexivity | lia]]].
    assert (Mp = (2 ^ 53)%positive) as -> by lia.
    change (Zdigits2 (Zpos (2 ^ 53))) with 54.
    replace (fexp prec emax (54 + (e + k)) - (e + k)) with 1
      by (unfold fexp, emin, prec, emax, k; lia).
    reflexivity.
  - exists Mp, (e + k). split; [|split; [lia | left; now split]].
    assert (Zpos (digits2_pos Mp) = 53) as HdM
      by (apply digits_unique; change (2 ^ (53 - 1)) with (2 ^ 52); lia).
    cbn [Zdigits2]. rewrite HdM.
    replace (fexp prec emax (53 + (e + k)) - (e + k)) with 0
      by (unfold fexp, emin, prec, emax, k; lia).
    reflexivity.
Qed.

(** The quotient that [SFdiv] rounds for [p / 1000]. *)
Lemma div_core_1000 p :
  Zpos p < 2 ^ 62 ->
  let s := 63 - Zpos (digits2_pos p) in
  let n := Zpos p * 2 ^ s in
  SFdiv_core_binary prec emax (Zpos p) 0 1000 0 =
    (n / 1000, - s, loc_of (n mod 1000) 1000).
Proof.
  intros Hp s n. unfold SFdiv_core_binary.
  change (Zdigits2 1000) with 10. cbn [Zdigits2].
  pose proof (digits_bounds p) as [Hlo _].
  assert (Zpos (digits2_pos p) <= 62) as Hd.
  { assert (Zpos (digits2_pos p) - 1 < 62); [|lia].
    apply (Z.pow_lt_mono_r_iff 2); lia. }
  assert (Z.min (fexp prec emax (Zpos (digits2_pos p) + 0 - (10 + 0))) (0 - 0)
          = - s) as ->
    by (unfold fexp, emin, prec, emax, s; lia).
  replace (0 - 0 - - s) with s by lia.
  assert (match s with
          | 0 => Zpos p
          | Zpos _ => Z.shiftl (Zpos p) s
          | Zneg _ => 0
          end = n) as ->.
  { unfold n. destruct s as [|s'|s'] eqn:Es; [lia| |lia].
    apply Z.shiftl_mul_pow2. lia. }
  rewrite div_eucl_div_mod. reflexivity.
Qed.

(** [p / 1000] as a binary64, for a time [p] in milliseconds: a normal
    number [m * 2^e] with [13 <= - e], at most half a thousandth of its
    unit [2^e] away from the quotient. *)
Lemma div_1000_rounds p :
  Zpos p < 2 ^ 48 ->
  exists m g,
    Extractor.div_1000 (Zpos p) = Some (S754_finite false m (- g)) /\
    2 ^ 52 <= Zpos m < 2 ^ 53 /\ 13 <= g <= 62 /\
    2 * Z.abs (Zpos p * 2 ^ g - 1000 * Zpos m) <= 1000.
Proof.
  intros Hp. unfold Extractor.div_1000, SFdiv.
  change (Zpos 1000) with 1000. rewrite div_core_1000 by lia.
  cbv beta iota zeta. change (xorb false false) with false.
  pose proof (digits_bounds p) as [Hlo Hhi].
  set (d1 := Zpos (digits2_pos p)) in *.
  assert (1 <= d1 <= 48) as Hd1.
  { split; [unfold d1; lia|].
    assert (d1 - 1 < 48); [|lia]. apply (Z.pow_lt_mono_r_iff 2); lia. }
  set (s := 63 - d1). set (n := Zpos p * 2 ^ s).
  assert (2 ^ 62 <= n < 2 ^ 63) as Hn.
  { unfold n. replace 62 with (d1 - 1 + s) by (unfold s; lia).
    replace 63 with (d1 + s) by (unfold s; lia).
    rewrite !Z.pow_add_r by (unfold s; lia).
    assert (0 < 2 ^ s) by (apply pow2_pos; unfold s; lia). nia. }
  destruct (binary_round_aux_normal false n 1000 (- s))
    as (Hk & m & e & -> & Hm & He); [lia | lia | unfold s; lia |].
  set (k := Zdigits2 (n / 1000) - 53) in *.
  assert (k <= 1) as Hk1.
  { assert (n / 1000 < 2 ^ 54) as Hq
      by (apply Z.div_lt_upper_bound; lia).
    assert (0 < n / 1000) as Hq0 by (apply Z.div_str_pos; lia).
    unfold k. destruct (n / 1000) as [|q|q]; try lia. cbn [Zdigits2].
    pose proof (digits_bounds q) as [Hql _].
    assert (Zpos (digits2_pos q) - 1 < 54); [|lia].
    apply (Z.pow_lt_mono_r_iff 2); lia. }
  pose proof (round_half_even_spec n (1000 * 2 ^ k)) as [_ Hspec];
    [lia | pose proof (pow2_pos k); lia |].
  assert (0 < 2 ^ k) as Hpk by (apply pow2_pos; lia).
  destruct He as [[-> HM] | [-> HM]].
  - exists m, (s - k).
    replace (- (s - k)) with (- s + k) by lia.
    destruct (Z.leb_spec (- s + k) 971); [|unfold s in *; lia].
    split; [reflexivity|]. split; [exact Hm|].
    split; [unfold s; lia|]. rewrite <- HM in Hspec.
    replace (n - 1000 * 2 ^ k * Zpos m)
      with (2 ^ k * (Zpos p * 2 ^ (s - k) - 1000 * Zpos m)) in Hspec.
    + rewrite Z.abs_mul, (Z.abs_eq (2 ^ k)) in Hspec by lia. nia.
    + unfold n. replace s with (s - k + k) at 2 by lia.
      rewrite Z.pow_add_r by (unfold s; lia). ring.
  - exists m, (s - k - 1).
    replace (- (s - k - 1)) with (- s + k + 1) by lia.
    destruct (Z.leb_spec (- s + k + 1) 971); [|unfold s in *; lia].
    split; [reflexivity|]. split; [exact Hm|].
    split; [unfold s; lia|]. rewrite <- HM in Hspec.
    replace (n - 1000 * 2 ^ k * (2 * Zpos m))
      with (2 * 2 ^ k * (Zpos p * 2 ^ (s - k - 1) - 1000 * Zpos m))
      in Hspec.
    + rewrite Z.abs_mul, (Z.abs_eq (2 * 2 ^ k)) in Hspec by lia. nia.
    + unfold n. replace s with (s - k - 1 + (k + 1)) at 2 by lia.
      rewrite Z.pow_add_r, (Z.pow_add_r 2 k 1) by (unfold s; lia).
      change (2 ^ 1) with 2. ring.
Qed.

(** A mantissa of 53 bits is not rounded. *)
Lemma binary_round_aux_exact s m e :
  2 ^ 52 <= Zpos m < 2 ^ 53 -> -1074 <= e <= 971 ->
  binary_round_aux prec emax s (Zpos m) e loc_Exact = S754_finite s m e.
Proof.
  intros Hm He.
  destruct (binary_round_aux_normal s (Zpos m) 1 e)
    as (_ & m' & e' & Heq & Hm' & Hcases); [lia | lia | lia |].
  rewrite Z.div_1_r, Z.mod_1_r in Heq. change (loc_of 0 1) with loc_Exact in Heq.
  rewrite Z.div_1_r in Hcases. cbn [Zdigits2] in Hcases.
  assert (Zpos (digits2_pos m) = 53) as Hd
    by (apply digits_unique; change (2 ^ (53 - 1)) with (2 ^ 52); lia).
  rewrite Hd in Hcases. change (53 - 53) with 0 in Hcases.
  change (1 * 2 ^ 0) with 1 in Hcases.
  rewrite round_half_even_one in Hcases.
  destruct Hcases as [[-> HM] | [_ HM]]; [|lia].
  rewrite Heq, Z.add_0_r. destruct (Z.leb_spec e 971); [|lia].
  f_equal. lia.
Qed.

(** A number of 53 bits or fewer is not rounded: its mantissa is shifted
    to 53 bits. *)
Lemma binary_round_exact s f e :
  Zpos f < 2 ^ 53 ->
  let t := 53 - Zpos (digits2_pos f) in
  -1074 <= e - t -> e - t <= 971 ->
  0 <= t /\
  exists m,
    binary_round prec emax s f e = S754_finite s m (e - t) /\
    Zpos m = Zpos f * 2 ^ t /\ 2 ^ 52 <= Zpos m < 2 ^ 53.
Proof.
  intros Hf t Hlo Hhi.
  pose proof (digits_bounds f) as [Hdl Hdh].
  assert (Zpos (digits2_pos f) <= 53) as Hd.
  { assert (Zpos (digits2_pos f) - 1 < 53); [|lia].
    apply (Z.pow_lt_mono_r_iff 2); lia. }
  split; [unfold t; lia|].
  unfold binary_round.
  replace (fexp prec emax (Zpos (digits2_pos f) + e)) with (e - t)
    by (unfold fexp, emin, prec, emax, t in *; lia).
  unfold shl_align. replace (e - t - e) with (- t) by lia.
  assert (2 ^ 52 <= Zpos f * 2 ^ t < 2 ^ 53) as Hm.
  { assert (2 ^ 52 = 2 ^ (Zpos (digits2_pos f) - 1) * 2 ^ t) as E52
      by (rewrite <- Z.pow_add_r by (unfold t; lia); f_equal; unfold t; lia).
    assert (2 ^ 53 = 2 ^ Zpos (digits2_pos f) * 2 ^ t) as E53
      by (rewrite <- Z.pow_add_r by (unfold t; lia); f_equal; unfold t; lia).
    rewrite E52, E53.
    assert (0 < 2 ^ t) by (apply pow2_pos; unfold t; lia). nia. }
  destruct t as [|t'|t'] eqn:Et; [| |lia].
  - cbn [Z.opp]. exists f. rewrite Z.pow_0_r, Z.mul_1_r in *.
    split; [|split; [reflexivity | exact Hm]].
    rewrite Z.sub_0_r in *. apply binary_round_aux_exact; lia.
  - cbn [Z.opp]. exists (Pos.iter xO f t').
    rewrite iter_xO. split; [|split; [reflexivity | exact Hm]].
    apply binary_round_aux_exact; [rewrite iter_xO; exact Hm | lia].
Qed.

Lemma trunc_finite m g :
  0 < g -> Extractor.trunc (S754_finite false m (- g)) = Zpos m / 2 ^ g.
Proof. destruct g as [|g|g]; try lia. intros _. reflexivity. Qed.

(** A number within half a thousandth of its unit [2^-g] of [p / 1000]
    has the integral part of [p / 1000], and a fractional part below
    [0.9991]. *)
Lemma quotient_second p m g :
  0 <= p -> 0 <= m -> 13 <= g ->
  2 * Z.abs (p * 2 ^ g - 1000 * m) <= 1000 ->
  m / 2 ^ g = p / 1000 /\
  8192 * 1000 * (m mod 2 ^ g) <= 8184308 * 2 ^ g.
Proof.
  intros Hp Hm Hg Hnear.
  assert (2 ^ 13 <= 2 ^ g) as HG by (apply pow2_le; lia).
  change (2 ^ 13) with 8192 in HG.
  set (G := 2 ^ g) in *.
  pose proof (Z.div_mod p 1000 ltac:(lia)) as Hdiv.
  pose proof (Z.mod_pos_bound p 1000 ltac:(lia)) as Hmod.
  set (K := p / 1000) in *. set (J := p mod 1000) in *.
  assert (K * G <= m < (K + 1) * G) as Hrange.
  { assert (J * G <= 999 * G) by nia.
    assert (J = 0 \/ G <= J * G) as [HJ|HJ] by nia; nia. }
  assert (m / G = K) as Hq
    by (symmetry; apply Z.div_unique with (m - K * G); lia).
  split; [exact Hq|].
  pose proof (Z.div_mod m G ltac:(lia)) as Hdm. rewrite Hq in Hdm.
  assert (J * G <= 999 * G) by nia. nia.
Qed.

Lemma of_int_million :
  Extractor.of_int 1000000 = S754_finite false 8589934592000000 (-33).
Proof. vm_compute. reflexivity. Qed.

(** The fractional part [modf] gives for a normal number [m * 2^-g]: zero,
    or the normal number of the same value as [(m mod 2^g) * 2^-g]. *)
Lemma floatpart_exact m g :
  2 ^ 52 <= Zpos m < 2 ^ 53 -> 13 <= g <= 62 ->
  let x := S754_finite false m (- g) in
  let floatpart := sub x (Extractor.of_int (Extractor.trunc x)) in
  Zpos m mod 2 ^ g = 0 /\ floatpart = S754_zero false \/
  exists mf h,
    floatpart = S754_finite false mf (- h) /\
    2 ^ 52 <= Zpos mf < 2 ^ 53 /\ g <= h <= 115 /\ 53 <= h /\
    Zpos mf = Zpos m mod 2 ^ g * 2 ^ (h - g).
Proof.
  intros Hm Hg x floatpart. subst floatpart x.
  rewrite trunc_finite by lia.
  assert (0 < 2 ^ g) as HG by (apply pow2_pos; lia).
  pose proof (Z.div_mod (Zpos m) (2 ^ g) ltac:(lia)) as Hdm.
  pose proof (Z.mod_pos_bound (Zpos m) (2 ^ g) HG) as Hmod.
  assert (0 <= Zpos m / 2 ^ g) as HK by (apply Z.div_pos; lia).
  destruct (Zpos m / 2 ^ g) as [|k|k] eqn:EK; [| |lia].
  - right. exists m, g. change (Extractor.of_int 0) with (S754_zero false).
    split; [reflexivity|]. split; [exact Hm|].
    assert (52 < g) by (apply (Z.pow_lt_mono_r_iff 2); lia).
    split; [lia|]. split; [lia|].
    rewrite Z.sub_diag, Z.pow_0_r. lia.
  - assert (g <= 52) as Hg52.
    { destruct (Z.le_gt_cases g 52) as [H|H]; [exact H|].
      assert (2 ^ 53 <= 2 ^ g) by (apply pow2_le; lia).
      rewrite Z.div_small in EK by lia. discriminate EK. }
    assert (Zpos (digits2_pos k) = 53 - g) as Hdk.
    { apply digits_unique. rewrite <- EK. split.
      - apply Z.div_le_lower_bound; [lia|].
        rewrite <- Z.pow_add_r by lia.
        now replace (g + (53 - g - 1)) with 52 by lia.
      - apply Z.div_lt_upper_bound; [lia|].
        rewrite <- Z.pow_add_r by lia.
        now replace (g + (53 - g)) with 53 by lia. }
    assert (Zpos k < 2 ^ 53) as Hk53.
    { rewrite <- EK. apply Z.div_lt_upper_bound; [lia|]. nia. }
    unfold Extractor.of_int. cbn [binary_normalize].
    destruct (binary_round_exact false k 0 Hk53)
      as (_ & mk & -> & Hmk & _); [lia | lia |].
    rewrite Hdk in *. replace (0 - (53 - (53 - g))) with (- g) by lia.
    replace (53 - (53 - g)) with g in Hmk by lia.
    unfold sub, SFsub. rewrite Z.min_id. unfold shl_align.
    rewrite Z.sub_diag. cbn [fst cond_Zopp].
    replace (Zpos m - Zpos mk) with (Zpos m mod 2 ^ g) by lia.
    destruct (Zpos m mod 2 ^ g) as [|f|f] eqn:EF; [now left| |lia].
    right. cbn [binary_normalize].
    assert (Zpos (digits2_pos f) <= g) as Hdf.
    { pose proof (digits_bounds f) as [Hfl _].
      assert (Zpos (digits2_pos f) - 1 < g); [|lia].
      apply (Z.pow_lt_mono_r_iff 2); lia. }
    assert (Zpos f < 2 ^ 53) as Hf53.
    { assert (2 ^ g <= 2 ^ 53) by (apply pow2_le; lia). lia. }
    destruct (binary_round_exact false f (- g) Hf53)
      as (Ht & mf & -> & Hmf & Hmf53); [lia | lia |].
    exists mf, (g + (53 - Zpos (digits2_pos f))).
    split; [f_equal; lia|]. split; [exact Hmf53|].
    split; [lia|]. split; [lia|].
    rewrite Hmf. f_equal. f_equal. lia.
Qed.

Lemma round_to_int_finite m g :
  0 < g ->
  Extractor.round_to_int (S754_finite false m (- g)) =
    round_half_even (Zpos m) (2 ^ g).
Proof. destruct g as [|g|g]; try lia. intros _. reflexivity. Qed.

(** The microseconds of a fractional part below [0.9991]: no carry to the
    seconds, no borrow from them. *)
Lemma microseconds_in_range floatpart :
  floatpart = S754_zero false \/
  (exists mf h,
     floatpart = S754_finite false mf (- h) /\
     2 ^ 52 <= Zpos mf < 2 ^ 53 /\ 53 <= h <= 115 /\
     8192 * 1000 * Zpos mf <= 8184308 * 2 ^ h) ->
  0 <= Extractor.round_to_int (mul floatpart (Extractor.of_int 1000000))
    < 1000000.
Proof.
  rewrite of_int_million.
  intros [-> | (mf & h & -> & Hmf & Hh & Hbound)]; [cbn; lia|].
  unfold mul, SFmul. change (xorb false false) with false.
  set (n := Zpos (mf * 8589934592000000)).
  assert (n = Zpos mf * (1000000 * 2 ^ 33)) as Hn by (unfold n; lia).
  assert (0 < 2 ^ h) as HH by (apply pow2_pos; lia).
  assert (2 ^ 104 <= n < 2 ^ 106) as Hn2 by (rewrite Hn; lia).
  destruct (binary_round_aux_normal false n 1 (- h + -33))
    as (Hk & m2 & e2 & Heq & Hm2 & Hcases); [lia | lia | lia |].
  rewrite Z.div_1_r, Z.mod_1_r in Heq.
  change (loc_of 0 1) with loc_Exact in Heq. rewrite Heq. clear Heq.
  rewrite Z.div_1_r, Z.mul_1_l in Hcases. rewrite Z.div_1_r in Hk.
  unfold n in Hcases, Hk. cbn [Zdigits2] in Hcases, Hk. fold n in Hcases.
  set (k := Zpos (digits2_pos (mf * 8589934592000000)) - 53) in *.
  assert (k <= 53) as Hk53.
  { pose proof (digits_bounds (mf * 8589934592000000)) as [Hl _].
    fold n in Hl.
    assert (Zpos (digits2_pos (mf * 8589934592000000)) - 1 < 106);
      [|unfold k; lia].
    apply (Z.pow_lt_mono_r_iff 2); lia. }
  assert (0 < 2 ^ k) as HK by (apply pow2_pos; lia).
  assert (round_half_even n (2 ^ k) <= 999062 * 2 ^ (h + 33 - k)) as HM.
  { apply (round_half_even_bounds n (2 ^ k) 0); [exact HK|].
    split; [lia|]. rewrite <- Z.mul_assoc, <- Z.pow_add_r by lia.
    replace (h + 33 - k + k) with (h + 33) by lia.
    rewrite Z.pow_add_r, Hn by lia. lia. }
  assert (exists g, 0 < g /\ e2 = - g /\ Zpos m2 <= 999062 * 2 ^ g)
    as (g & Hg & -> & Hm2').
  { destruct Hcases as [[-> HM2] | [-> HM2]].
    - exists (h + 33 - k). split; [lia|]. split; [lia|]. now rewrite HM2.
    - exists (h + 33 - k - 1). split; [lia|]. split; [lia|].
      rewrite <- HM2 in HM.
      replace (h + 33 - k) with (h + 33 - k - 1 + 1) in HM by lia.
      rewrite Z.pow_add_r in HM by lia. change (2 ^ 1) with 2 in HM. lia. }
  destruct (Z.leb_spec (- g) 971); [|lia].
  rewrite round_to_int_finite by exact Hg.
  assert (0 < 2 ^ g) by (apply pow2_pos; lia).
  pose proof (round_half_even_bounds (Zpos m2) (2 ^ g) 0 999062). lia.
Qed.

(** The seconds of [p / 1000]: the quotient of the integers. *)
Lemma to_timeval_exact p x :
  Zpos p < 2 ^ 48 -> Extractor.div_1000 (Zpos p) = Some x ->
  fst (Extractor.to_timeval x) = Zpos p / 1000.
Proof.
  intros Hp Hx.
  destruct (div_1000_rounds p Hp) as (m & g & Hx' & Hm & Hg & Hnear).
  rewrite Hx' in Hx. injection Hx as <-.
  destruct (quotient_second (Zpos p) (Zpos m) g) as [Hq Hfrac];
    [lia | lia | lia | exact Hnear |].
  unfold Extractor.to_timeval. cbv zeta.
  pose proof (microseconds_in_range
                (sub (S754_finite false m (- g))
                   (Extractor.of_int
                      (Extractor.trunc (S754_finite false m (- g))))))
    as Hus.
  destruct Hus as [Hus0 Hus1].
  { destruct (floatpart_exact m g Hm ltac:(lia))
      as [[_ ->] | (mf & h & -> & Hmf & Hh & Hh53 & Hval)]; [now left|].
    right. exists mf, h. split; [reflexivity|]. split; [exact Hmf|].
    split; [lia|]. rewrite Hval.
    replace (2 ^ h) with (2 ^ g * 2 ^ (h - g))
      by (rewrite <- Z.pow_add_r by lia; f_equal; lia).
    assert (0 < 2 ^ (h - g)) by (apply pow2_pos; lia). nia. }
  destruct (Z.leb_spec 1000000
              (Extractor.round_to_int
                 (mul (sub (S754_finite false m (- g))
                         (Extractor.of_int
                            (Extractor.trunc (S754_finite false m (- g)))))
                    (Extractor.of_int 1000000)))); [lia|].
  destruct (Z.ltb_spec
              (Extractor.round_to_int
                 (mul (sub (S754_finite false m (- g))
                         (Extractor.of_int
                            (Extractor.trunc (S754_finite false m (- g)))))
                    (Extractor.of_int 1000000))) 0); [lia|].
  cbn [fst]. rewrite trunc_finite by lia. exact Hq.
Qed.

Lemma local_time_valid seconds :
  0 <= seconds < 253402300800 ->
  Datetime.valid
    (Extractor.to_datetime
       ((seconds - 3 * 3600) / 86400 + Extractor.epoch,
        (seconds - 3 * 3600) mod 86400)) = true /\
  1000 <=
    Z.of_nat
      (Datetime.year
         (Extractor.to_datetime
            ((seconds - 3 * 3600) / 86400 + Extractor.epoch,
             (seconds - 3 * 3600) mod 86400))).
Proof.
  intros HK.
  assert (-1 <= (seconds - 3 * 3600) / 86400 < 2932897) as Hdays.
  { split; [apply Z.div_le_lower_bound; lia|].
    apply Z.div_lt_upper_bound; lia. }
  destruct (to_datetime_valid
              ((seconds - 3 * 3600) / 86400 + Extractor.epoch)
              ((seconds - 3 * 3600) mod 86400)) as [Hvalid Hyear].
  - unfold Extractor.epoch, Extractor._MAXORDINAL. lia.
  - apply Z.mod_pos_bound. lia.
  - split; [exact Hvalid|].
    assert (4 <= ((seconds - 3 * 3600) / 86400 + Extractor.epoch - 1) / 146097);
      [|lia].
    apply Z.div_le_lower_bound; [lia|]. unfold Extractor.epoch. lia.
Qed.

Lemma convert_timezone_exact time_in_ms :
  0 <= time_in_ms < 253402300800000 ->
  Extractor.convert_timezone time_in_ms =
    Some (Datetime.strftime
            (Extractor.to_datetime
               ((time_in_ms / 1000 - 3 * 3600) / 86400 + Extractor.epoch,
                (time_in_ms / 1000 - 3 * 3600) mod 86400))).
Proof.
  intros Hms. destruct time_in_ms as [|p|p]; [vm_compute; reflexivity| |lia].
  assert (Zpos p < 2 ^ 48) as Hp by lia.
  destruct (div_1000_rounds p Hp) as (m & g & Hx & _).
  pose proof (to_timeval_exact p _ Hp Hx) as Hsec.
  unfold Extractor.convert_timezone. rewrite Hx. cbn [mbind option_bind].
  unfold Extractor.utc_fromtimestamp.
  destruct (Extractor.to_timeval (S754_finite false m (- g))) as [sec us].
  cbn [fst] in Hsec. subst sec.
  set (K := Zpos p / 1000).
  assert (0 <= K < 253402300800) as HK.
  { unfold K. split; [apply Z.div_pos; lia|].
    apply Z.div_lt_upper_bound; lia. }
  unfold Extractor.epoch, Extractor._MAXORDINAL.
  pose proof (Z.div_mod K 86400 ltac:(lia)) as Hdm.
  pose proof (Z.mod_pos_bound K 86400 ltac:(lia)) as Hmod.
  assert (0 <= K / 86400 <= 2932896) as Hday.
  { split; [apply Z.div_pos; lia|].
    assert (K / 86400 < 2932897); [|lia].
    apply Z.div_lt_upper_bound; lia. }
  destruct (Z.leb_spec 1 (K / 86400 + 719163)); [|lia].
  destruct (Z.leb_spec (K / 86400 + 719163) 3652059); [|lia].
  cbn [andb mbind option_bind]. unfold Extractor.astimezone.
  replace ((K / 86400 + 719163) * 86400 + K mod 86400 - 3 * 3600)
    with (K - 3 * 3600 + 719163 * 86400) by lia.
  rewrite Z.div_add, Z.mod_add by lia.
  assert (-1 <= (K - 3 * 3600) / 86400 <= 2932896) as Hlocal.
  { split; [apply Z.div_le_lower_bound; lia|].
    assert ((K - 3 * 3600) / 86400 < 2932897); [|lia].
    apply Z.div_lt_upper_bound; lia. }
  unfold Extractor._MAXORDINAL.
  destruct (Z.ltb_spec 0 ((K - 3 * 3600) / 86400 + 719163)); [|lia].
  destruct (Z.leb_spec ((K - 3 * 3600) / 86400 + 719163) 3652059); [|lia].
  reflexivity.
Qed.

(** X14. From 1970 to the end of the year 9999 UTC, [convert_timezone]
    returns the date and the time of the whole second of its argument,
    three hours back: the division of the milliseconds by 1000 in
    binary64 loses no second, and the milliseconds are dropped.  The
    seconds and the minutes are those of the UTC time, the hour is three
    hours earlier. *)
Theorem convert_timezone_drops_the_milliseconds time_in_ms :
  0 <= time_in_ms < 253402300800000 ->
  let seconds := time_in_ms / 1000 in
  let local := seconds - 3 * 3600 in
  let d :=
    Extractor.to_datetime
      (local / 86400 + Extractor.epoch, local mod 86400) in
  Extractor.convert_timezone time_in_ms = Some (Datetime.strftime d) /\
  Datetime.strptime (Datetime.strftime d) = Ok d /\
  Datetime.hour d = Z.to_nat ((seconds / 3600 - 3) mod 24) /\
  Datetime.minute d = Z.to_nat (seconds / 60 mod 60) /\
  Datetime.second d = Z.to_nat (seconds mod 60).
Proof.
  intros Hms. cbv zeta.
  pose proof (convert_timezone_exact _ Hms) as Hs.
  split; [exact Hs|]. split.
  - destruct (local_time_valid (time_in_ms / 1000)) as [Hvalid Hyear];
      [split; [apply Z.div_pos; lia | apply Z.div_lt_upper_bound; lia]|].
    apply strptime_strftime; [exact Hvalid | lia].
  - unfold Extractor.to_datetime.
    destruct (Extractor._ord2ymd _) as [[y m] dd].
    cbn [Datetime.hour Datetime.minute Datetime.second].
    repeat split; f_equal; Z.div_mod_to_equations; lia.
Qed.

Lemma convert_timezone_drops_the_milliseconds_witness :
  Extractor.convert_timezone 1704067200999 = Some "2023-12-31 21:00:00".
Proof.
  pose proof (convert_timezone_drops_the_milliseconds 1704067200999) as H.
  cbv zeta in H. destruct H as [H _]; [lia|].
  rewrite H. vm_compute. reflexivity.
Defined.

Lemma save_loop_finishes cutoff_date trades : forall reg,
  Forall (fun t => 0 <= Extractor.time t < 253402300800000) trades ->
  snd (Extractor.save_loop cutoff_date trades reg) = true.
Proof.
  induction trades as [|t rest IH]; intros reg Hall; [reflexivity|].
  pose proof (Forall_inv Hall) as Ht. pose proof (Forall_inv_tail Hall) as Hrest.
  cbn [Extractor.save_loop].
  pose proof (convert_timezone_exact _ Ht) as Hs. rewrite Hs.
  destruct (convert_timezone_strftime _ _ (proj1 Ht) Hs)
    as (d & _ & _ & _ & ->).
  destruct (Datetime.leb d cutoff_date); [now apply IH|].
  destruct (decide _); [now apply IH|].
  specialize (IH ({[Extractor.tx_str t
                      (Datetime.strftime
                         (Extractor.to_datetime
                            ((Extractor.time t / 1000 - 3 * 3600) / 86400
                             + Extractor.epoch,
                             (Extractor.time t / 1000 - 3 * 3600)
                             mod 86400)))]} ∪ reg) Hrest).
  destruct (Extractor.save_loop _ _ _). exact IH.
Qed.

(** X15. No exception leaves [save_data] when the times of the trades lie
    between 1970 and the end of the year 9999 UTC. *)
Theorem save_data_finishes trades cutoff_date st :
  Forall (fun t => 0 <= Extractor.time t < 253402300800000) trades ->
  snd (Extractor.save_data trades cutoff_date st) = true.
Proof.
  intros Hall. unfold Extractor.save_data.
  pose proof (save_loop_finishes cutoff_date trades (Extractor.registered st)
                Hall) as Hdone.
  destruct (Extractor.save_loop _ _ _). exact Hdone.
Qed.

Lemma save_data_finishes_witness :
  snd (Extractor.save_data
         [Extractor.mk_trade "XYZBTC" "10" "1.0" 1704067200000 true;
          Extractor.mk_trade "ABCBTC" "0.5" "2" 253402300799999 false]
         Datetime.min (Extractor.mk_store None None None)) = true.
Proof.
  apply save_data_finishes. repeat constructor; cbn; lia.
Defined.

(** ** Text files *)

Lemma append_nil_l (s : string) : EmptyString +:+ s = s.
Proof. reflexivity. Qed.

Lemma readlines_nil s : Str.readlines s = [] -> s = EmptyString.
Proof.
  destruct s as [|c r]; [reflexivity|]. cbn [Str.readlines].
  destruct (Ascii.eqb c "010"); [discriminate|].
  destruct (Ascii.eqb c "013"); [discriminate|].
  now destruct (Str.readlines r).
Qed.

Lemma closed_tail c r :
  closed (String c r) = true -> r <> EmptyString -> closed r = true.
Proof. intros H Hr. cbn [closed] in H. now destruct r. Qed.

Lemma closed_last c : closed (String c EmptyString) = true -> c = "010"%char.
Proof. cbn [closed]. apply Ascii.eqb_eq. Qed.

(** What is appended to a content that is closed is read on lines of its
    own. *)
Lemma readlines_append a b :
  closed a = true ->
  Str.readlines (a +:+ b) = Str.readlines a ++ Str.readlines b.
Proof.
  remember (String.length a) as n eqn:Hn. revert a Hn.
  induction n as [n IH] using lt_wf_ind. intros a Hn Ha.
  destruct a as [|c r]; [reflexivity|].
  rewrite append_cons. cbn [Str.readlines].
  destruct (Ascii.eqb c "010") eqn:Hlf.
  - cbn [app]. f_equal.
    destruct r as [|c' r']; [reflexivity|].
    apply (IH (String.length (String c' r'))); [subst n; cbn; lia | reflexivity|].
    now apply closed_tail in Ha.
  - destruct r as [|c' r'];
      [apply closed_last in Ha; subst c; discriminate Hlf|].
    apply closed_tail in Ha; [|discriminate].
    destruct (Ascii.eqb c "013") eqn:Hcr.
    + rewrite append_cons. cbn [app]. f_equal.
      destruct (Ascii.eqb c' "010") eqn:Hlf'.
      * destruct r' as [|c'' r'']; [reflexivity|].
        apply (IH (String.length (String c'' r'')));
          [subst n; cbn; lia | reflexivity|].
        now apply closed_tail in Ha.
      * rewrite <- append_cons.
        apply (IH (String.length (String c' r')));
          [subst n; cbn; lia | reflexivity | exact Ha].
    + rewrite (IH (String.length (String c' r')) ltac:(subst n; cbn; lia)
                 (String c' r') eq_refl Ha).
      destruct (Str.readlines (String c' r')) as [|line rest] eqn:Hlines;
        [now apply readlines_nil in Hlines|].
      reflexivity.
Qed.

Lemma is_graph_not_space c : is_graph c = true -> Str.isspace c = false.
Proof. unfold is_graph, Str.isspace. ascii_cases c. Qed.

Lemma is_graph_not_break c : is_graph c = true -> is_break c = false.
Proof. unfold is_graph, is_break. ascii_cases c. Qed.

Lemma plain_one_line s : plain s -> one_line s.
Proof.
  unfold plain, one_line. induction s as [|c s IH]; [reflexivity|].
  cbn [all_chars count_chars]. intros [Hc Hs]%andb_prop.
  now rewrite (is_graph_not_break _ Hc), IH.
Qed.

Lemma one_line_append (a b : string) :
  one_line a -> one_line b -> one_line (a +:+ b).
Proof. unfold one_line. rewrite count_chars_append. lia. Qed.

(** A line and its line feed, before the rest of a file, are read as one
    line. *)
Lemma readlines_line l rest :
  one_line l ->
  Str.readlines (l +:+ Str.newline +:+ rest) =
    (l +:+ Str.newline) :: Str.readlines rest.
Proof.
  unfold one_line. induction l as [|c l IH]; [reflexivity|].
  cbn [count_chars]. unfold is_break at 1.
  destruct (Ascii.eqb c "010") eqn:Hlf; [cbn; lia|].
  destruct (Ascii.eqb c "013") eqn:Hcr; [cbn; lia|].
  cbn [orb]. intros Hl. rewrite !append_cons. cbn [Str.readlines].
  rewrite Hlf, Hcr. now rewrite IH by lia.
Qed.

Lemma readlines_written lines :
  Forall one_line lines ->
  Str.readlines (Extractor.written lines) = with_line_feed lines.
Proof.
  induction 1 as [|l lines Hl _ IH]; [reflexivity|].
  cbn [Extractor.written]. rewrite readlines_line by exact Hl.
  now rewrite IH.
Qed.

Lemma closed_append (a b : string) :
  closed a = true -> closed b = true -> closed (a +:+ b) = true.
Proof.
  intros Ha Hb. destruct b as [|cb b]; [now rewrite append_nil_r|].
  induction a as [|c r IH]; [exact Hb|].
  rewrite append_cons. cbn [closed].
  destruct r as [|c' r']; [exact Hb|].
  rewrite append_cons. rewrite <- append_cons. apply IH.
  now apply closed_tail in Ha.
Qed.

Lemma closed_line l : closed (l +:+ Str.newline) = true.
Proof.
  induction l as [|c l IH]; [reflexivity|].
  rewrite append_cons. cbn [closed].
  destruct (l +:+ Str.newline) eqn:H; [now destruct l | exact IH].
Qed.

Lemma closed_written lines : closed (Extractor.written lines) = true.
Proof.
  induction lines as [|l lines IH]; [reflexivity|].
  cbn [Extractor.written]. rewrite <- append_assoc.
  apply closed_append; [apply closed_line | exact IH].
Qed.

(** [strip] drops the line feed of a line. *)
Lemma rstrip_newline a : Str.rstrip (a +:+ Str.newline) = Str.rstrip a.
Proof.
  induction a as [|c a IH]; [reflexivity|].
  rewrite append_cons. cbn [Str.rstrip]. now rewrite IH.
Qed.

Lemma strip_newline a : Str.strip (a +:+ Str.newline) = Str.strip a.
Proof.
  unfold Str.strip. induction a as [|c a IH]; [reflexivity|].
  rewrite append_cons. cbn [Str.lstrip].
  destruct (Str.isspace c); [exact IH|].
  rewrite <- append_cons. apply rstrip_newline.
Qed.

(** The engine reads a line with its line feed as it reads the line. *)
Lemma read_line_newline line :
  read_line (line +:+ Str.newline) = read_line line.
Proof. unfold read_line. now rewrite strip_newline. Qed.

(** ** What [save_data] appends *)

Lemma save_loop_lines cutoff_date trades : forall reg lines done,
  Extractor.save_loop cutoff_date trades reg = (lines, done) ->
  NoDup lines /\
  Forall (fun line =>
            (line ∉ reg) /\
            exists t s d,
              t ∈ trades /\ saved_as cutoff_date t s d /\
              line = Extractor.tx_str t s) lines.
Proof.
  induction trades as [|t rest IH]; intros reg lines done;
    cbn [Extractor.save_loop].
  - intros [= <- <-]. split; constructor.
  - assert (forall reg' lines',
              NoDup lines' /\
              Forall (fun line =>
                        (line ∉ reg') /\
                        exists t0 s d,
                          t0 ∈ rest /\ saved_as cutoff_date t0 s d /\
                          line = Extractor.tx_str t0 s) lines' ->
              reg ⊆ reg' ->
              NoDup lines' /\
              Forall (fun line =>
                        (line ∉ reg) /\
                        exists t0 s d,
                          t0 ∈ t :: rest /\ saved_as cutoff_date t0 s d /\
                          line = Extractor.tx_str t0 s) lines') as Hweak.
    { intros reg' lines' [Hnd Hall] Hsub. split; [exact Hnd|].
      eapply Forall_impl; [exact Hall|].
      intros line (Hreg & t0 & s & d & Hin & Hsaved & ->).
      split; [intros Hin'; apply Hreg, Hsub, Hin'|].
      exists t0, s, d. split; [now right | now split]. }
    destruct (Extractor.convert_timezone (Extractor.time t)) as [s|] eqn:Hs;
      [|intros [= <- <-]; split; constructor].
    destruct (Datetime.strptime s) as [d|] eqn:Hd;
      [|intros [= <- <-]; split; constructor].
    destruct (Datetime.leb d cutoff_date) eqn:Hleb.
    { intros H. apply (Hweak reg); [now apply IH with done | reflexivity]. }
    destruct (decide (Extractor.tx_str t s ∈ reg)) as [Hin|Hnew].
    { intros H. apply (Hweak reg); [now apply IH with done | reflexivity]. }
    destruct (Extractor.save_loop cutoff_date rest
                ({[Extractor.tx_str t s]} ∪ reg)) as [ls dn] eqn:Hrest.
    intros [= <- <-]. destruct (IH _ _ _ Hrest) as [Hnd Hall].
    destruct (Hweak _ _ (conj Hnd Hall)) as [_ Hall'];
      [apply union_subseteq_r|].
    split.
    + constructor; [|exact Hnd]. intros Hdup.
      rewrite Forall_forall in Hall. destruct (Hall _ Hdup) as [Hreg _].
      apply Hreg, elem_of_union_l. now apply elem_of_singleton.
    + constructor; [|exact Hall']. split; [exact Hnew|].
      exists t, s, d. split; [now left|]. now repeat split.
Qed.

Lemma save_loop_again cutoff_date trades : forall reg lines done reg',
  Extractor.save_loop cutoff_date trades reg = (lines, done) ->
  reg ∪ list_to_set lines ⊆ reg' ->
  Extractor.save_loop cutoff_date trades reg' = ([], done).
Proof.
  induction trades as [|t rest IH]; intros reg lines done reg';
    cbn [Extractor.save_loop].
  - now intros [= <- <-].
  - destruct (Extractor.convert_timezone (Extractor.time t)) as [s|];
      [|now intros [= <- <-]].
    destruct (Datetime.strptime s) as [d|]; [|now intros [= <- <-]].
    destruct (Datetime.leb d cutoff_date); [apply IH|].
    destruct (decide (Extractor.tx_str t s ∈ reg)) as [Hin|Hnew].
    + intros H Hsub.
      rewrite decide_True by (apply Hsub, elem_of_union_l, Hin).
      now apply IH with reg lines.
    + destruct (Extractor.save_loop cutoff_date rest
                  ({[Extractor.tx_str t s]} ∪ reg)) as [ls dn] eqn:Hrest.
      intros [= <- <-] Hsub.
      rewrite decide_True
        by (apply Hsub, elem_of_union_r, elem_of_list_to_set; now left).
      apply IH with ({[Extractor.tx_str t s]} ∪ reg) ls; [exact Hrest|].
      intros x Hx. apply Hsub. revert Hx.
      rewrite !elem_of_union, !elem_of_list_to_set, elem_of_singleton,
        elem_of_cons. tauto.
Qed.

Lemma lstrip_append (a b : string) :
  a <> EmptyString -> Str.lstrip a = a -> Str.lstrip (a +:+ b) = a +:+ b.
Proof.
  destruct a as [|c a]; [contradiction|]. intros _. rewrite append_cons.
  cbn [Str.lstrip]. destruct (Str.isspace c) eqn:Hc; [|reflexivity].
  intros H. exfalso. apply (f_equal String.length) in H.
  assert (forall s, String.length (Str.lstrip s) <= String.length s)%nat as Hle.
  { induction s as [|x s IHs]; [reflexivity|]. cbn [Str.lstrip].
    destruct (Str.isspace x); cbn [String.length]; lia. }
  specialize (Hle a). cbn [String.length] in H. lia.
Qed.

Lemma rstrip_append (a b : string) :
  b <> EmptyString -> Str.rstrip b = b -> Str.rstrip (a +:+ b) = a +:+ b.
Proof.
  intros Hb Hr. induction a as [|c a IH]; [exact Hr|].
  rewrite append_cons. cbn [Str.rstrip]. rewrite IH.
  destruct (a +:+ b) eqn:Hab; [|reflexivity].
  destruct a; [|discriminate Hab]. now destruct b.
Qed.

Lemma strip_tx_str t s :
  Str.lstrip (Extractor.symbol t) = Extractor.symbol t ->
  Str.strip (Extractor.tx_str t s) = Extractor.tx_str t s.
Proof.
  intros Hsym. unfold Str.strip, Extractor.tx_str.
  assert (Str.lstrip (Extractor.symbol t +:+ "," +:+ Extractor.price t +:+ ","
                      +:+ Extractor.qty t +:+ "," +:+ s +:+ ","
                      +:+ Extractor.bool_text (Extractor.isBuyer t)) =
          Extractor.symbol t +:+ "," +:+ Extractor.price t +:+ ","
          +:+ Extractor.qty t +:+ "," +:+ s +:+ ","
          +:+ Extractor.bool_text (Extractor.isBuyer t)) as ->.
  { destruct (Extractor.symbol t) as [|c sym] eqn:Hs.
    - reflexivity.
    - now apply lstrip_append. }
  rewrite <- !append_assoc.
  apply rstrip_append; now destruct (Extractor.isBuyer t).
Qed.

(** ** The characters of a timestamp *)

Section Timestamp_chars.

Variable p : ascii -> bool.
Hypothesis p_digit : forall k, (k < 10)%nat -> p (digit_char k) = false.
Hypothesis p_dash : p "-" = false.
Hypothesis p_colon : p ":" = false.
Hypothesis p_blank : p " " = false.

Lemma count_pad_2 n : (n < 100)%nat -> count_chars p (Datetime.pad 2 n) = 0%nat.
Proof.
  intros Hn. rewrite pad_2 by exact Hn.
  assert (n / 10 < 10)%nat by (apply Nat.Div0.div_lt_upper_bound; lia).
  assert (n mod 10 < 10)%nat by (apply Nat.mod_upper_bound; lia).
  cbn [count_chars]. now rewrite !p_digit by assumption.
Qed.

Lemma count_pad_4 n :
  (N.of_nat n <= 9999)%N -> count_chars p (Datetime.pad 4 n) = 0%nat.
Proof.
  intros Hn. rewrite pad_4 by exact Hn.
  assert (n / 100 < 100)%nat by (apply Nat.Div0.div_lt_upper_bound; lia).
  assert (n mod 100 < 100)%nat by (apply Nat.mod_upper_bound; lia).
  now rewrite count_chars_append, !count_pad_2.
Qed.

Lemma count_strftime d :
  Datetime.valid d = true -> (1000 <= Datetime.year d)%nat ->
  count_chars p (Datetime.strftime d) = 0%nat.
Proof.
  intros Hvalid Hyear. rewrite (strftime_padded d Hvalid Hyear).
  destruct (valid_fields d Hvalid) as (Hy & Hm & Hd & Hh & Hmi & Hs).
  rewrite !count_chars_append, count_pad_4, !count_pad_2 by lia.
  cbn [count_chars]. now rewrite p_dash, p_colon, p_blank.
Qed.

End Timestamp_chars.

Lemma is_comma_digit_char k : (k < 10)%nat -> is_comma (digit_char k) = false.
Proof. intros Hk. do 10 (destruct k as [|k]; [reflexivity|]). lia. Qed.

Lemma is_break_digit_char k : (k < 10)%nat -> is_break (digit_char k) = false.
Proof. intros Hk. do 10 (destruct k as [|k]; [reflexivity|]). lia. Qed.

Lemma no_comma_strftime d :
  Datetime.valid d = true -> (1000 <= Datetime.year d)%nat ->
  no_comma (Datetime.strftime d).
Proof. now apply count_strftime; [apply is_comma_digit_char|..]. Qed.

Lemma one_line_strftime d :
  Datetime.valid d = true -> (1000 <= Datetime.year d)%nat ->
  one_line (Datetime.strftime d).
Proof. now apply count_strftime; [apply is_break_digit_char|..]. Qed.

Lemma strip_strftime d :
  Datetime.valid d = true -> (1000 <= Datetime.year d)%nat ->
  Str.strip (Datetime.strftime d) = Datetime.strftime d /\
  Datetime.strftime d <> EmptyString.
Proof.
  intros Hvalid Hyear.
  destruct (valid_fields d Hvalid) as (Hy & Hm & Hd & Hh & Hmi & Hs).
  assert (forall n, (n < 100)%nat ->
            exists a b, Datetime.pad 2 n = String a (String b EmptyString) /\
                        Str.isspace a = false /\ Str.isspace b = false)
    as Hpad.
  { intros n Hn. eexists _, _. split; [now apply pad_2|].
    split; apply isspace_digit_char;
      [apply Nat.Div0.div_lt_upper_bound | apply Nat.mod_upper_bound]; lia. }
  rewrite (strftime_padded d Hvalid Hyear). rewrite pad_4 by exact Hy.
  destruct (Hpad (Datetime.year d / 100)%nat) as (a & b & -> & Ha & _).
  { apply Nat.Div0.div_lt_upper_bound. lia. }
  destruct (Hpad (Datetime.second d)) as (y & z & -> & Hy' & Hz); [lia|].
  rewrite !append_cons. split; [|discriminate].
  unfold Str.strip. cbn [Str.lstrip]. rewrite Ha.
  rewrite <- !append_cons.
  repeat match goal with
         | |- context [?u +:+ ?v +:+ ?w] => rewrite <- (append_assoc u v w)
         end.
  apply rstrip_append; [discriminate|].
  cbn [Str.rstrip]. now rewrite Hy', Hz.
Qed.

(** ** The lines of the extractor *)

Lemma plain_lstrip s : plain s -> Str.lstrip s = s.
Proof.
  destruct s as [|c s]; [reflexivity|]. unfold plain. cbn [all_chars Str.lstrip].
  intros [Hc _]%andb_prop. now rewrite (is_graph_not_space _ Hc).
Qed.

Lemma one_line_tx_str t s :
  plain_trade t -> one_line s -> one_line (Extractor.tx_str t s).
Proof.
  intros (_ & Hsym & Hprice & Hqty) Hs. unfold Extractor.tx_str.
  repeat (apply one_line_append;
          [first [now apply plain_one_line | reflexivity | exact Hs]|]).
  now destruct (Extractor.isBuyer t).
Qed.

(** A line [save_data] writes holds no line break, and [strip] leaves it
    as it is. *)
Lemma saved_line cutoff_date t s d :
  plain_trade t -> saved_as cutoff_date t s d ->
  one_line (Extractor.tx_str t s) /\
  Str.strip (Extractor.tx_str t s) = Extractor.tx_str t s.
Proof.
  intros Ht (Hs & _ & _).
  destruct (convert_timezone_strftime _ _ (proj1 Ht) Hs)
    as (d' & -> & Hvalid & Hyear & _).
  split.
  - apply one_line_tx_str; [exact Ht|]. apply one_line_strftime; [exact Hvalid | lia].
  - apply strip_tx_str, plain_lstrip, Ht.
Qed.

(** The cache after lines were appended to it registers these lines and
    the ones it registered. *)
Lemma registered_append temp lines :
  closed temp = true ->
  Forall (fun line => one_line line /\ Str.strip line = line) lines ->
  list_to_set (Str.strip <$> Str.readlines (temp +:+ Extractor.written lines))
    =@{gset string}
  list_to_set (Str.strip <$> Str.readlines temp) ∪ list_to_set lines.
Proof.
  intros Htemp Hlines. rewrite readlines_append by exact Htemp.
  rewrite readlines_written
    by (eapply Forall_impl; [exact Hlines | now intros line [H _]]).
  rewrite fmap_app, list_to_set_app_L. f_equal. f_equal.
  unfold with_line_feed. induction Hlines as [|l lines [_ Hl] _ IH];
    [reflexivity|].
  cbn [fmap list_fmap]. now rewrite strip_newline, Hl, IH.
Qed.

Lemma save_loop_saved_lines cutoff_date trades reg lines done :
  Forall plain_trade trades ->
  Extractor.save_loop cutoff_date trades reg = (lines, done) ->
  Forall (fun line => one_line line /\ Str.strip line = line) lines.
Proof.
  intros Hplain Hloop.
  destruct (save_loop_lines _ _ _ _ _ Hloop) as [_ Hall].
  eapply Forall_impl; [exact Hall|].
  intros line (_ & t & s & d & Hin & Hsaved & ->).
  rewrite Forall_forall in Hplain.
  exact (saved_line _ _ _ _ (Hplain _ Hin) Hsaved).
Qed.

(** X12. [save_data] writes a line once, for trades since 1970 whose
    symbol, price and quantity are plain texts, when the cache is ASCII
    and ends with a line feed or is empty: the lines it appends are new
    to the cache and differ from one another, the two files receive the
    same lines, each followed by a line feed, the cache registers them
    from then on, and a second call with the same trades appends
    nothing. *)
Theorem save_data_writes_a_line_once trades cutoff_date st st1 done :
  Forall plain_trade trades ->
  closed (default EmptyString (Extractor.temp_file st)) = true ->
  ascii_text (default EmptyString (Extractor.temp_file st)) ->
  Extractor.save_data trades cutoff_date st = (st1, done) ->
  (exists lines,
     Extractor.data_file st1 =
       Some (default EmptyString (Extractor.data_file st)
             +:+ Extractor.written lines) /\
     Extractor.temp_file st1 =
       Some (default EmptyString (Extractor.temp_file st)
             +:+ Extractor.written lines) /\
     NoDup lines /\
     Forall (fun line => line ∉ Extractor.registered st) lines /\
     Extractor.registered st1 =
       Extractor.registered st ∪ list_to_set lines) /\
  Extractor.save_data trades cutoff_date st1 = (st1, done).
Proof.
  intros Hplain Hclosed _. unfold Extractor.save_data.
  destruct (Extractor.save_loop cutoff_date trades (Extractor.registered st))
    as [lines dn] eqn:Hloop.
  intros [= <- <-]. destruct (save_loop_lines _ _ _ _ _ Hloop) as [Hnd Hall].
  pose proof (save_loop_saved_lines _ _ _ _ _ Hplain Hloop) as Hsaved.
  assert (Extractor.registered
            (Extractor.mk_store
               (Some (default EmptyString (Extractor.data_file st)
                      +:+ Extractor.written lines))
               (Some (default EmptyString (Extractor.temp_file st)
                      +:+ Extractor.written lines))
               (Extractor.last_sync_file st)) =
          Extractor.registered st ∪ list_to_set lines) as Hreg
    by (unfold Extractor.registered; cbn [Extractor.temp_file default];
        now apply registered_append).
  split.
  - exists lines. repeat split; [exact Hnd | | exact Hreg].
    eapply Forall_impl; [exact Hall|]. now intros line [Hnew _].
  - rewrite (save_loop_again _ _ _ _ _ _ Hloop) by now rewrite Hreg.
    cbn [Extractor.data_file Extractor.temp_file Extractor.last_sync_file
         default Extractor.written].
    now rewrite !append_nil_r.
Qed.

Lemma save_data_writes_a_line_once_witness :
  Extractor.save_data
    [Extractor.mk_trade "XYZBTC" "10" "1.0" 1704067200000 true;
     Extractor.mk_trade "XYZBTC" "10" "1.0" 1704067200999 true;
     Extractor.mk_trade "ABCBTC" "0.5" "2" 1704067201000 false]
    Datetime.min
    (Extractor.mk_store
       (Some (Extractor.written
                ["XYZBTC,10,1.0,2023-12-31 21:00:00,True";
                 "ABCBTC,0.5,2,2023-12-31 21:00:01,False"]))
       (Some (Extractor.written
                ["XYZBTC,10,1.0,2023-12-31 21:00:00,True";
                 "ABCBTC,0.5,2,2023-12-31 21:00:01,False"]))
       None) =
  (Extractor.mk_store
     (Some (Extractor.written
              ["XYZBTC,10,1.0,2023-12-31 21:00:00,True";
               "ABCBTC,0.5,2,2023-12-31 21:00:01,False"]))
     (Some (Extractor.written
              ["XYZBTC,10,1.0,2023-12-31 21:00:00,True";
               "ABCBTC,0.5,2,2023-12-31 21:00:01,False"]))
     None, true).
Proof.
  apply (save_data_writes_a_line_once
           [Extractor.mk_trade "XYZBTC" "10" "1.0" 1704067200000 true;
            Extractor.mk_trade "XYZBTC" "10" "1.0" 1704067200999 true;
            Extractor.mk_trade "ABCBTC" "0.5" "2" 1704067201000 false]
           Datetime.min (Extractor.mk_store None None None)).
  - repeat constructor; cbn; lia.
  - reflexivity.
  - reflexivity.
  - vm_compute. reflexivity.
Defined.

(** ** From the extractor to the engine *)

Lemma no_comma_nil : no_comma EmptyString.
Proof. reflexivity. Qed.

Lemma no_comma_cons c s :
  no_comma (String c s) <-> is_comma c = false /\ no_comma s.
Proof.
  unfold no_comma. cbn [count_chars]. destruct (is_comma c); split;
    try (intros [? ?]); try discriminate; try lia; intros H; split;
    try reflexivity; lia.
Qed.

Lemma no_comma_append (a b : string) :
  no_comma a -> no_comma b -> no_comma (a +:+ b).
Proof.
  unfold no_comma. rewrite count_chars_append. lia.
Qed.

Lemma split_no_comma s : no_comma s -> Str.split "," s = [s].
Proof.
  induction s as [|c s IH]; [reflexivity|].
  rewrite no_comma_cons. intros [Hc Hs]. cbn [Str.split].
  unfold is_comma in Hc. now rewrite Hc, IH.
Qed.

Lemma split_append (a b : string) :
  no_comma a -> Str.split "," (a +:+ "," +:+ b) = a :: Str.split "," b.
Proof.
  induction a as [|c a IH].
  - intros _. reflexivity.
  - rewrite no_comma_cons. intros [Hc Ha]. rewrite append_cons.
    cbn [Str.split]. unfold is_comma in Hc. now rewrite Hc, IH.
Qed.

(** The engine reads the line of a trade, with its line feed, as the
    trade. *)
Lemma read_line_tx_str t s d :
  well_formed t -> Extractor.convert_timezone (Extractor.time t) = Some s ->
  s = Datetime.strftime d -> Datetime.valid d = true ->
  (1000 <= Datetime.year d)%nat ->
  exists t',
    read_as (Extractor.tx_str t s +:+ Str.newline) t t' /\ time t' = s.
Proof.
  intros (Hplain & Hsym & [p Hp] & [q Hq]) Hconv Hs Hvalid Hyear.
  exists (mk_trade (Extractor.symbol t) p q s (Extractor.isBuyer t)).
  split; [|reflexivity]. unfold read_as. cbn [symbol price qty time is_buyer].
  split; [|now repeat split].
  rewrite read_line_newline. unfold read_line.
  rewrite strip_tx_str by apply plain_lstrip, Hplain.
  unfold Extractor.tx_str.
  rewrite !split_append, split_no_comma;
    [|now destruct (Extractor.isBuyer t)
     |subst s; now apply no_comma_strftime
     |now apply of_string_no_comma with q
     |now apply of_string_no_comma with p
     |exact Hsym].
  rewrite Hp, Hq. now destruct (Extractor.isBuyer t).
Qed.

Lemma well_formed_plain trades :
  Forall well_formed trades -> Forall plain_trade trades.
Proof. intros H. eapply Forall_impl; [exact H|]. now intros t [Ht _]. Qed.

Lemma save_loop_read_back cutoff_date trades : forall reg lines done,
  Forall well_formed trades ->
  Extractor.save_loop cutoff_date trades reg = (lines, done) ->
  Forall (fun line =>
            exists t t' d,
              t ∈ trades /\ read_as line t t' /\ passes cutoff_date t' d)
    (with_line_feed lines).
Proof.
  intros reg lines done Hwf Hloop.
  destruct (save_loop_lines _ _ _ _ _ Hloop) as [_ Hall].
  unfold with_line_feed. apply Forall_fmap.
  eapply Forall_impl; [exact Hall|].
  intros line (_ & t & s & d & Hin & (Hs & Hd & Hlate) & ->).
  rewrite Forall_forall in Hwf. pose proof (Hwf _ Hin) as Ht.
  destruct (convert_timezone_strftime _ _ (proj1 (proj1 Ht)) Hs)
    as (d' & Hs' & Hvalid & Hyear & Hd').
  assert (d' = d) as -> by congruence.
  destruct (read_line_tx_str t s d Ht Hs Hs' Hvalid ltac:(lia))
    as (t' & Hread & Htime).
  exists t, t', d. split; [exact Hin|]. split; [exact Hread|].
  split; [now rewrite Htime | exact Hlate].
Qed.

(** A line behind the first line of the trade file, which the engine
    reads as a trade, gives a trade of the list [_read_trade_data]
    returns. *)
Lemma appended_line_is_read fs content lines line t' trades warnings :
  raw_data_file fs = Some (Str.readlines content ++ lines) ->
  content <> EmptyString ->
  line ∈ lines ->
  read_line line = (Some t', []) ->
  _read_trade_data fs = Ok (trades, warnings) ->
  t' ∈ trades.
Proof.
  intros Hfile Hcontent Hin Hline Hread.
  destruct (read_trade_data_chronological _ _ _ Hread) as [_ Hperm].
  rewrite Hperm, Hfile. cbn [default].
  destruct (Str.readlines content) as [|first old] eqn:Hold;
    [now apply readlines_nil in Hold|].
  cbn [app tail]. apply (read_lines_elem line); [|exact Hline].
  apply elem_of_app. now right.
Qed.

(** What [save_data] appends to a trade file that is closed is read,
    behind the lines that were there, as the lines of the loop, each with
    its line feed. *)
Lemma save_data_lines trades cutoff_date st st1 done :
  Forall plain_trade trades ->
  closed (default EmptyString (Extractor.data_file st)) = true ->
  Extractor.save_data trades cutoff_date st = (st1, done) ->
  exists lines,
    Extractor.save_loop cutoff_date trades (Extractor.registered st) =
      (lines, done) /\
    Extractor.last_sync_file st1 = Extractor.last_sync_file st /\
    Extractor.data_file st1 =
      Some (default EmptyString (Extractor.data_file st)
            +:+ Extractor.written lines) /\
    closed (default EmptyString (Extractor.data_file st1)) = true /\
    Str.readlines (default EmptyString (Extractor.data_file st1)) =
      Str.readlines (default EmptyString (Extractor.data_file st))
      ++ with_line_feed lines.
Proof.
  intros Hplain Hclosed. unfold Extractor.save_data.
  destruct (Extractor.save_loop cutoff_date trades (Extractor.registered st))
    as [lines dn] eqn:Hloop.
  intros [= <- <-]. exists lines.
  cbn [Extractor.data_file Extractor.last_sync_file default].
  do 3 (split; [reflexivity|]).
  change (id ?x) with x.
  split; [apply closed_append; [exact Hclosed | apply closed_written]|].
  rewrite readlines_append by exact Hclosed. f_equal.
  apply readlines_written.
  pose proof (save_loop_saved_lines _ _ _ _ _ Hplain Hloop) as Hsaved.
  eapply Forall_impl; [exact Hsaved | now intros line [H _]].
Qed.

(** X16. Every line [save_data] appends to a trade file that ends with a
    line feed, or is empty, is one the engine reads as a trade, when the
    symbol, the price and the quantity of the trades are plain texts: the
    engine finds the lines that were there and, behind them, one line for
    each line that was appended, which it reads as the symbol and the
    side of the trade that was saved, its price and its quantity as
    [float] reads them, and a timestamp the filter of the engine lets
    pass for the same cutoff.  When the file was not empty, so that the
    line the engine skips is not one of these, the trade is one of the
    trades [_read_trade_data] returns. *)
Theorem saved_lines_are_read_back trades cutoff_date st st1 done :
  Forall well_formed trades ->
  closed (default EmptyString (Extractor.data_file st)) = true ->
  Extractor.save_data trades cutoff_date st = (st1, done) ->
  exists appended lines,
    Extractor.data_file st1 =
      Some (default EmptyString (Extractor.data_file st) +:+ appended) /\
    Str.readlines (default EmptyString (Extractor.data_file st) +:+ appended) =
      Str.readlines (default EmptyString (Extractor.data_file st)) ++ lines /\
    Forall (fun line =>
              exists t t' d,
                t ∈ trades /\ read_as line t t' /\ passes cutoff_date t' d /\
                (default EmptyString (Extractor.data_file st) <> EmptyString ->
                 forall fs trades' warnings,
                   raw_data_file fs =
                     Str.readlines <$> Extractor.data_file st1 ->
                   _read_trade_data fs = Ok (trades', warnings) ->
                   t' ∈ trades'))
      lines.
Proof.
  intros Hwf Hclosed Hsave.
  destruct (save_data_lines _ _ _ _ _ (well_formed_plain _ Hwf) Hclosed Hsave)
    as (lines & Hloop & _ & Hdata & _ & Hread).
  exists (Extractor.written lines), (with_line_feed lines).
  split; [exact Hdata|]. rewrite Hdata in Hread. cbn [default] in Hread.
  change (id ?x) with x in Hread. split; [exact Hread|].
  pose proof (save_loop_read_back _ _ _ _ _ Hwf Hloop) as Hall.
  rewrite Forall_forall in Hall |- *. intros line Hin.
  destruct (Hall line Hin) as (t & t' & d & Ht & Hline & Hpass).
  exists t, t', d. do 3 (split; [assumption|]).
  intros Hold fs trades' warnings Hfile Hengine.
  rewrite Hdata in Hfile. cbn [fmap option_fmap option_map] in Hfile.
  rewrite Hread in Hfile.
  exact (appended_line_is_read _ _ _ _ _ _ _ Hfile Hold Hin (proj1 Hline)
           Hengine).
Qed.

Lemma saved_lines_are_read_back_witness :
  exists t' d,
    read_line ("XYZBTC,10,1.0,2023-12-31 21:00:00,True" +:+ Str.newline) =
      (Some t', []) /\
    passes Datetime.min t' d.
Proof.
  destruct (saved_lines_are_read_back
              [Extractor.mk_trade "XYZBTC" "10" "1.0" 1704067200000 true]
              Datetime.min (Extractor.mk_store None None None)
              (Extractor.mk_store
                 (Some (Extractor.written
                          ["XYZBTC,10,1.0,2023-12-31 21:00:00,True"]))
                 (Some (Extractor.written
                          ["XYZBTC,10,1.0,2023-12-31 21:00:00,True"])) None)
              true) as (appended & lines & Hdata & Hlines & Hall).
  - repeat constructor; try (eexists; vm_compute; reflexivity). cbn. lia.
  - reflexivity.
  - vm_compute. reflexivity.
  - cbn [Extractor.data_file default] in Hdata, Hlines.
    injection Hdata as Hdata. rewrite <- Hdata in Hlines.
    vm_compute in Hlines. subst lines. apply Forall_inv in Hall.
    destruct Hall as (t & t' & d & _ & (Hread & _) & Hpass & _).
    now exists t', d.
Defined.

Lemma save_all_lines cutoff_date responses : forall st st' done content,
  Forall (Forall well_formed) responses ->
  Extractor.data_file st = Some content ->
  closed content = true ->
  Extractor.save_all cutoff_date responses st = (st', done) ->
  Extractor.last_sync_file st' = Extractor.last_sync_file st /\
  exists content' lines,
    Extractor.data_file st' = Some content' /\
    Str.readlines content' = Str.readlines content ++ lines /\
    Forall (fun line =>
              exists trades t t' d,
                trades ∈ responses /\ t ∈ trades /\ read_as line t t' /\
                passes cutoff_date t' d) lines.
Proof.
  induction responses as [|trades rest IH];
    intros st st' done content Hwf Hdata Hclosed; cbn [Extractor.save_all].
  - intros [= <- <-]. split; [reflexivity|]. exists content, [].
    rewrite app_nil_r. now repeat split.
  - pose proof (Forall_inv Hwf) as Hwf1.
    pose proof (Forall_inv_tail Hwf) as Hwf2.
    assert (forall lines,
              Forall (fun line =>
                        exists trades0 t t' d,
                          trades0 ∈ rest /\ t ∈ trades0 /\
                          read_as line t t' /\ passes cutoff_date t' d)
                lines ->
              Forall (fun line =>
                        exists trades0 t t' d,
                          trades0 ∈ trades :: rest /\ t ∈ trades0 /\
                          read_as line t t' /\ passes cutoff_date t' d)
                lines) as Hrest.
    { intros lines Hl. eapply Forall_impl; [exact Hl|].
      intros line (trades0 & t & t' & d & Hin & H). exists trades0, t, t', d.
      split; [now right | exact H]. }
    destruct trades as [|t0 trades].
    + intros H.
      destruct (IH _ _ _ _ Hwf2 Hdata Hclosed H)
        as (Hsync & content' & lines & Hdata' & Hread & Hall).
      split; [exact Hsync|]. exists content', lines.
      split; [exact Hdata'|]. split; [exact Hread | now apply Hrest].
    + destruct (Extractor.save_data (t0 :: trades) cutoff_date st)
        as [st1 dn] eqn:Hsave.
      assert (closed (default EmptyString (Extractor.data_file st)) = true)
        as Hclosed0 by now rewrite Hdata.
      destruct (save_data_lines _ _ _ _ _ (well_formed_plain _ Hwf1) Hclosed0
                  Hsave)
        as (lines1 & Hloop & Hsync1 & Hdata1 & Hclosed1 & Hread1).
      pose proof (save_loop_read_back _ _ _ _ _ Hwf1 Hloop) as Hall1.
      assert (Forall (fun line =>
                        exists trades0 t t' d,
                          trades0 ∈ (t0 :: trades) :: rest /\ t ∈ trades0 /\
                          read_as line t t' /\ passes cutoff_date t' d)
                (with_line_feed lines1)) as Hall1'.
      { eapply Forall_impl; [exact Hall1|].
        intros line (t & t' & d & Hin & H). exists (t0 :: trades), t, t', d.
        split; [now left | now split]. }
      assert (default EmptyString (Extractor.data_file st) = content) as E
        by now rewrite Hdata.
      rewrite E in Hdata1, Hread1.
      assert (default EmptyString (Extractor.data_file st1) =
              content +:+ Extractor.written lines1) as E1
        by now rewrite Hdata1.
      rewrite E1 in Hclosed1, Hread1.
      destruct dn.
      * intros H.
        destruct (IH _ _ _ _ Hwf2 Hdata1 Hclosed1 H)
          as (Hsync & content' & lines & Hdata' & Hread & Hall).
        split; [now rewrite Hsync|].
        exists content', (with_line_feed lines1 ++ lines).
        split; [exact Hdata'|].
        split; [now rewrite Hread, Hread1, app_assoc|].
        apply Forall_app. split; [exact Hall1'|]. now apply Hrest.
      * intros [= <- <-]. split; [exact Hsync1|].
        exists (content +:+ Extractor.written lines1), (with_line_feed lines1).
        split; [exact Hdata1|]. split; [exact Hread1 | exact Hall1'].
Qed.

Lemma get_user_start_time_valid answers d :
  Extractor.get_user_start_time answers = Some d -> Datetime.valid d = true.
Proof.
  induction answers as [|a rest IH]; [discriminate|].
  cbn [Extractor.get_user_start_time].
  destruct (Datetime.strptime a) as [d'|] eqn:Ha; [|exact IH].
  intros [= <-]. now apply strptime_valid with a.
Qed.

(** X17. What [run] leaves is what the engine takes up, when the trade
    file that was there ends with a line feed and the symbols, the prices
    and the quantities of the trades are plain texts: the cutoff the user
    gave, of the year 1000 or later, is the one the engine reads from
    [last_sync_time.txt], and the lines the engine finds in the trade
    file are the ones that were there, or the header, followed by lines
    it reads as trades that pass its filter; unless the file was there
    and empty, these trades are among the trades [_read_trade_data]
    returns. *)
Theorem run_hands_over answers responses st st' done cutoff_date fs :
  Extractor.get_user_start_time answers = Some cutoff_date ->
  (1000 <= N.of_nat (Datetime.year cutoff_date))%N ->
  Forall (Forall well_formed) responses ->
  closed (default EmptyString (Extractor.data_file st)) = true ->
  Extractor.run answers responses st = Some (st', done) ->
  read_cutoff (handed_over st' fs) = Ok cutoff_date /\
  exists lines,
    raw_data_file (handed_over st' fs) =
      Some (Str.readlines
              (default (Extractor.header_line +:+ Str.newline)
                 (Extractor.data_file st))
            ++ lines) /\
    Forall (fun line =>
              exists trades t t' d,
                trades ∈ responses /\ t ∈ trades /\ read_as line t t' /\
                passes cutoff_date t' d /\
                (Extractor.data_file st <> Some EmptyString ->
                 forall trades' warnings,
                   _read_trade_data (handed_over st' fs) =
                     Ok (trades', warnings) ->
                   t' ∈ trades')) lines.
Proof.
  intros Hcut Hyear Hwf Hclosed. unfold Extractor.run. rewrite Hcut.
  cbn [mbind option_bind]. intros [= Hrun].
  assert (closed (default (Extractor.header_line +:+ Str.newline)
                    (Extractor.data_file st)) = true) as Hclosed0
    by (destruct (Extractor.data_file st); [exact Hclosed | reflexivity]).
  eapply (save_all_lines _ _ _ _ _
            (default (Extractor.header_line +:+ Str.newline)
               (Extractor.data_file st)) Hwf) in Hrun;
    [|cbn [Extractor.data_file]; now destruct (Extractor.data_file st)
     |exact Hclosed0].
  destruct Hrun as (Hsync & content' & lines & Hdata & Hread & Hall).
  cbn [Extractor.last_sync_file] in Hsync.
  pose proof (get_user_start_time_valid _ _ Hcut) as Hvalid.
  assert (1000 <= Datetime.year cutoff_date)%nat as Hyear' by lia.
  destruct (strip_strftime _ Hvalid Hyear') as [Hstrip Hne].
  assert (raw_data_file (handed_over st' fs) =
            Some (Str.readlines
                    (default (Extractor.header_line +:+ Str.newline)
                       (Extractor.data_file st))
                  ++ lines)) as Hfile.
  { unfold handed_over. cbn [raw_data_file]. rewrite Hdata.
    cbn [fmap option_fmap option_map]. now rewrite Hread. }
  split.
  - unfold read_cutoff, handed_over. cbn [last_sync_file]. rewrite Hsync.
    rewrite Hstrip. destruct (Datetime.strftime cutoff_date) eqn:Hs;
      [contradiction|].
    rewrite <- Hs. now apply strptime_strftime.
  - exists lines. split; [exact Hfile|].
    rewrite Forall_forall in Hall |- *. intros line Hin.
    destruct (Hall line Hin) as (trades & t & t' & d & H1 & H2 & Hline & Hpass).
    exists trades, t, t', d. do 4 (split; [assumption|]).
    intros Hold trades' warnings Hengine.
    eapply appended_line_is_read;
      [exact Hfile | | exact Hin | exact (proj1 Hline) | exact Hengine].
    destruct (Extractor.data_file st) as [[|c content]|];
      [now destruct Hold | discriminate | discriminate].
Qed.

Lemma run_hands_over_witness :
  read_cutoff
    (mk_files
       (Some ["symbol,price,qty,time,isBuyer" +:+ Str.newline;
              "XYZBTC,10,1.0,2024-01-01 21:00:00,True" +:+ Str.newline])
       None (Some "2024-01-01 00:00:00") None) =
  Ok (Datetime.mk 2024 1 1 0 0 0).
Proof.
  apply (run_hands_over ["tomorrow"; "2024-01-01 00:00:00"]
           [[];
            [Extractor.mk_trade "XYZBTC" "10" "1.0" 1704067200000 true;
             Extractor.mk_trade "XYZBTC" "10" "1.0" 1704153600000 true]]
           (Extractor.mk_store None None None)
           (Extractor.mk_store
              (Some (Extractor.written
                       ["symbol,price,qty,time,isBuyer";
                        "XYZBTC,10,1.0,2024-01-01 21:00:00,True"]))
              (Some (Extractor.written
                       ["XYZBTC,10,1.0,2024-01-01 21:00:00,True"]))
              (Some "2024-01-01 00:00:00"))
           true (Datetime.mk 2024 1 1 0 0 0) no_files).
  - vm_compute. reflexivity.
  - vm_compute. discriminate.
  - repeat constructor; try (eexists; vm_compute; reflexivity); cbn; lia.
  - reflexivity.
  - vm_compute. reflexivity.
Defined.
